(** * Commodity dashboard: indicator formulas and page logic

    A shallow embedding of the Streamlit pages [pages/Candle Stick Viewer.py],
    [pages/Metals.py] and [pages/Oil.py], and of the pandas / numpy
    operations they call, followed by the properties stated about them.

    Conventions of the embedding.
    - A float64 is an extended real: a finite real, one of the two
      infinities, or NaN.  Arithmetic is exact: rounding, overflow and the
      sign of zero are not represented.  Special values follow IEEE 754.
    - A pandas Series is the list of its values; a datetime index is a list
      of timestamps (integers, nanoseconds since the epoch).
    - A page is a computation that emits Streamlit elements in order and
      either finishes or is interrupted by an exception ([st.stop()] is the
      exception [StopException], as in Streamlit). *)

From Stdlib Require Import Reals Lra Lia ZArith String List Bool Arith.
From Stdlib Require Import DecimalString Permutation Sorted.
Import ListNotations.

Set Implicit Arguments.

(** ** Decidable comparisons on the reals, as booleans *)

Definition R_eqb (a b : R) : bool := if Req_dec_T a b then true else false.
Definition R_ltb (a b : R) : bool := if Rlt_dec a b then true else false.
Definition R_leb (a b : R) : bool := if Rle_dec a b then true else false.

Arguments R_eqb : simpl never.
Arguments R_ltb : simpl never.
Arguments R_leb : simpl never.

(** ** float64 *)

Module F64.

Inductive t : Type :=
| Fin (r : R)
| PInf
| NInf
| NaN.

Definition of_Z (z : Z) : t := Fin (IZR z).
Definition of_nat (n : nat) : t := Fin (INR n).

Definition isnan (x : t) : bool :=
  match x with NaN => true | _ => false end.

Definition isinf (x : t) : bool :=
  match x with PInf | NInf => true | _ => false end.

Definition isfinite (x : t) : bool :=
  match x with Fin _ => true | _ => false end.

Definition neg (x : t) : t :=
  match x with
  | Fin r => Fin (- r)
  | PInf => NInf
  | NInf => PInf
  | NaN => NaN
  end.

Definition add (x y : t) : t :=
  match x, y with
  | NaN, _ | _, NaN => NaN
  | Fin a, Fin b => Fin (a + b)
  | PInf, NInf | NInf, PInf => NaN
  | PInf, _ | _, PInf => PInf
  | NInf, _ | _, NInf => NInf
  end.

Definition sub (x y : t) : t := add x (neg y).

(** The infinity whose sign is the sign of the finite non-zero [a],
    NaN when [a] is zero (inf * 0). *)
Definition scale_inf (a : R) (pos neg : t) : t :=
  if R_eqb a 0 then NaN else if R_ltb 0 a then pos else neg.

Definition mul (x y : t) : t :=
  match x, y with
  | NaN, _ | _, NaN => NaN
  | Fin a, Fin b => Fin (a * b)
  | Fin a, PInf | PInf, Fin a => scale_inf a PInf NInf
  | Fin a, NInf | NInf, Fin a => scale_inf a NInf PInf
  | PInf, PInf | NInf, NInf => PInf
  | PInf, NInf | NInf, PInf => NInf
  end.

(** numpy division: a zero divisor gives an infinity (or NaN for 0/0),
    never an exception. *)
Definition div (x y : t) : t :=
  match x, y with
  | NaN, _ | _, NaN => NaN
  | Fin a, Fin b =>
      if R_eqb b 0
      then (if R_eqb a 0 then NaN else if R_ltb 0 a then PInf else NInf)
      else Fin (a / b)
  | Fin _, PInf | Fin _, NInf => Fin 0
  | PInf, Fin b => if R_ltb b 0 then NInf else PInf
  | NInf, Fin b => if R_ltb b 0 then PInf else NInf
  | PInf, PInf | PInf, NInf | NInf, PInf | NInf, NInf => NaN
  end.

Definition sqrt (x : t) : t :=
  match x with
  | Fin a => if R_ltb a 0 then NaN else Fin (R_sqrt.sqrt a)
  | PInf => PInf
  | NInf | NaN => NaN
  end.

(** Comparisons: every comparison with NaN is false, except [!=]. *)
Definition eqb (x y : t) : bool :=
  match x, y with
  | Fin a, Fin b => R_eqb a b
  | PInf, PInf | NInf, NInf => true
  | _, _ => false
  end.

Definition ltb (x y : t) : bool :=
  match x, y with
  | NaN, _ | _, NaN => false
  | Fin a, Fin b => R_ltb a b
  | NInf, Fin _ | NInf, PInf | Fin _, PInf => true
  | _, _ => false
  end.

Definition leb (x y : t) : bool := ltb x y || eqb x y.
Definition gtb (x y : t) : bool := ltb y x.
Definition geb (x y : t) : bool := leb y x.
Definition neqb (x y : t) : bool := negb (eqb x y).

(** Order as propositions, for statements. *)
Definition lt (x y : t) : Prop := ltb x y = true.
Definition le (x y : t) : Prop := leb x y = true.

End F64.

Abbreviation f64 := F64.t.

(** ** Python exceptions and results *)

Inductive exn : Type :=
| ZeroDivisionError
| IndexError
| KeyError
| ValueError
| TypeError
| StopException.

Inductive result (A : Type) : Type :=
| Ok (a : A)
| Raise (e : exn).

Arguments Ok {A} a.
Arguments Raise {A} e.

(** [StopException] derives from [BaseException] in Streamlit's script
    runner, so an [except Exception] clause does not catch it. *)
Definition is_Exception (e : exn) : bool :=
  match e with
  | StopException => false
  | _ => true
  end.

(** ** Python floats: [/] raises on a zero divisor *)

Module PyFloat.

Definition truediv (x y : f64) : result f64 :=
  if F64.eqb y (F64.Fin 0) then Raise ZeroDivisionError
  else Ok (F64.div x y).

End PyFloat.

(** ** Streamlit elements and the page monad *)

Inductive trace : Type :=
| Candlestick (x : list Z) (open high low close : list f64)
| Bar (x : list Z) (y : list f64) (name : string)
| Scatter (x : list Z) (y : list f64) (name : string)
| Histogram (values : list f64).

Definition trace_x (tr : trace) : list Z :=
  match tr with
  | Candlestick x _ _ _ _ => x
  | Bar x _ _ => x
  | Scatter x _ _ => x
  | Histogram _ => []
  end.

Inductive element : Type :=
| st_error (msg : string)
| st_warning (msg : string)
| st_info (msg : string)
| st_caption (msg : string)
| st_metric (label : string) (value : option f64) (delta : option f64)
| st_plotly_chart (fig : list trace).

Definition is_error (e : element) : bool :=
  match e with st_error _ => true | _ => false end.

Definition is_metric (e : element) : bool :=
  match e with st_metric _ _ _ => true | _ => false end.

Definition is_chart (e : element) : bool :=
  match e with st_plotly_chart _ => true | _ => false end.

(** What a script run leaves on the page, and how it ended. *)
Definition ui (A : Type) : Type := (list element * result A)%type.

Definition ret {A} (a : A) : ui A := ([], Ok a).

Definition bind {A B} (m : ui A) (k : A -> ui B) : ui B :=
  match m with
  | (out, Raise e) => (out, Raise e)
  | (out, Ok a) => let (out', r) := k a in (out ++ out', r)
  end.

Definition emit (e : element) : ui unit := ([e], Ok tt).
Definition raise {A} (e : exn) : ui A := ([], Raise e).
Definition st_stop {A} : ui A := raise StopException.
Definition lift {A} (r : result A) : ui A := ([], r).

Declare Scope ui_scope.
Delimit Scope ui_scope with ui.
Notation "x <- m ;; k" := (bind m (fun x => k))
  (at level 61, m at next level, right associativity) : ui_scope.
Notation "m ;; k" := (bind m (fun _ => k))
  (at level 61, right associativity) : ui_scope.

Definition rendered {A} (m : ui A) : list element := fst m.
Definition outcome {A} (m : ui A) : result A := snd m.

(** All x-values that some chart of the run puts on screen. *)
Definition rendered_x {A} (m : ui A) : list Z :=
  flat_map (fun e => match e with
                     | st_plotly_chart fig => flat_map trace_x fig
                     | _ => []
                     end) (rendered m).

(** Results compose like exceptions propagate. *)
Definition and_then {A B} (r : result A) (k : A -> result B) : result B :=
  match r with
  | Ok a => k a
  | Raise e => Raise e
  end.

Fixpoint map_result {A B} (f : A -> result B) (xs : list A) : result (list B) :=
  match xs with
  | [] => Ok []
  | x :: rest =>
      and_then (f x) (fun y =>
      and_then (map_result f rest) (fun ys => Ok (y :: ys)))
  end.

Definition string_of_Z (z : Z) : string := NilZero.string_of_int (Z.to_int z).

(** ** pandas and numpy operations used by the pages *)

Module Pandas.

Import F64.

Definition Series : Type := list f64.

(** Element-wise binary operation on two aligned Series. *)
Definition map2 (op : f64 -> f64 -> f64) (xs ys : Series) : Series :=
  map (fun p => op (fst p) (snd p)) (combine xs ys).

(** [s.shift(1)] *)
Definition shift1 (xs : Series) : Series :=
  match xs with
  | [] => []
  | _ :: _ => NaN :: removelast xs
  end.

(** [s.diff()] is [s - s.shift(1)]. *)
Definition diff (xs : Series) : Series := map2 sub xs (shift1 xs).

(** [s.pct_change()] is [s / s.shift(1) - 1]. *)
Definition pct_change (xs : Series) : Series :=
  map (fun r => sub r (Fin 1)) (map2 div xs (shift1 xs)).

(** [s.where(cond, other)]: keep the value where [cond] holds. *)
Definition where_ (cond : list bool) (other : f64) (xs : Series) : Series :=
  map (fun p : bool * f64 => if fst p then snd p else other) (combine cond xs).

(** [df[mask]]: boolean indexing of one column. *)
Definition mask_select {A} (mask : list bool) (xs : list A) : list A :=
  map snd (filter fst (combine mask xs)).

(** Rolling aggregations first turn infinities into NaN, then skip NaN. *)
Definition prep_values (xs : Series) : Series :=
  map (fun x => if isinf x then NaN else x) xs.

Definition observations (xs : Series) : Series :=
  filter (fun x => negb (isnan x)) xs.

Definition sum (xs : Series) : f64 := fold_right add (Fin 0) xs.

Definition mean (obs : Series) : f64 :=
  div (sum obs) (of_nat (length obs)).

(** Variance with [ddof] delta degrees of freedom; NaN unless there are
    more than [ddof] observations. *)
Definition var (ddof : nat) (obs : Series) : f64 :=
  if (length obs <=? ddof)%nat then NaN
  else
    let m := mean obs in
    div (sum (map (fun x => mul (sub x m) (sub x m)) obs))
        (of_nat (length obs - ddof)).

(** The square root of the variance, which is never negative in exact
    arithmetic. *)
Definition std (ddof : nat) (obs : Series) : f64 := sqrt (var ddof obs).

(** Insertion sort, standing for the ordered skiplist of the rolling
    quantile. *)
Fixpoint insert_sorted (x : f64) (xs : Series) : Series :=
  match xs with
  | [] => [x]
  | y :: ys => if leb x y then x :: y :: ys else y :: insert_sorted x ys
  end.

Definition sort (xs : Series) : Series := fold_right insert_sorted [] xs.

(** Quantile with linear interpolation:
    [idx_with_fraction = q * (nobs - 1)], [idx] its integer part. *)
Definition quantile (q : R) (obs : Series) : f64 :=
  let sorted := sort obs in
  let idx_with_fraction := (q * (INR (length obs) - 1))%R in
  let idx := Z.to_nat (Int_part idx_with_fraction) in
  if R_eqb idx_with_fraction (INR idx) then nth idx sorted NaN
  else
    let vlow := nth idx sorted NaN in
    let vhigh := nth (idx + 1) sorted NaN in
    add vlow (mul (sub vhigh vlow) (Fin (idx_with_fraction - INR idx))).

(** The rows of a fixed window of [w] observations ending at row [i]. *)
Definition window_fixed (w i : nat) (xs : Series) : Series :=
  skipn (i + 1 - w) (firstn (i + 1) xs).

(** [s.rolling(w)] followed by an aggregation; [min_periods] defaults to
    the window length. *)
Definition rolling (w : nat) (agg : Series -> f64) (xs : Series) : Series :=
  map (fun i =>
         let obs := observations (window_fixed w i (prep_values xs)) in
         if (length obs <? w)%nat then NaN else agg obs)
      (seq 0 (length xs)).

(** Length of an offset window ["<n>D"] in nanoseconds. *)
Definition ns_per_day : Z := 86400 * 1000000000.
Definition days (n : Z) : Z := n * ns_per_day.

(** The rows of the offset window ending at row [i]: the rows [j <= i]
    whose timestamp lies in [(index[i] - w, index[i]]] (the window is
    closed on the right).  This is the window of pandas on a
    monotonically increasing index, the only kind it accepts. *)
Definition window_time (w : Z) (index : list Z) (i : nat) (xs : Series)
  : Series :=
  let t_i := nth i index 0%Z in
  map snd (filter (fun p => (t_i - w <? fst p)%Z)
                  (firstn (i + 1) (combine index xs))).

(** [s.rolling("<n>D")] on a datetime index followed by an aggregation;
    [min_periods] defaults to 1 for offset windows. *)
Definition rolling_time (w : Z) (agg : Series -> f64)
           (index : list Z) (xs : Series) : Series :=
  map (fun i =>
         let obs := observations (window_time w index i (prep_values xs)) in
         if (length obs <? 1)%nat then NaN else agg obs)
      (seq 0 (length xs)).

(** [s.ewm(span=..., adjust=...).mean()], following the loop of the
    pandas kernel with [ignore_na=False] and [min_periods=0].  As for
    every window aggregation, pandas first replaces infinite values by
    NaN ([prep_values], in [ewm_mean]). *)
Fixpoint ewm_loop (old_wt_factor new_wt : R) (adjust : bool)
         (weighted : f64) (old_wt : R) (nobs : nat) (vals : Series)
  : Series :=
  match vals with
  | [] => []
  | cur :: rest =>
      let is_observation := negb (isnan cur) in
      let nobs' := (nobs + if is_observation then 1 else 0)%nat in
      let '(weighted', old_wt') :=
        if negb (isnan weighted) then
          let old_wt1 := (old_wt * old_wt_factor)%R in
          if is_observation then
            (if neqb weighted cur
             then div (add (mul (Fin old_wt1) weighted) (mul (Fin new_wt) cur))
                      (Fin (old_wt1 + new_wt))
             else weighted,
             if adjust then (old_wt1 + new_wt)%R else 1%R)
          else (weighted, old_wt1)
        else if is_observation then (cur, old_wt)
        else (weighted, old_wt) in
      (if (1 <=? nobs')%nat then weighted' else NaN)
        :: ewm_loop old_wt_factor new_wt adjust weighted' old_wt' nobs' rest
  end.

Definition ewm_mean (span : R) (adjust : bool) (vals : Series) : Series :=
  let com := ((span - 1) / 2)%R in
  let alpha := (1 / (1 + com))%R in
  let old_wt_factor := (1 - alpha)%R in
  let new_wt := if adjust then 1%R else alpha in
  match prep_values vals with
  | [] => []
  | v0 :: rest =>
      let nobs := if isnan v0 then 0%nat else 1%nat in
      (if (1 <=? nobs)%nat then v0 else NaN)
        :: ewm_loop old_wt_factor new_wt adjust v0 1 nobs rest
  end.

(** *** Data frames: a datetime column and named float columns *)

Record DataFrame : Type := {
  Date : list Z;
  columns : list (string * Series)
}.

Definition empty (df : DataFrame) : bool :=
  match Date df, columns df with
  | [], _ | _, [] => true
  | _, _ => false
  end.

(** [df[name]].  The pages read columns they have selected or stored
    before; a label that is missing, a [KeyError] in pandas, reads as the
    empty Series here. *)
Fixpoint lookup (name : string) (cols : list (string * Series))
  : option Series :=
  match cols with
  | [] => None
  | (n, col) :: rest => if String.eqb n name then Some col else lookup name rest
  end.

Definition get (df : DataFrame) (name : string) : Series :=
  match lookup name (columns df) with
  | Some col => col
  | None => []
  end.

(** [df[name] = col]: overwrite the column in place, or append it. *)
Fixpoint assign (name : string) (col : Series) (cols : list (string * Series))
  : list (string * Series) :=
  match cols with
  | [] => [(name, col)]
  | (n, c) :: rest =>
      if String.eqb n name then (n, col) :: rest
      else (n, c) :: assign name col rest
  end.

Definition set (df : DataFrame) (name : string) (col : Series) : DataFrame :=
  {| Date := Date df; columns := assign name col (columns df) |}.

Definition has_column (df : DataFrame) (name : string) : bool :=
  match lookup name (columns df) with
  | Some _ => true
  | None => false
  end.

(** [df[[n1; ...; nk]]]; a missing label is a [KeyError]. *)
Definition select (df : DataFrame) (names : list string) : result DataFrame :=
  and_then
    (map_result (fun n => match lookup n (columns df) with
                          | Some col => Ok (n, col)
                          | None => Raise KeyError
                          end) names)
    (fun cols => Ok {| Date := Date df; columns := cols |}).

(** [df[mask]] *)
Definition filter_rows (df : DataFrame) (mask : list bool) : DataFrame :=
  {| Date := mask_select mask (Date df);
     columns := map (fun c => (fst c, mask_select mask (snd c))) (columns df) |}.

(** Mask of the rows with no NaN in any column ([how="any"]). *)
Definition notna_rows (df : DataFrame) : list bool :=
  map (fun i => forallb (fun c => negb (isnan (nth i (snd c) NaN))) (columns df))
      (seq 0 (length (Date df))).

Definition dropna (df : DataFrame) : DataFrame :=
  filter_rows df (notna_rows df).

(** Apply a Series operation to every column. *)
Definition map_columns (f : Series -> Series) (df : DataFrame) : DataFrame :=
  {| Date := Date df; columns := map (fun c => (fst c, f (snd c))) (columns df) |}.

(** [df.rename(columns=f)] *)
Definition rename (f : string -> string) (df : DataFrame) : DataFrame :=
  {| Date := Date df; columns := map (fun c => (f (fst c), snd c)) (columns df) |}.

(** Mask of the rows with a value in at least one column ([how="all"]). *)
Definition notallna_rows (df : DataFrame) : list bool :=
  map (fun i => existsb (fun c => negb (isnan (nth i (snd c) NaN))) (columns df))
      (seq 0 (length (Date df))).

Definition dropna_all (df : DataFrame) : DataFrame :=
  filter_rows df (notallna_rows df).

(** [px.line(df, x=df.index, y=df.columns)]: one line per column.  An
    empty frame is refused with a [ValueError]. *)
Definition px_line (df : DataFrame) : result (list trace) :=
  if empty df then Raise ValueError
  else Ok (map (fun c => Scatter (Date df) (snd c) (fst c)) (columns df)).

(** [np.percentile(a, p)] with the default linear interpolation. *)
Definition np_percentile (xs : Series) (p : R) : f64 :=
  if existsb isnan xs then NaN else quantile (p / 100) xs.

(** [df.iloc[-1]] of a Series *)
Definition iloc_last (xs : Series) : result f64 :=
  match xs with
  | [] => Raise IndexError
  | _ :: _ => Ok (last xs NaN)
  end.

(** *** What [yf.download] returns: columns keyed by (price field, ticker) *)

Record RawFrame : Type := {
  raw_index : list Z;
  is_multiindex : bool;
  raw_columns : list ((string * string) * Series)
}.

Definition raw_empty (raw : RawFrame) : bool :=
  match raw_index raw, raw_columns raw with
  | [], _ | _, [] => true
  | _, _ => false
  end.

(** [raw.columns.get_level_values(0)] *)
Definition level0 (raw : RawFrame) : list string :=
  map (fun c => fst (fst c)) (raw_columns raw).

(** The frame with the level-0 labels as column names. *)
Definition flatten (raw : RawFrame) : DataFrame :=
  {| Date := raw_index raw;
     columns := map (fun c => (fst (fst c), snd c)) (raw_columns raw) |}.

(** [raw[field]] on two-level columns: the columns of that price field,
    named by ticker. *)
Definition raw_field (raw : RawFrame) (field : string) : result DataFrame :=
  if existsb (String.eqb field) (level0 raw)
  then Ok {| Date := raw_index raw;
             columns := map (fun c => (snd (fst c), snd c))
                            (filter (fun c => String.eqb (fst (fst c)) field)
                                    (raw_columns raw)) |}
  else Raise KeyError.

End Pandas.

(** ** The market-data provider (yfinance), an external collaborator *)

(** [float(info.last_price)] and [float(info.previous_close)]: the quote
    is fetched when the attribute is read, so each of the two yields a
    float or raises (the request fails, or the field is [None] and
    [float] raises [TypeError]). *)
Record FastInfo : Type := {
  last_price : result f64;
  previous_close : result f64
}.

(** [download tickers start end interval] and [Ticker(t).fast_info].
    Dates are days since the epoch. *)
Record YFinance : Type := {
  download : list string -> Z -> Z -> string -> Pandas.RawFrame;
  fast_info : string -> FastInfo
}.

(** Both fields of the quote of ticker [t] can be read, and hold [last]
    and [prev]. *)
Definition quoted (yf : YFinance) (t : string) (last prev : f64) : Prop :=
  last_price (fast_info yf t) = Ok last /\
  previous_close (fast_info yf t) = Ok prev.

(** [pd.to_datetime(date)]: midnight of that day. *)
Definition to_datetime (d : Z) : Z := Pandas.days d.

Definition footer : ui unit :=
  emit (st_caption
          "This dashboard is for educational/analytical use only. Data powered by Yahoo Finance and the yfinance python module.").

(** ** pages/Candle Stick Viewer.py *)

Module CandleStickViewer.

Import F64 Pandas.
Local Open Scope string_scope.
Local Open Scope ui_scope.

(** Lines 132-135. *)
Definition change_pct (last_price prev_close : f64) : result f64 :=
  and_then (PyFloat.truediv (sub last_price prev_close) prev_close)
           (fun q => Ok (mul q (Fin 100))).

(** [(data["Date"] >= pd.to_datetime(start)) & (data["Date"] <= pd.to_datetime(end))] *)
Definition in_range (start end_ : Z) (data : DataFrame) : list bool :=
  map (fun d => (to_datetime start <=? d)%Z && (d <=? to_datetime end_)%Z)
      (Date data).

Definition display_range (start end_ : Z) (data : DataFrame) : DataFrame :=
  filter_rows data (in_range start end_ data).

Definition candles (df : DataFrame) : trace :=
  Candlestick (Date df) (get df "Open") (get df "High") (get df "Low")
              (get df "Close").

(** Top row: quick metrics (lines 130-143). *)
Definition quick_metrics (yf : YFinance) (selected : string) : ui unit :=
  let info := fast_info yf selected in
  last_price <- lift (last_price info) ;;
  prev_close <- lift (previous_close info) ;;
  pct <- lift (change_pct last_price prev_close) ;;
  let change_abs := sub last_price prev_close in
  emit (st_metric (selected ++ " Last Price (Daily % Change)")
                  (Some last_price) (Some pct)) ;;
  emit (st_metric (selected ++ " Previous Close") (Some prev_close) None) ;;
  emit (st_metric (selected ++ " Change ($)") (Some change_abs) None).

(** Tab 1: candlestick and volume. *)
Definition tab1 (display_data : DataFrame) : ui unit :=
  emit (st_plotly_chart
          [candles display_data;
           Bar (Date display_data) (get display_data "Volume") "Volume"]).

(** Tab 2: EMA overlay.  The new columns are stored in [data]. *)
Definition ema_columns (data : DataFrame) : DataFrame :=
  let data := set data "EMA20" (ewm_mean 20 false (get data "Close")) in
  let data := set data "EMA50" (ewm_mean 50 false (get data "Close")) in
  let data := set data "EMA200" (ewm_mean 200 false (get data "Close")) in
  data.

Definition tab2 (start end_ : Z) (data : DataFrame) : ui DataFrame :=
  let data := ema_columns data in
  let ema_display := display_range start end_ data in
  emit (st_plotly_chart
          [candles ema_display;
           Scatter (Date ema_display) (get ema_display "EMA20") "EMA 20";
           Scatter (Date ema_display) (get ema_display "EMA50") "EMA 50";
           Scatter (Date ema_display) (get ema_display "EMA200") "EMA 200"]) ;;
  ret data.

(** Tab 3: rolling volatility and VaR over the offset window
    ["<vol_window>D"]. *)
Definition Return (data : DataFrame) : Series :=
  pct_change (get data "Close").

Definition roll_vol (vol_window : Z) (data : DataFrame) : Series :=
  map (fun s => mul s (sqrt (Fin 252)))
      (rolling_time (days vol_window) (std 1) (Date data) (Return data)).

Definition roll_var (vol_window var_level : Z) (data : DataFrame) : Series :=
  rolling_time (days vol_window)
               (quantile ((100 - IZR var_level) / 100))
               (Date data) (Return data).

Definition tab3 (vol_window var_level : Z) (data : DataFrame) : ui unit :=
  emit (st_plotly_chart
          [Scatter (Date data) (roll_vol vol_window data)
                   ("Annualised Volatility (" ++ string_of_Z vol_window ++ "d)");
           Scatter (Date data) (roll_var vol_window var_level data)
                   ("Rolling VaR " ++ string_of_Z var_level ++ "%")]).

(** Tab 4: Bollinger bands. *)
Definition window : nat := 20.

Definition MA20 (close : Series) : Series := rolling window mean close.

Definition BB_upper (close : Series) : Series :=
  map2 add (MA20 close) (map (mul (Fin 2)) (rolling window (std 1) close)).

Definition BB_lower (close : Series) : Series :=
  map2 sub (MA20 close) (map (mul (Fin 2)) (rolling window (std 1) close)).

Definition bollinger_columns (data : DataFrame) : DataFrame :=
  let close := get data "Close" in
  let data := set data "MA20" (MA20 close) in
  let data := set data "BB_upper" (BB_upper close) in
  let data := set data "BB_lower" (BB_lower close) in
  data.

Definition tab4 (start end_ : Z) (data : DataFrame) : ui DataFrame :=
  let data := bollinger_columns data in
  let bb_display := display_range start end_ data in
  emit (st_plotly_chart
          [candles bb_display;
           Scatter (Date bb_display) (get bb_display "MA20") "MA 20";
           Scatter (Date bb_display) (get bb_display "BB_upper") "Upper Band";
           Scatter (Date bb_display) (get bb_display "BB_lower") "Lower Band"]) ;;
  ret data.

(** Tab 5: RSI. *)
Definition gain (close : Series) : Series :=
  let delta := diff close in
  rolling 14 mean (where_ (map (fun d => gtb d (Fin 0)) delta) (Fin 0) delta).

Definition loss (close : Series) : Series :=
  let delta := diff close in
  rolling 14 mean
          (map neg (where_ (map (fun d => ltb d (Fin 0)) delta) (Fin 0) delta)).

Definition RSI (close : Series) : Series :=
  let rs := map2 div (gain close) (loss close) in
  map (fun r => sub (Fin 100) (div (Fin 100) (add (Fin 1) r))) rs.

Definition tab5 (start end_ : Z) (data : DataFrame) : ui DataFrame :=
  let data := set data "RSI" (RSI (get data "Close")) in
  let rsi_display := display_range start end_ data in
  emit (st_plotly_chart
          [Scatter (Date rsi_display) (get rsi_display "RSI") "RSI (14)"]) ;;
  ret data.

(** The frame [data] of line 118: the OHLCV columns without NaN rows.
    After [reset_index()] the dates are the column ["Date"]. *)
Definition load (yf : YFinance) (selected : string) (start end_ : Z)
  : result DataFrame :=
  let extended_start := (start - 365)%Z in
  let raw := download yf [selected] extended_start end_ "1d" in
  and_then (select (flatten raw) ["Open"; "High"; "Low"; "Close"; "Volume"])
           (fun ohlcv => Ok (dropna ohlcv)).

(** The script from line 110 on. *)
Definition page (yf : YFinance) (selected : string) (start end_ : Z)
           (vol_window var_level : Z) : ui unit :=
  data <- lift (load yf selected start end_) ;;
  let display_data := display_range start end_ data in
  (if (length (Date display_data) =? 0)%nat
   then emit (st_error "No data found for this date range.")
   else
     quick_metrics yf selected ;;
     tab1 display_data ;;
     data <- tab2 start end_ data ;;
     tab3 vol_window var_level data ;;
     data <- tab4 start end_ data ;;
     _ <- tab5 start end_ data ;;
     ret tt) ;;
  footer.

End CandleStickViewer.

(** ** pages/Metals.py *)

Module Metals.

Import F64 Pandas.
Local Open Scope string_scope.
Local Open Scope ui_scope.

Definition METALS : list (string * string) :=
  [("Gold", "GC=F"); ("Silver", "SI=F"); ("Copper", "HG=F");
   ("Platinum", "PL=F"); ("Palladium", "PA=F"); ("Aluminum", "ALI=F");
   ("Nickel", "NID=F"); ("Lead", "LED=F"); ("Tin", "TIN=F")].

Definition lme_metals : list string := ["Aluminum"; "Nickel"; "Lead"; "Tin"].

Fixpoint dict_get (d : list (string * string)) (k : string) : option string :=
  match d with
  | [] => None
  | (k', v) :: rest => if String.eqb k' k then Some v else dict_get rest k
  end.

Definition mem (s : string) (l : list string) : bool :=
  existsb (String.eqb s) l.

(** [l.index(s)] when [s] is in [l]. *)
Fixpoint index_of (s : string) (l : list string) : option nat :=
  match l with
  | [] => None
  | x :: rest =>
      if String.eqb x s then Some 0%nat
      else option_map S (index_of s rest)
  end.

(** Lines 104-110. *)
Definition interval_for (delta_days : Z) : string :=
  if (delta_days <=? 7)%Z then "1m"
  else if (delta_days <=? 60)%Z then "15m"
  else "1d".

(** Line 185. *)
Definition change_pct (last_price prev_close : f64) : result f64 :=
  if neqb prev_close (Fin 0)
  then and_then (PyFloat.truediv (sub last_price prev_close) prev_close)
                (fun q => Ok (mul q (Fin 100)))
  else Ok NaN.

(** One entry of [metrics]: label, last, previous close, change, change %. *)
Definition metric_row : Type := (string * f64 * f64 * f64 * f64)%type.

(** The body of the [try] of lines 181-187, and its [except Exception]. *)
Definition try_quote (yf : YFinance) (lbl tkr : string) : result metric_row :=
  let info := fast_info yf tkr in
  and_then (last_price info) (fun last_price =>
  and_then (previous_close info) (fun prev_close =>
  and_then (change_pct last_price prev_close) (fun pct =>
  let change_abs := sub last_price prev_close in
  Ok (lbl, last_price, prev_close, change_abs, pct)))).

Definition quote (yf : YFinance) (lbl : string) : result metric_row :=
  let tkr := match dict_get METALS lbl with Some t => t | None => lbl end in
  match try_quote yf lbl tkr with
  | Ok row => Ok row
  | Raise e => if is_Exception e then Ok (lbl, NaN, NaN, NaN, NaN) else Raise e
  end.

Definition notna (x : f64) : option f64 :=
  if isnan x then None else Some x.

(** Lines 192-204: rows of [per_row] metrics; the inner loop breaks at
    the end of [metrics]. *)
Fixpoint for_break (body : nat -> ui bool) (range : list nat) : ui unit :=
  match range with
  | [] => ret tt
  | i :: rest => continue <- body i ;;
                 if continue then for_break body rest else ret tt
  end.

Definition for_each {A} (body : A -> ui unit) (xs : list A) : ui unit :=
  fold_right (fun x k => body x ;; k) (ret tt) xs.

Definition display_metrics (metrics : list metric_row) : ui unit :=
  let per_row := 5%nat in
  let rows := ((length metrics + per_row - 1) / per_row)%nat in
  for_each (fun r =>
    for_break (fun i =>
      let idx := (r * per_row + i)%nat in
      if (length metrics <=? idx)%nat then ret false
      else
        match nth_error metrics idx with
        | Some (lbl, last_price, prev_close, change_abs, change_pct) =>
            emit (st_metric (lbl ++ " Last") (notna last_price) (notna change_pct)) ;;
            emit (st_caption "Prev Close: ...  |  change: ...") ;;
            ret true
        | None => ret false
        end) (seq 0 per_row)) (seq 0 rows).

(** Lines 140-160: friendly labels, one column per selected label, in
    the order of the selection. *)
Definition label_of (selected_tickers selected_labels : list string)
           (t : string) : string :=
  match index_of t selected_tickers with
  | Some idx => nth idx selected_labels t
  | None => t
  end.

Definition ensure_labels (selected_labels : list string) (data : DataFrame)
  : DataFrame :=
  fold_left (fun df lbl =>
               if has_column df lbl then df
               else set df lbl (repeat NaN (length (Date df))))
            selected_labels data.

(** Lines 127-138: the Close prices, by ticker. *)
Definition close_prices (raw : RawFrame) : ui DataFrame :=
  if mem "Close" (level0 raw)
  then
    if is_multiindex raw then lift (raw_field raw "Close")
    else ret {| Date := raw_index raw;
                columns := [("Close", get (flatten raw) "Close")] |}
  else
    emit (st_error "Downloaded data did not include 'Close' prices.") ;;
    st_stop.

(** First valid value of a column, NaN when there is none. *)
Definition first_valid (s : Series) : f64 :=
  match observations s with
  | [] => NaN
  | x :: _ => x
  end.

(** Some label occurs more than once. *)
Fixpoint has_duplicates (names : list string) : bool :=
  match names with
  | [] => false
  | n :: rest => mem n rest || has_duplicates rest
  end.

(** [pd.notna(first_vals.get(c, np.nan)) and first_vals[c] != 0] for a
    column whose label occurs once. *)
Definition startable (c : string * Series) : bool :=
  let v := first_valid (snd c) in
  negb (isnan v) && neqb v (Fin 0).

(** Line 226, the list [valid_cols].  For a label that occurs more than
    once (custom tickers are not de-duplicated) [first_vals.get(c)] is a
    Series, not a number, and taking its truth value for [and] raises
    [ValueError]. *)
Definition valid_columns (plot_df : DataFrame)
  : result (list (string * Series)) :=
  if has_duplicates (map fst (columns plot_df)) then Raise ValueError
  else Ok (filter startable (columns plot_df)).

(** Lines 209-251: the overview row. *)
Definition overview (normalise : bool) (data : DataFrame) : ui unit :=
  plot_df <-
    (if normalise then
       valid_cols <- lift (valid_columns data) ;;
       if (length valid_cols =? 0)%nat then
         emit (st_info "Cannot normalise: no valid starting values.") ;;
         ret data
       else
         emit (st_caption "Normalised to 100 at the first available value within the selected date range for each series.") ;;
         ret {| Date := Date data;
                columns := map (fun c => (fst c,
                                   map (fun x => mul (div x (first_valid (snd c))) (Fin 100))
                                       (snd c))) valid_cols |}
     else ret data) ;;
  fig <- lift (px_line plot_df) ;;
  emit (st_plotly_chart fig) ;;
  let returns := dropna (map_columns pct_change data) in
  if empty returns then
    emit (st_info "Not enough data to compute returns for the current selection.")
  else
    fig <- lift (px_line returns) ;;
    emit (st_plotly_chart fig).

(** Lines 268-280: rolling volatility over the offset window "30D". *)
Definition vol (data : DataFrame) : DataFrame :=
  let ret_ := map_columns pct_change data in
  map_columns (fun c => map (fun s => mul s (sqrt (Fin 252)))
                            (rolling_time (days 30) (std 1) (Date ret_) c)) ret_.

Definition tab1 (data : DataFrame) : ui unit :=
  if (length (columns data) =? 0)%nat then
    emit (st_info "Select at least one series.")
  else
    let vol := vol data in
    if empty (dropna_all vol) then
      emit (st_info "Not enough data to compute 30D rolling volatility.")
    else
      fig <- lift (px_line (rename (fun c => "Volatility_" ++ c) vol)) ;;
      emit (st_plotly_chart fig).

(** [[METALS[n] for n in selected_names]] *)
Definition tickers_of (selected_names : list string) : result (list string) :=
  map_result (fun n => match dict_get METALS n with
                       | Some t => Ok t
                       | None => Raise KeyError
                       end) selected_names.

(** The script from line 42 up to the Rolling Volatility tab.  The three
    tabs after it and the footer are not part of this model. *)
Definition page (yf : YFinance) (selected_names custom_tickers : list string)
           (start end_ : Z) (normalise : bool) : ui unit :=
  (if existsb (fun m => mem m lme_metals) selected_names
   then emit (st_warning "Note: Some selected metals are traded primarily on the London Metal Exchange (LME). Yahoo Finance may not provide reliable data for these contracts.")
   else ret tt) ;;
  metal_tickers <- lift (tickers_of selected_names) ;;
  let selected_tickers := (metal_tickers ++ custom_tickers)%list in
  let selected_labels := (selected_names ++ custom_tickers)%list in
  (if (length selected_tickers =? 0)%nat
   then emit (st_warning "Select at least one metal.") ;; st_stop
   else ret tt) ;;
  let delta_days := (end_ - start)%Z in
  let interval := interval_for delta_days in
  let raw := download yf selected_tickers start end_ interval in
  (if raw_empty raw
   then emit (st_error "No data returned for the selected tickers/date range.") ;;
        st_stop
   else ret tt) ;;
  data <- close_prices raw ;;
  let data := rename (label_of selected_tickers selected_labels) data in
  let data := ensure_labels selected_labels data in
  data <- lift (select data selected_labels) ;;
  (if empty data || (length (columns data) =? 0)%nat
   then emit (st_error "No valid closing price data for the current selection.") ;;
        st_stop
   else ret tt) ;;
  emit (st_caption ("Data interval automatically set to **" ++ interval
                    ++ "** based on requested date range ("
                    ++ string_of_Z delta_days ++ " days).")) ;;
  metrics <- lift (map_result (quote yf) (map fst (columns data))) ;;
  display_metrics metrics ;;
  overview normalise data ;;
  tab1 data.

End Metals.

(** ** pages/Oil.py *)

Module Oil.

Import F64 Pandas.
Local Open Scope string_scope.
Local Open Scope ui_scope.

(** Lines 53-59. *)
Definition interval_for (delta_days : Z) : string :=
  if (delta_days <=? 7)%Z then "1m"
  else if (delta_days <=? 60)%Z then "15m"
  else "1d".

Definition tickers : list (string * string) :=
  [("Brent", "BZ=F"); ("WTI", "CL=F")].

(** [{v: k for k, v in tickers.items()}] applied to a column name. *)
Definition friendly (t : string) : string :=
  match find (fun kv => String.eqb (snd kv) t) tickers with
  | Some kv => fst kv
  | None => t
  end.

(** Lines 65-72. *)
Definition load (yf : YFinance) (start end_ : Z) (interval : string)
  : result DataFrame :=
  let raw := download yf (map snd tickers) start end_ interval in
  and_then (raw_field raw "Close")
           (fun close => Ok (rename friendly (dropna close))).

(** Lines 84 and 88. *)
Definition change (live prev : f64) : result f64 :=
  and_then (PyFloat.truediv (sub live prev) prev)
           (fun q => Ok (mul q (Fin 100))).

(** Lines 79-107. *)
Definition quick_metrics (yf : YFinance) : ui unit :=
  let brent_info := fast_info yf "BZ=F" in
  let wti_info := fast_info yf "CL=F" in
  brent_live <- lift (last_price brent_info) ;;
  brent_prev <- lift (previous_close brent_info) ;;
  brent_change <- lift (change brent_live brent_prev) ;;
  wti_live <- lift (last_price wti_info) ;;
  wti_prev <- lift (previous_close wti_info) ;;
  wti_change <- lift (change wti_live wti_prev) ;;
  emit (st_metric "Brent Last Price" (Some brent_live) (Some brent_change)) ;;
  emit (st_metric "Brent Previous Close" (Some brent_prev) None) ;;
  emit (st_metric "Brent Change ($)" (Some (sub brent_live brent_prev)) None) ;;
  emit (st_metric "WTI Last Price" (Some wti_live) (Some wti_change)) ;;
  emit (st_metric "WTI Previous Close" (Some wti_prev) None) ;;
  emit (st_metric "WTI Change ($)" (Some (sub wti_live wti_prev)) None).

(** [px.line(df, x=df.index, y=["Brent", "WTI"])] (lines 116 and 123).
    An empty frame, or a frame without one of the two columns, is refused
    with a [ValueError]. *)
Definition two_lines (df : DataFrame) : result (list trace) :=
  if empty df || negb (has_column df "Brent") || negb (has_column df "WTI")
  then Raise ValueError
  else Ok [Scatter (Date df) (get df "Brent") "Brent";
           Scatter (Date df) (get df "WTI") "WTI"].

(** Line 122. *)
Definition returns (data : DataFrame) : DataFrame :=
  dropna (map_columns pct_change data).

(** Lines 142-147: rolling volatility over the offset window "30D". *)
Definition vol (returns : DataFrame) : DataFrame :=
  rename (fun c => "Volatility_" ++ c)
         (map_columns (fun c => map (fun s => mul s (sqrt (Fin 252)))
                                    (rolling_time (days 30) (std 1) (Date returns) c))
                      returns).

Definition tab1 (returns : DataFrame) : ui unit :=
  fig <- lift (px_line (vol returns)) ;;
  emit (st_plotly_chart fig).

(** Lines 153-209. *)
Definition tab2 (start end_ window_days : Z) (data : DataFrame) : ui unit :=
  if (end_ - start <? window_days)%Z then
    emit (st_error ("Not enough data for a " ++ string_of_Z window_days
                    ++ "-day rolling window. Please select a larger viewing window."))
  else
    let roll_mean :=
      map_columns (rolling_time (days window_days) mean (Date data)) data in
    let roll_std :=
      map_columns (rolling_time (days window_days) (std 1) (Date data)) data in
    emit (st_plotly_chart
            [Scatter (Date roll_mean) (get roll_mean "Brent") "Mean Brent";
             Scatter (Date roll_mean) (get roll_mean "WTI") "Mean WTI";
             Scatter (Date roll_std) (get roll_std "Brent") "Std Brent";
             Scatter (Date roll_std) (get roll_std "WTI") "Std WTI"]).

(** Lines 215-241. *)
Definition tab3 (data : DataFrame) : ui unit :=
  let spread := map2 sub (get data "Brent") (get data "WTI") in
  spread_current <- lift (iloc_last spread) ;;
  let spread_avg := mean (observations spread) in
  let spread_p5 := np_percentile spread 5 in
  let spread_p95 := np_percentile spread 95 in
  emit (st_metric "Current Spread" (Some spread_current) None) ;;
  emit (st_metric "Average Spread" (Some spread_avg) None) ;;
  emit (st_metric "5th Percentile" (Some spread_p5) None) ;;
  emit (st_metric "95th Percentile" (Some spread_p95) None) ;;
  emit (st_plotly_chart [Scatter (Date data) spread "Spread (USD)"]) ;;
  emit (st_plotly_chart [Histogram spread]).

(** The script from line 53 up to the spread tab.  The rolling
    correlation tab and the footer after it are not part of this model. *)
Definition page (yf : YFinance) (start end_ window_days : Z) : ui unit :=
  let delta_days := (end_ - start)%Z in
  let interval := interval_for delta_days in
  data <- lift (load yf start end_ interval) ;;
  emit (st_caption ("Data interval automatically set to **" ++ interval
                    ++ "** based on requested date range ("
                    ++ string_of_Z delta_days ++ " days).")) ;;
  quick_metrics yf ;;
  fig <- lift (two_lines data) ;;
  emit (st_plotly_chart fig) ;;
  let returns := returns data in
  fig <- lift (two_lines returns) ;;
  emit (st_plotly_chart fig) ;;
  tab1 returns ;;
  tab2 start end_ window_days data ;;
  tab3 data.

End Oil.

(** ** The indicator formulas as the specification words them

    Stated over real prices, without reference to pandas. *)

Module Textbook.

Local Open Scope R_scope.

Definition Rsum (l : list R) : R := fold_right Rplus 0 l.

Definition mean_of (l : list R) : R := Rsum l / INR (length l).

(** Sample standard deviation (divisor [n - 1]), the pandas default. *)
Definition sample_std (l : list R) : R :=
  sqrt (Rsum (map (fun x => (x - mean_of l) * (x - mean_of l)) l)
        / (INR (length l) - 1)).

(** The last [n] prices up to position [i]: [c_i, c_(i-1), ...]. *)
Definition last_n (n i : nat) (cs : list R) : list R :=
  map (fun k => nth (i - k) cs 0) (seq 0 n).

(** [n]-period simple moving average and standard deviation at [i]. *)
Definition sma (n i : nat) (cs : list R) : R := mean_of (last_n n i cs).
Definition rolling_std (n i : nat) (cs : list R) : R :=
  sample_std (last_n n i cs).

(** The percent change from observation [j - 1] to observation [j]. *)
Definition daily_return (cs : list R) (j : nat) : R :=
  nth j cs 0 / nth (j - 1) cs 0 - 1.

(** The returns whose date lies in the window of [w] days ending at the
    date of observation [i]. *)
Definition returns_in_window (w : Z) (dates : list Z) (cs : list R) (i : nat)
  : list R :=
  map (daily_return cs)
      (filter (fun j => (nth i dates 0 - Pandas.days w <? nth j dates 0)%Z)
              (seq 1 i)).

(** [y] is the [p]-th percentile of [sample]: the value at rank
    [p/100 * (n - 1)] of the sorted sample, interpolating linearly
    between the two neighbouring order statistics. *)
Definition is_percentile (p : R) (sample : list R) (y : R) : Prop :=
  exists (sorted : list R) (k : nat),
    Permutation sorted sample /\
    Sorted Rle sorted /\
    let h := p / 100 * (INR (length sample) - 1) in
    INR k <= h < INR k + 1 /\
    (k < length sample)%nat /\
    y = nth k sorted 0
        + (h - INR k) * (nth (k + 1) sorted (nth k sorted 0) - nth k sorted 0).

(** [ema] is the unadjusted exponential moving average of [cs] with
    smoothing factor [alpha]. *)
Definition unadjusted_ema (alpha : R) (cs ema : list R) : Prop :=
  length ema = length cs /\
  (forall c0 rest, cs = c0 :: rest -> nth 0 ema 0 = c0) /\
  forall t, (1 <= t < length cs)%nat ->
    nth t ema 0 = alpha * nth t cs 0 + (1 - alpha) * nth (t - 1) ema 0.

(** The series defined by [e_0 = c_0], [e_t = alpha c_t + (1 - alpha) e_(t-1)]. *)
Fixpoint ema_from (alpha prev : R) (cs : list R) : list R :=
  match cs with
  | [] => []
  | c :: rest =>
      let e := alpha * c + (1 - alpha) * prev in
      e :: ema_from alpha e rest
  end.

Definition ema (alpha : R) (cs : list R) : list R :=
  match cs with
  | [] => []
  | c0 :: rest => c0 :: ema_from alpha c0 rest
  end.

End Textbook.

(** Column name of the EMA of a given span on the EMA Overlay tab. *)
Definition ema_column_name (span : Z) : string :=
  ("EMA" ++ string_of_Z span)%string.

Definition OHLCV : list string :=
  ["Open"; "High"; "Low"; "Close"; "Volume"]%string.

(** ** Names for sub-expressions of [CandleStickViewer.RSI] *)

(** [delta.where(delta > 0, 0)] and [-delta.where(delta < 0, 0)]. *)
Definition ups (close : Pandas.Series) : Pandas.Series :=
  Pandas.where_ (map (fun d => F64.gtb d (F64.Fin 0)) (Pandas.diff close))
                (F64.Fin 0) (Pandas.diff close).

Definition downs (close : Pandas.Series) : Pandas.Series :=
  map F64.neg
      (Pandas.where_ (map (fun d => F64.ltb d (F64.Fin 0)) (Pandas.diff close))
                     (F64.Fin 0) (Pandas.diff close)).

(** [100 - (100 / (1 + gain / loss))] *)
Definition rsi_of (gain loss : f64) : f64 :=
  F64.sub (F64.Fin 100)
          (F64.div (F64.Fin 100) (F64.add (F64.Fin 1) (F64.div gain loss))).

(** Day-to-day change of a list of closes; entry 0 has no predecessor. *)
Definition price_change (cs : list R) (j : nat) : R :=
  match j with
  | O => 0%R
  | S j' => (nth (S j') cs 0 + - nth j' cs 0)%R
  end.

(** Entry [j] of the Return column of real closes [cs]. *)
Definition pct (cs : list R) (j : nat) : f64 :=
  match j with
  | O => F64.NaN
  | S _ => F64.Fin (Textbook.daily_return cs j)
  end.

(** The [notna] mask of a frame of returns: only the first row is missing. *)
Definition after_first (i : nat) : bool :=
  match i with
  | O => false
  | S _ => true
  end.

(** The annualised volatility the specification describes for the window
    of [w] days ending at observation [i]; undefined (NaN) with fewer than
    two returns in the window. *)
Definition annualised_volatility (w : Z) (dates : list Z) (cs : list R) (i : nat)
  : f64 :=
  let rs := Textbook.returns_in_window w dates cs i in
  if (length rs <? 2)%nat then F64.NaN
  else F64.Fin (Textbook.sample_std rs * sqrt 252).

(** ** Concrete inputs used by the examples *)

Module Examples.

Local Open Scope R_scope.

(** Nineteen closes at 100 followed by a jump to 200. *)
Definition spike : list R := repeat 100 19 ++ [200].

(** Fifteen closes rising by one a day. *)
Definition rising : list R := [1; 2; 3; 4; 5; 6; 7; 8; 9; 10; 11; 12; 13; 14; 15].

(** A frame holding the spike as its Close column, one row a day. *)
Definition spike_frame : Pandas.DataFrame :=
  {| Pandas.Date := map (fun k => Pandas.days (Z.of_nat k)) (seq 0 20);
     Pandas.columns := [("Close"%string, map F64.Fin spike)] |}.

(** Three daily bars in the shape the Candle Stick Viewer works on. *)
Definition closes : list R := [10; 12; 11].

Definition bars : Pandas.DataFrame :=
  {| Pandas.Date := [Pandas.days 100; Pandas.days 101; Pandas.days 102];
     Pandas.columns :=
       [("Open"%string, map F64.Fin [9; 10; 12]);
        ("High"%string, map F64.Fin [11; 13; 12]);
        ("Low"%string, map F64.Fin [9; 10; 10]);
        ("Close"%string, map F64.Fin closes);
        ("Volume"%string, map F64.Fin [1000; 1500; 1200])] |}.

(** Three days of Brent and WTI closes, as the Oil page holds them. *)
Definition brent : list R := [80; 82; 81].
Definition wti : list R := [75; 76; 78].

Definition oil_frame : Pandas.DataFrame :=
  {| Pandas.Date := [Pandas.days 100; Pandas.days 101; Pandas.days 102];
     Pandas.columns := [("Brent"%string, map F64.Fin brent);
                        ("WTI"%string, map F64.Fin wti)] |}.

(** A provider with a sound quote and no price rows for any request. *)
Definition quote_ok : FastInfo :=
  {| last_price := Ok (F64.Fin 70); previous_close := Ok (F64.Fin 69) |}.

Definition price_fields : list string :=
  ["Close"; "High"; "Low"; "Open"; "Volume"]%string.

Definition no_rows (tickers : list string) : Pandas.RawFrame :=
  {| Pandas.raw_index := [];
     Pandas.is_multiindex := true;
     Pandas.raw_columns :=
       flat_map (fun field => map (fun t => ((field, t), [])) tickers)
                price_fields |}.

Definition yf_no_rows : YFinance :=
  {| download := fun tickers _ _ _ => no_rows tickers;
     fast_info := fun _ => quote_ok |}.

(** A provider that answers with two daily bars, on day 700 and day 1050. *)
Definition two_bars (ticker : string) : Pandas.RawFrame :=
  {| Pandas.raw_index := [Pandas.days 700; Pandas.days 1050];
     Pandas.is_multiindex := true;
     Pandas.raw_columns :=
       [(("Close"%string, ticker), map F64.Fin [60; 70]);
        (("High"%string, ticker), map F64.Fin [61; 72]);
        (("Low"%string, ticker), map F64.Fin [58; 69]);
        (("Open"%string, ticker), map F64.Fin [59; 69]);
        (("Volume"%string, ticker), map F64.Fin [1000; 2000])] |}.

Definition yf_two_bars : YFinance :=
  {| download := fun tickers _ _ _ => two_bars (hd ""%string tickers);
     fast_info := fun _ => quote_ok |}.

(** The frame the Candle Stick Viewer builds from [two_bars]. *)
Definition two_bars_frame : Pandas.DataFrame :=
  {| Pandas.Date := [Pandas.days 700; Pandas.days 1050];
     Pandas.columns :=
       [("Open"%string, map F64.Fin [59; 69]);
        ("High"%string, map F64.Fin [61; 72]);
        ("Low"%string, map F64.Fin [58; 69]);
        ("Close"%string, map F64.Fin [60; 70]);
        ("Volume"%string, map F64.Fin [1000; 2000])] |}.

(** The frame the Oil page builds when the provider returns no rows. *)
Definition oil_no_rows : Pandas.DataFrame :=
  {| Pandas.Date := [];
     Pandas.columns := [("Brent"%string, []); ("WTI"%string, [])] |}.

(** Close prices downloaded for gold only, although silver was asked for. *)
Definition gold_only : Pandas.DataFrame :=
  {| Pandas.Date := [Pandas.days 100; Pandas.days 101];
     Pandas.columns := [("GC=F"%string, map F64.Fin [1900; 1910])] |}.

(** A download with rows but without the Close field. *)
Definition no_close (tickers : list string) : Pandas.RawFrame :=
  {| Pandas.raw_index := [Pandas.days 100];
     Pandas.is_multiindex := true;
     Pandas.raw_columns := map (fun t => (("Open"%string, t), [F64.Fin 1])) tickers |}.

Definition yf_no_close : YFinance :=
  {| download := fun tickers _ _ _ => no_close tickers;
     fast_info := fun _ => quote_ok |}.

(** Fifteen closes falling by one a day. *)
Definition falling : list R := [15; 14; 13; 12; 11; 10; 9; 8; 7; 6; 5; 4; 3; 2; 1].

End Examples.

(** ** Further names used by the properties of the indicators *)

(** Upward and downward part of the day-to-day change at entry [j]:
    the entries of [delta.where(delta > 0, 0)] and of
    [-delta.where(delta < 0, 0)] on real closes. *)
Definition up_move (cs : list R) (j : nat) : R :=
  match j with
  | O => 0%R
  | S _ => if R_ltb 0 (price_change cs j) then price_change cs j else 0%R
  end.

Definition down_move (cs : list R) (j : nat) : R :=
  match j with
  | O => (- 0)%R
  | S _ => if R_ltb (price_change cs j) 0 then (- price_change cs j)%R else (- 0)%R
  end.

(** Average of the 14 entries of [g] ending at [i]. *)
Definition average14 (g : nat -> R) (i : nat) : R :=
  (Textbook.Rsum (map (fun k => g (i - k)%nat) (seq 0 14)) / 14)%R.

(** Value at rank [h] of a sorted sample, interpolating linearly between
    the order statistics [k] and [k + 1]. *)
Definition interpolate (sorted : list R) (k : nat) (h : R) : R :=
  (nth k sorted 0
   + (h - INR k) * (nth (k + 1) sorted (nth k sorted 0) - nth k sorted 0))%R.

(** ** Further names used by the properties of the Metals page *)

(** What the metrics row shows for one entry of [metrics]. *)
Definition metric_elements (m : Metals.metric_row) : list element :=
  match m with
  | (lbl, last_price, prev_close, change_abs, change_pct) =>
      [st_metric (lbl ++ " Last")%string (Metals.notna last_price)
                 (Metals.notna change_pct);
       st_caption "Prev Close: ...  |  change: ..."]
  end.

(** The ticker quoted for a column label. *)
Definition ticker_of_label (lbl : string) : string :=
  match Metals.dict_get Metals.METALS lbl with
  | Some t => t
  | None => lbl
  end.

(** The row [metrics] holds for a label: the quote when both of its
    fields can be read, the row of NaN otherwise. *)
Definition quote_row (yf : YFinance) (lbl : string) : Metals.metric_row :=
  let info := fast_info yf (ticker_of_label lbl) in
  match last_price info, previous_close info with
  | Ok last, Ok prev =>
      (lbl, last, prev, F64.sub last prev,
       if F64.eqb prev (F64.Fin 0) then F64.NaN
       else F64.mul (F64.div (F64.sub last prev) prev) (F64.Fin 100))
  | _, _ => (lbl, F64.NaN, F64.NaN, F64.NaN, F64.NaN)
  end.

(** What the provider raises when a quote cannot be read is an ordinary
    exception, a subclass of [Exception]. *)
Definition ordinary_failures (yf : YFinance) : Prop :=
  forall t e,
    last_price (fast_info yf t) = Raise e \/
    previous_close (fast_info yf t) = Raise e ->
    is_Exception e = true.

(** A provider without a last price for gold ([float(None)] raises
    [TypeError]) and without a previous close for silver. *)
Definition yf_missing_quotes : YFinance :=
  {| download := fun tickers _ _ _ => Examples.no_rows tickers;
     fast_info := fun t =>
       if String.eqb t "GC=F"
       then {| last_price := Raise TypeError; previous_close := Ok (F64.Fin 1900) |}
       else if String.eqb t "SI=F"
       then {| last_price := Ok (F64.Fin 25); previous_close := Raise TypeError |}
       else Examples.quote_ok |}.

(** ** Further names used by the properties of the Oil page *)

(** The Brent minus WTI spread of real closes, row by row. *)
Definition spread_of (bs ws : list R) : list R :=
  map (fun p => (fst p + - snd p)%R) (combine bs ws).

(** ** [st.session_state] and the controls above the data

    The keys the pages use.  A widget created with [key=k] keeps its value
    under [k], so [manual_start] and [manual_end] are also the values of
    the two date inputs where those carry these keys. *)

Record SessionState : Type := {
  custom_mode : option bool;
  selected_commodity : option string;
  active_preset : option string;
  manual_start : option Z;
  manual_end : option Z
}.

Definition set_custom_mode (b : bool) (st : SessionState) : SessionState :=
  {| custom_mode := Some b;
     selected_commodity := selected_commodity st;
     active_preset := active_preset st;
     manual_start := manual_start st;
     manual_end := manual_end st |}.

Definition set_selected_commodity (t : string) (st : SessionState) : SessionState :=
  {| custom_mode := custom_mode st;
     selected_commodity := Some t;
     active_preset := active_preset st;
     manual_start := manual_start st;
     manual_end := manual_end st |}.

(** [st.session_state["active_preset"] = p], [None] included. *)
Definition set_active_preset (p : option string) (st : SessionState) : SessionState :=
  {| custom_mode := custom_mode st;
     selected_commodity := selected_commodity st;
     active_preset := p;
     manual_start := manual_start st;
     manual_end := manual_end st |}.

Definition set_manual (start end_ : option Z) (st : SessionState) : SessionState :=
  {| custom_mode := custom_mode st;
     selected_commodity := selected_commodity st;
     active_preset := active_preset st;
     manual_start := start;
     manual_end := end_ |}.

(** The preset table of the three pages; [year_start today] stands for
    [datetime.date(today.year, 1, 1)]. *)
Definition presets (year_start : Z -> Z) (today : Z) : list (string * Z) :=
  [("1M", today - 30); ("6M", today - 182); ("YTD", year_start today);
   ("1Y", today - 365); ("5Y", today - 365 * 5)]%Z%string.

(** *** pages/Candle Stick Viewer.py, lines 15-98 *)

Module CandleControls.

Local Open Scope string_scope.

Definition commodities : list (string * string) :=
  [("Brent Crude", "BZ=F"); ("WTI Crude", "CL=F"); ("Gold", "GC=F");
   ("Silver", "SI=F"); ("Platinum", "PL=F"); ("Copper", "HG=F");
   ("Wheat", "ZW=F"); ("Corn", "ZC=F"); ("Natural Gas", "NG=F")].

Definition truthy (s : string) : bool :=
  match s with
  | EmptyString => false
  | String _ _ => true
  end.

(** Lines 36-37. *)
Definition press_custom (custom_button : bool) (st : SessionState) : SessionState :=
  if custom_button then set_custom_mode true st else st.

(** Lines 40-44; [upper] is [str.upper]. *)
Definition custom_input (upper : string -> string) (custom_ticker : string)
           (st : SessionState) : option string * SessionState :=
  if match custom_mode st with Some b => b | None => false end then
    if truthy custom_ticker then
      let selected := upper custom_ticker in
      (Some selected, set_selected_commodity selected st)
    else (None, st)
  else (None, st).

(** Lines 47-51: one button per commodity, in the order of the table. *)
Definition commodity_button (pressed : string -> bool)
           (acc : option string * SessionState) (entry : string * string)
  : option string * SessionState :=
  if pressed (fst entry)
  then (Some (snd entry),
        set_custom_mode false (set_selected_commodity (snd entry) (snd acc)))
  else acc.

Definition commodity_buttons (pressed : string -> bool)
           (acc : option string * SessionState) : option string * SessionState :=
  fold_left (commodity_button pressed) commodities acc.

(** Lines 33-59: the selected ticker and the session state after the run. *)
Definition select (upper : string -> string) (custom_button : bool)
           (custom_ticker : string) (pressed : string -> bool)
           (st : SessionState) : string * SessionState :=
  let st := press_custom custom_button st in
  let acc := commodity_buttons pressed (custom_input upper custom_ticker st) in
  let selected :=
    match selected_commodity (snd acc), fst acc with
    | Some stored, None => Some stored
    | _, s => s
    end in
  (match selected with Some s => s | None => "BZ=F" end, snd acc).

(** Lines 85-91: the quick-select buttons, in the order of the table. *)
Definition preset_button (today : Z) (pressed : string -> bool)
           (acc : Z * Z * SessionState) (entry : string * Z) : Z * Z * SessionState :=
  if pressed (fst entry)
  then (snd entry, today, set_active_preset (Some (fst entry)) (snd acc))
  else acc.

(** [d != st.session_state.get(key)] for a date [d]. *)
Definition differs (d : Z) (stored : option Z) : bool :=
  match stored with
  | Some s => negb (d =? s)%Z
  | None => true
  end.

(** Lines 69-98: the date range and the session state after the run;
    [start_input] and [end_input] are the values of the two date inputs. *)
Definition date_range (year_start : Z -> Z) (today start_input end_input : Z)
           (pressed : string -> bool) (st : SessionState) : Z * Z * SessionState :=
  let st := set_manual (Some start_input) (Some end_input) st in
  let acc := fold_left (preset_button today pressed) (presets year_start today)
                       (start_input, end_input, st) in
  let start := fst (fst acc) in
  let end_ := snd (fst acc) in
  let st := snd acc in
  if differs start (manual_start st) || differs end_ (manual_end st)
  then (start, end_, set_active_preset None st)
  else (start, end_, st).

(** What the selection loop keeps true: a ticker chosen in this run is
    the one stored in the session. *)
Definition agrees (acc : option string * SessionState) : Prop :=
  forall s, fst acc = Some s -> selected_commodity (snd acc) = Some s.

End CandleControls.

(** *** pages/Metals.py, lines 72-110, and pages/Oil.py, lines 18-59 *)

Module RangeControls.

(** Initialise the two dates once. *)
Definition init (today : Z) (st : SessionState) : SessionState :=
  set_manual
    (match manual_start st with Some d => Some d | None => Some (today - 365)%Z end)
    (match manual_end st with Some d => Some d | None => Some today end)
    st.

(** One quick-select button: it updates the state before the date inputs
    are drawn. *)
Definition quick_button (today : Z) (pressed : string -> bool)
           (st : SessionState) (entry : string * Z) : SessionState :=
  if pressed (fst entry)
  then set_active_preset (Some (fst entry))
                         (set_manual (Some (snd entry)) (Some today) st)
  else st.

Definition quick_select (year_start : Z -> Z) (today : Z)
           (pressed : string -> bool) (st : SessionState) : SessionState :=
  fold_left (quick_button today pressed) (presets year_start today) (init today st).

(** The value of a date input with the given key. *)
Definition date_input (stored : option Z) : Z :=
  match stored with
  | Some d => d
  | None => 0%Z
  end.

(** The interval the page goes on to request. *)
Definition interval (year_start : Z -> Z) (today : Z)
           (pressed : string -> bool) (st : SessionState) : string :=
  let st := quick_select year_start today pressed st in
  let start := date_input (manual_start st) in
  let end_ := date_input (manual_end st) in
  Metals.interval_for (end_ - start).

End RangeControls.

(** ** Names for sub-expressions of [Metals.overview] *)

(** The columns that can be normalised, and the frame indexed to 100. *)
Definition startable_columns (data : Pandas.DataFrame)
  : list (string * Pandas.Series) :=
  filter Metals.startable (Pandas.columns data).

Definition normalised (data : Pandas.DataFrame) : Pandas.DataFrame :=
  {| Pandas.Date := Pandas.Date data;
     Pandas.columns :=
       map (fun c => (fst c,
                      map (fun x => F64.mul (F64.div x (Metals.first_valid (snd c)))
                                            (F64.Fin 100))
                          (snd c)))
           (startable_columns data) |}.

(** A column of prices as the provider gives them: numbers or NaN. *)
Definition no_infinity (col : Pandas.Series) : Prop :=
  forall x, In x col -> F64.isinf x = false.

(** ** Names used by the properties of the rolling mean of the Oil page *)

(** The prices whose date lies in the window of [w] days ending at the
    date of row [i], that row included. *)
Definition prices_in_window (w : Z) (dates : list Z) (cs : list R) (i : nat)
  : list R :=
  map (fun j => nth j cs 0%R)
      (filter (fun j => (nth i dates 0 - Pandas.days w <? nth j dates 0)%Z)
              (seq 0 (i + 1))).

Definition within (lo hi : R) (cs : list R) : Prop :=
  Forall (fun c => (lo <= c <= hi)%R) cs.

(** ** Names used by the properties of the frame the Oil page loads *)

(** The tickers for which a download carries a Close column. *)
Definition close_tickers (raw : Pandas.RawFrame) : list string :=
  map (fun c => snd (fst c))
      (filter (fun c => String.eqb (fst (fst c)) "Close") (Pandas.raw_columns raw)).

(** Every column of a download is as long as its index. *)
Definition rectangular (raw : Pandas.RawFrame) : Prop :=
  forall c, In c (Pandas.raw_columns raw) ->
            length (snd c) = length (Pandas.raw_index raw).

Module OilExamples.

(** Three days of closes, the Brent close of the second day missing. *)
Definition partial_rows : Pandas.RawFrame :=
  {| Pandas.raw_index := [Pandas.days 100; Pandas.days 101; Pandas.days 102];
     Pandas.is_multiindex := true;
     Pandas.raw_columns :=
       [(("Close"%string, "BZ=F"%string), [F64.Fin 80; F64.NaN; F64.Fin 81]);
        (("Close"%string, "CL=F"%string), [F64.Fin 75; F64.Fin 76; F64.Fin 78]);
        (("Open"%string, "BZ=F"%string), [F64.Fin 79; F64.NaN; F64.Fin 80]);
        (("Open"%string, "CL=F"%string), [F64.Fin 74; F64.Fin 75; F64.Fin 77])] |}.

Definition yf_partial : YFinance :=
  {| download := fun _ _ _ _ => partial_rows;
     fast_info := fun _ => Examples.quote_ok |}.

(** The frame the Oil page builds from [partial_rows]. *)
Definition loaded : Pandas.DataFrame :=
  {| Pandas.Date := [Pandas.days 100; Pandas.days 102];
     Pandas.columns := [("Brent"%string, [F64.Fin 80; F64.Fin 81]);
                        ("WTI"%string, [F64.Fin 75; F64.Fin 78])] |}.

End OilExamples.

(** * Properties *)

(** ** Boolean comparisons on the reals *)

Local Open Scope R_scope.

Lemma R_eqb_true_iff (a b : R) : R_eqb a b = true <-> a = b.
Proof. unfold R_eqb. destruct (Req_dec_T a b); split; congruence. Qed.

Lemma R_eqb_eq (a b : R) : a = b -> R_eqb a b = true.
Proof. apply R_eqb_true_iff. Qed.

Lemma R_eqb_neq (a b : R) : a <> b -> R_eqb a b = false.
Proof. unfold R_eqb. destruct (Req_dec_T a b); congruence. Qed.

Lemma R_ltb_lt (a b : R) : a < b -> R_ltb a b = true.
Proof. unfold R_ltb. destruct (Rlt_dec a b); tauto. Qed.

Lemma R_ltb_nlt (a b : R) : ~ a < b -> R_ltb a b = false.
Proof. unfold R_ltb. destruct (Rlt_dec a b); tauto. Qed.

Lemma R_ltb_true_iff (a b : R) : R_ltb a b = true <-> a < b.
Proof. unfold R_ltb. destruct (Rlt_dec a b); split; (congruence || tauto). Qed.

(** Decide the real comparisons of the goal by linear arithmetic. *)
Ltac rcompare :=
  repeat match goal with
    | |- context [R_eqb ?a ?b] =>
        first [ rewrite (@R_eqb_eq a b) by lra
              | rewrite (@R_eqb_neq a b) by lra ]
    | |- context [R_ltb ?a ?b] =>
        first [ rewrite (@R_ltb_lt a b) by lra
              | rewrite (@R_ltb_nlt a b) by lra ]
    end.

(** ** Daily percent change of the quote (C1) *)

Lemma truediv_zero (x : f64) : PyFloat.truediv x (F64.Fin 0) = Raise ZeroDivisionError.
Proof. unfold PyFloat.truediv. simpl. now rewrite R_eqb_eq. Qed.

(** The Metals page guards the division: a zero previous close gives NaN. *)
Lemma metals_change_pct_guarded (last_price : f64) :
  Metals.change_pct last_price (F64.Fin 0) = Ok F64.NaN.
Proof. unfold Metals.change_pct, F64.neqb. simpl. now rewrite R_eqb_eq. Qed.

(** C1: on a quote whose previous close is 0 the Metals page yields NaN,
    but the same computation on the Oil page and on the Candle Stick
    Viewer page is not guarded and raises [ZeroDivisionError]. *)
Theorem change_pct_zero_previous_close (last_price : f64) :
  Metals.change_pct last_price (F64.Fin 0) = Ok F64.NaN /\
  Oil.change last_price (F64.Fin 0) = Raise ZeroDivisionError /\
  CandleStickViewer.change_pct last_price (F64.Fin 0) = Raise ZeroDivisionError.
Proof.
  split; [apply metals_change_pct_guarded|].
  unfold Oil.change, CandleStickViewer.change_pct.
  now rewrite truediv_zero.
Qed.

(** ** Download interval (C9) *)

Lemma interval_for_same (d : Z) : Metals.interval_for d = Oil.interval_for d.
Proof. reflexivity. Qed.

(** C9: both pages choose the interval by the same function of the number
    of days [d] between start and end: "1m" iff [d <= 7], "15m" iff
    [7 < d <= 60], "1d" otherwise. *)
Theorem interval_selection (start end_ : Z) :
  let d := (end_ - start)%Z in
  Metals.interval_for d = Oil.interval_for d /\
  (Metals.interval_for d = "1m"%string <-> (d <= 7)%Z) /\
  (Metals.interval_for d = "15m"%string <-> (7 < d <= 60)%Z) /\
  (Metals.interval_for d = "1d"%string <-> ~ (d <= 7)%Z /\ ~ (7 < d <= 60)%Z).
Proof.
  intro d. split; [reflexivity|].
  unfold Metals.interval_for.
  destruct (Z.leb_spec d 7); destruct (Z.leb_spec d 60);
    repeat split; intros; try discriminate; try lia; try reflexivity.
Qed.

(** ** Series of finite values *)

Import Pandas.

Lemma nth_map_seq {A} (f : nat -> A) (n i : nat) (d : A) :
  (i < n)%nat -> nth i (map f (seq 0 n)) d = f i.
Proof.
  intro H. rewrite (nth_indep _ d (f 0%nat)) by now rewrite length_map, length_seq.
  rewrite map_nth, seq_nth by assumption. reflexivity.
Qed.

Lemma nth_map2 (op : f64 -> f64 -> f64) (xs ys : Series) (i : nat) (d : f64) :
  (i < length xs)%nat -> (i < length ys)%nat ->
  nth i (map2 op xs ys) d = op (nth i xs d) (nth i ys d).
Proof.
  revert ys i. unfold map2.
  induction xs as [|x xs IH]; intros [|y ys] [|i] Hx Hy; simpl in *; try lia.
  - reflexivity.
  - apply IH; lia.
Qed.

Lemma length_map2 (op : f64 -> f64 -> f64) (xs ys : Series) :
  length (map2 op xs ys) = Nat.min (length xs) (length ys).
Proof. unfold map2. now rewrite length_map, length_combine. Qed.

Lemma length_rolling (w : nat) (agg : Series -> f64) (xs : Series) :
  length (rolling w agg xs) = length xs.
Proof. unfold rolling. now rewrite length_map, length_seq. Qed.

Lemma prep_values_finite (rs : list R) :
  prep_values (map F64.Fin rs) = map F64.Fin rs.
Proof. unfold prep_values. rewrite map_map. reflexivity. Qed.

Lemma observations_finite (rs : list R) :
  observations (map F64.Fin rs) = map F64.Fin rs.
Proof.
  unfold observations. induction rs as [|r rs IH]; simpl; [reflexivity|].
  now rewrite IH.
Qed.

Lemma window_fixed_finite (w i : nat) (rs : list R) :
  window_fixed w i (map F64.Fin rs) = map F64.Fin (skipn (i + 1 - w) (firstn (i + 1) rs)).
Proof. unfold window_fixed. now rewrite firstn_map, skipn_map. Qed.

Lemma length_window (w i : nat) (rs : list R) :
  (i < length rs)%nat ->
  length (skipn (i + 1 - w) (firstn (i + 1) rs)) = Nat.min w (i + 1).
Proof. intro H. rewrite length_skipn, length_firstn. lia. Qed.

(** The source slices the window forwards, the textbook counts it
    backwards from [i]. *)
Lemma window_last_n (w i : nat) (rs : list R) :
  (i < length rs)%nat -> (w <= i + 1)%nat ->
  skipn (i + 1 - w) (firstn (i + 1) rs) = rev (Textbook.last_n w i rs).
Proof.
  intros Hi Hw.
  apply (nth_ext _ _ 0 0).
  - rewrite length_window, length_rev by assumption.
    unfold Textbook.last_n. rewrite length_map, length_seq. lia.
  - intros k Hk. rewrite length_window in Hk by assumption.
    rewrite nth_skipn, nth_firstn.
    destruct (Nat.ltb_spec (i + 1 - w + k) (i + 1)) as [_|Hbad]; [|lia].
    unfold Textbook.last_n.
    rewrite rev_nth by (rewrite length_map, length_seq; lia).
    rewrite length_map, length_seq.
    rewrite nth_map_seq by lia.
    f_equal. lia.
Qed.

(** *** Sums, means and standard deviations of finite values *)

Import Textbook.

Lemma sum_finite (l : list R) : sum (map F64.Fin l) = F64.Fin (Rsum l).
Proof.
  unfold sum. induction l as [|x l IH]; simpl; [reflexivity|].
  now rewrite IH.
Qed.

Lemma INR_length_pos {A} (l : list A) : l <> [] -> 0 < INR (length l).
Proof.
  intro H. destruct l as [|x l]; [congruence|].
  apply lt_0_INR. simpl. lia.
Qed.

Lemma mean_finite (l : list R) :
  l <> [] -> mean (map F64.Fin l) = F64.Fin (mean_of l).
Proof.
  intro H. unfold mean, mean_of. rewrite sum_finite, length_map.
  unfold F64.of_nat. simpl.
  pose proof (INR_length_pos H).
  now rewrite R_eqb_neq by lra.
Qed.

Lemma Rsum_squares_nonneg (m : R) (l : list R) :
  0 <= Rsum (map (fun x => (x - m) * (x - m)) l).
Proof.
  induction l as [|x l IH]; simpl; [lra|].
  pose proof (Rle_0_sqr (x - m)) as Hs. unfold Rsqr in Hs. lra.
Qed.

Lemma std_finite (l : list R) :
  (2 <= length l)%nat -> std 1 (map F64.Fin l) = F64.Fin (sample_std l).
Proof.
  intro H. unfold std, var. rewrite length_map.
  destruct (Nat.leb_spec (length l) 1) as [Hbad|_]; [lia|].
  assert (Hne : l <> []) by (destruct l; simpl in H; [lia|congruence]).
  rewrite (mean_finite Hne), map_map. simpl.
  change (fun x => F64.Fin ((x + - mean_of l) * (x + - mean_of l)))
    with (fun x => F64.Fin ((fun y => (y - mean_of l) * (y - mean_of l)) x)).
  rewrite <- (map_map (fun y => (y - mean_of l) * (y - mean_of l)) F64.Fin).
  rewrite sum_finite. unfold F64.of_nat. simpl.
  assert (Hn : INR (length l - 1) = INR (length l) - 1).
  { rewrite minus_INR by lia. simpl. lra. }
  assert (Hpos : 0 < INR (length l - 1)) by (apply lt_0_INR; lia).
  rewrite R_eqb_neq by lra.
  unfold F64.sqrt.
  pose proof (Rsum_squares_nonneg (mean_of l) l) as Hs.
  rewrite R_ltb_nlt.
  - unfold sample_std. now rewrite Hn.
  - intro Hlt. apply Rlt_not_le in Hlt. apply Hlt.
    apply Rmult_le_pos; [assumption|]. left. now apply Rinv_0_lt_compat.
Qed.

(** Sums do not depend on the order of the terms. *)
Lemma Rsum_perm (l l' : list R) : Permutation l l' -> Rsum l = Rsum l'.
Proof. induction 1; simpl; lra. Qed.

Lemma mean_of_perm (l l' : list R) : Permutation l l' -> mean_of l = mean_of l'.
Proof.
  intro H. unfold mean_of.
  now rewrite (Rsum_perm H), (Permutation_length H).
Qed.

Lemma sample_std_perm (l l' : list R) :
  Permutation l l' -> sample_std l = sample_std l'.
Proof.
  intro H. unfold sample_std.
  rewrite (mean_of_perm H), (Permutation_length H).
  now rewrite (Rsum_perm (Permutation_map _ H)).
Qed.

(** *** Fixed rolling windows over finite values *)

Lemma rolling_finite (w : nat) (agg : Series -> f64) (rs : list R) (i : nat) :
  (0 < w)%nat -> (w <= i + 1)%nat -> (i < length rs)%nat ->
  nth i (rolling w agg (map F64.Fin rs)) F64.NaN
  = agg (map F64.Fin (rev (last_n w i rs))).
Proof.
  intros Hw Hwi Hi. unfold rolling.
  rewrite length_map, nth_map_seq by assumption.
  rewrite prep_values_finite, window_fixed_finite, observations_finite.
  rewrite length_map, length_window by assumption.
  destruct (Nat.ltb_spec (Nat.min w (i + 1)) w) as [Hbad|_]; [lia|].
  now rewrite window_last_n.
Qed.

Lemma rolling_warmup (w : nat) (agg : Series -> f64) (xs : Series) (i : nat) :
  (i + 1 < w)%nat -> nth i (rolling w agg xs) F64.NaN = F64.NaN.
Proof.
  intro Hi. destruct (Nat.lt_ge_cases i (length xs)) as [Hlt|Hge].
  - unfold rolling. rewrite nth_map_seq by assumption.
    set (obs := observations _).
    assert (Hlen : (length obs <= i + 1)%nat).
    { subst obs. unfold observations, window_fixed.
      etransitivity; [apply filter_length_le|].
      rewrite length_skipn, length_firstn. lia. }
    destruct (Nat.ltb_spec (length obs) w); [reflexivity|lia].
  - apply nth_overflow. now rewrite length_rolling.
Qed.

Lemma length_last_n (n i : nat) (cs : list R) : length (last_n n i cs) = n.
Proof. unfold last_n. now rewrite length_map, length_seq. Qed.

Lemma rolling_mean_finite (w : nat) (rs : list R) (i : nat) :
  (0 < w)%nat -> (w <= i + 1)%nat -> (i < length rs)%nat ->
  nth i (rolling w mean (map F64.Fin rs)) F64.NaN = F64.Fin (sma w i rs).
Proof.
  intros Hw Hwi Hi. rewrite rolling_finite by assumption.
  rewrite mean_finite.
  - unfold sma. f_equal. apply mean_of_perm. symmetry. apply Permutation_rev.
  - intro Hnil. apply (f_equal (@length R)) in Hnil.
    rewrite length_rev, length_last_n in Hnil. simpl in Hnil. lia.
Qed.

Lemma rolling_std_finite (w : nat) (rs : list R) (i : nat) :
  (2 <= w)%nat -> (w <= i + 1)%nat -> (i < length rs)%nat ->
  nth i (rolling w (std 1) (map F64.Fin rs)) F64.NaN
  = F64.Fin (Textbook.rolling_std w i rs).
Proof.
  intros Hw Hwi Hi. rewrite rolling_finite by (assumption || lia).
  rewrite std_finite by (rewrite length_rev, length_last_n; lia).
  unfold Textbook.rolling_std. f_equal.
  apply sample_std_perm. symmetry. apply Permutation_rev.
Qed.

(** ** Data frame columns *)

Lemma lookup_assign_same (name : string) (col : Series) cols :
  lookup name (assign name col cols) = Some col.
Proof.
  induction cols as [|[n c] cols IH]; simpl.
  - now rewrite String.eqb_refl.
  - destruct (String.eqb n name) eqn:E; simpl; now rewrite E.
Qed.

Lemma lookup_assign_other (name other : string) (col : Series) cols :
  name <> other -> lookup other (assign name col cols) = lookup other cols.
Proof.
  intro Hne. induction cols as [|[n c] cols IH]; simpl.
  - apply String.eqb_neq in Hne. now rewrite Hne.
  - destruct (String.eqb n name) eqn:E; simpl.
    + apply String.eqb_eq in E. subst n.
      apply String.eqb_neq in Hne. now rewrite Hne.
    + now rewrite IH.
Qed.

Lemma get_set_same (df : DataFrame) (name : string) (col : Series) :
  get (set df name col) name = col.
Proof. unfold get, set. simpl. now rewrite lookup_assign_same. Qed.

Lemma get_set_other (df : DataFrame) (name other : string) (col : Series) :
  name <> other -> get (set df name col) other = get df other.
Proof. intro H. unfold get, set. simpl. now rewrite lookup_assign_other. Qed.

(** ** Bollinger bands (C5, C2) *)

Section Bollinger.

Import CandleStickViewer.

Lemma length_MA20 (close : Series) : length (MA20 close) = length close.
Proof. apply length_rolling. Qed.

Lemma nth_BB_upper (close : Series) (i : nat) :
  (i < length close)%nat ->
  nth i (BB_upper close) F64.NaN
  = F64.add (nth i (MA20 close) F64.NaN)
            (F64.mul (F64.Fin 2) (nth i (rolling window (std 1) close) F64.NaN)).
Proof.
  intro Hi. unfold BB_upper.
  rewrite nth_map2 by (rewrite ?length_map, ?length_MA20, ?length_rolling; assumption).
  f_equal. change F64.NaN with (F64.mul (F64.Fin 2) F64.NaN) at 1.
  apply map_nth.
Qed.

Lemma nth_BB_lower (close : Series) (i : nat) :
  (i < length close)%nat ->
  nth i (BB_lower close) F64.NaN
  = F64.sub (nth i (MA20 close) F64.NaN)
            (F64.mul (F64.Fin 2) (nth i (rolling window (std 1) close) F64.NaN)).
Proof.
  intro Hi. unfold BB_lower.
  rewrite nth_map2 by (rewrite ?length_map, ?length_MA20, ?length_rolling; assumption).
  f_equal. change F64.NaN with (F64.mul (F64.Fin 2) F64.NaN) at 1.
  apply map_nth.
Qed.

Lemma bollinger_columns_get (data : DataFrame) :
  let close := get data "Close" in
  let data' := bollinger_columns data in
  get data' "MA20" = MA20 close /\
  get data' "BB_upper" = BB_upper close /\
  get data' "BB_lower" = BB_lower close.
Proof.
  unfold bollinger_columns. repeat split.
  - rewrite !get_set_other by discriminate. apply get_set_same.
  - rewrite get_set_other by discriminate. apply get_set_same.
  - apply get_set_same.
Qed.

(** Closed form of the three columns on a window of finite closes. *)
Lemma bands_finite (cs : list R) (i : nat) :
  (19 <= i < length cs)%nat ->
  let close := map F64.Fin cs in
  nth i (MA20 close) F64.NaN = F64.Fin (sma 20 i cs) /\
  nth i (BB_upper close) F64.NaN
  = F64.Fin (sma 20 i cs + 2 * Textbook.rolling_std 20 i cs) /\
  nth i (BB_lower close) F64.NaN
  = F64.Fin (sma 20 i cs - 2 * Textbook.rolling_std 20 i cs).
Proof.
  intros Hi close.
  assert (Hlen : (i < length close)%nat) by (subst close; rewrite length_map; lia).
  assert (Hma : nth i (MA20 close) F64.NaN = F64.Fin (sma 20 i cs)).
  { unfold MA20, window. apply rolling_mean_finite; lia. }
  assert (Hsd : nth i (rolling window (std 1) close) F64.NaN
                = F64.Fin (Textbook.rolling_std 20 i cs)).
  { unfold window. apply rolling_std_finite; lia. }
  split; [assumption|].
  rewrite nth_BB_upper, nth_BB_lower, Hma, Hsd by assumption.
  split; simpl; f_equal; lra.
Qed.

End Bollinger.

(** C5: on a Close column without missing values, at every position with
    at least 20 observations, the Bollinger tab stores the 20-period simple
    moving average in MA20, the average plus twice the 20-period rolling
    standard deviation in BB_upper and the average minus twice that
    deviation in BB_lower; the bands are symmetric about the average. *)
Theorem bollinger_band_formulas (data : DataFrame) (cs : list R) (i : nat) :
  get data "Close" = map F64.Fin cs ->
  (19 <= i < length cs)%nat ->
  let data' := CandleStickViewer.bollinger_columns data in
  let ma := sma 20 i cs in
  let sd := Textbook.rolling_std 20 i cs in
  nth i (get data' "MA20") F64.NaN = F64.Fin ma /\
  nth i (get data' "BB_upper") F64.NaN = F64.Fin (ma + 2 * sd) /\
  nth i (get data' "BB_lower") F64.NaN = F64.Fin (ma - 2 * sd) /\
  F64.add (nth i (get data' "BB_upper") F64.NaN)
          (nth i (get data' "BB_lower") F64.NaN)
  = F64.mul (F64.Fin 2) (nth i (get data' "MA20") F64.NaN).
Proof.
  intros Hclose Hi data' ma sd.
  destruct (bollinger_columns_get data) as (Hm & Hu & Hl).
  fold data' in Hm, Hu, Hl. rewrite Hm, Hu, Hl, Hclose.
  destruct (bands_finite cs Hi) as (Hma & Hup & Hlo).
  rewrite Hma, Hup, Hlo. fold ma sd.
  repeat split. simpl. f_equal. lra.
Qed.

Lemma bollinger_band_formulas_witness :
  (get Examples.spike_frame "Close" = map F64.Fin Examples.spike /\
   (19 <= 19 < length Examples.spike)%nat) /\
  nth 19 (get (CandleStickViewer.bollinger_columns Examples.spike_frame) "MA20") F64.NaN
  = F64.Fin (sma 20 19 Examples.spike) /\
  nth 19 (get (CandleStickViewer.bollinger_columns Examples.spike_frame) "BB_upper") F64.NaN
  = F64.Fin (sma 20 19 Examples.spike + 2 * Textbook.rolling_std 20 19 Examples.spike) /\
  nth 19 (get (CandleStickViewer.bollinger_columns Examples.spike_frame) "BB_lower") F64.NaN
  = F64.Fin (sma 20 19 Examples.spike - 2 * Textbook.rolling_std 20 19 Examples.spike) /\
  F64.add
    (nth 19 (get (CandleStickViewer.bollinger_columns Examples.spike_frame) "BB_upper") F64.NaN)
    (nth 19 (get (CandleStickViewer.bollinger_columns Examples.spike_frame) "BB_lower") F64.NaN)
  = F64.mul (F64.Fin 2)
      (nth 19 (get (CandleStickViewer.bollinger_columns Examples.spike_frame) "MA20") F64.NaN).
Proof.
  split; [split; [reflexivity | simpl; lia]|].
  apply (@bollinger_band_formulas Examples.spike_frame Examples.spike 19);
    [reflexivity | simpl; lia].
Defined.

(** *** What a rolling window sees in general *)

Lemma observations_prep_finite (xs : Series) :
  exists l, observations (prep_values xs) = map F64.Fin l.
Proof.
  induction xs as [|x xs [l IH]].
  - now exists [].
  - unfold observations, prep_values in *. simpl.
    destruct x; simpl; rewrite IH.
    + now exists (r :: l).
    + now exists l.
    + now exists l.
    + now exists l.
Qed.

Lemma window_fixed_prep (w i : nat) (xs : Series) :
  window_fixed w i (prep_values xs) = prep_values (window_fixed w i xs).
Proof. unfold window_fixed, prep_values. now rewrite firstn_map, skipn_map. Qed.

Lemma rolling_obs (w : nat) (xs : Series) (i : nat) :
  (i < length xs)%nat ->
  exists l, forall agg,
    nth i (rolling w agg xs) F64.NaN
    = if (length l <? w)%nat then F64.NaN else agg (map F64.Fin l).
Proof.
  intro Hi. rewrite <- (length_seq (length xs) 0) in Hi.
  destruct (observations_prep_finite (window_fixed w i xs)) as [l Hl].
  exists l. intro agg. unfold rolling.
  rewrite length_seq in Hi. rewrite nth_map_seq by assumption.
  rewrite window_fixed_prep, Hl, length_map. reflexivity.
Qed.

Lemma nth_rolling_overflow (w : nat) agg (xs : Series) (i : nat) :
  (length xs <= i)%nat -> nth i (rolling w agg xs) F64.NaN = F64.NaN.
Proof. intro H. apply nth_overflow. now rewrite length_rolling. Qed.

(** *** The spike series *)

Lemma sqrt_lt_bound (x y : R) : 0 <= x -> 0 <= y -> x < y * y -> sqrt x < y.
Proof.
  intros Hx Hy Hlt. rewrite <- (sqrt_square y) by assumption.
  apply sqrt_lt_1_alt. lra.
Qed.

Lemma spike_sma : sma 20 19 Examples.spike = 105.
Proof. unfold sma, mean_of. rewrite length_last_n. simpl. lra. Qed.

Lemma spike_std : Textbook.rolling_std 20 19 Examples.spike = sqrt 500.
Proof.
  unfold Textbook.rolling_std, sample_std. fold (sma 20 19 Examples.spike).
  rewrite spike_sma, length_last_n. f_equal. simpl. lra.
Qed.

Lemma spike_std_bounds : 0 < sqrt 500 < 47.
Proof.
  split.
  - apply sqrt_lt_R0. lra.
  - apply sqrt_lt_bound; lra.
Qed.

Lemma spike_bands :
  nth 19 (CandleStickViewer.MA20 (map F64.Fin Examples.spike)) F64.NaN = F64.Fin 105 /\
  nth 19 (CandleStickViewer.BB_upper (map F64.Fin Examples.spike)) F64.NaN
  = F64.Fin (105 + 2 * sqrt 500) /\
  nth 19 (CandleStickViewer.BB_lower (map F64.Fin Examples.spike)) F64.NaN
  = F64.Fin (105 - 2 * sqrt 500).
Proof.
  assert (Hi : (19 <= 19 < length Examples.spike)%nat) by (simpl; lia).
  destruct (bands_finite Examples.spike Hi) as (Hma & Hup & Hlo).
  rewrite spike_sma in Hma, Hup, Hlo. rewrite spike_std in Hup, Hlo.
  auto.
Qed.

Lemma spike_rolling_std :
  nth 19 (rolling 20 (std 1) (map F64.Fin Examples.spike)) F64.NaN
  = F64.Fin (sqrt 500).
Proof.
  rewrite rolling_std_finite by (simpl; lia). now rewrite spike_std.
Qed.

(** C2, as stated, fails: after nineteen closes at 100 and one at 200 the
    rolling standard deviation is positive, yet the last close lies above
    the upper band. *)
Lemma bollinger_price_outside_bands :
  F64.lt (F64.Fin 0)
         (nth 19 (rolling 20 (std 1) (map F64.Fin Examples.spike)) F64.NaN) /\
  ~ (F64.le (nth 19 (CandleStickViewer.BB_lower (map F64.Fin Examples.spike)) F64.NaN)
            (nth 19 (map F64.Fin Examples.spike) F64.NaN) /\
     F64.le (nth 19 (map F64.Fin Examples.spike) F64.NaN)
            (nth 19 (CandleStickViewer.BB_upper (map F64.Fin Examples.spike)) F64.NaN)).
Proof.
  pose proof spike_std_bounds as [Hpos Hlt].
  destruct spike_bands as (_ & Hup & _).
  rewrite spike_rolling_std, Hup. split.
  - unfold F64.lt. simpl. now apply R_ltb_lt.
  - intros [_ Hle]. unfold F64.le, F64.leb in Hle. simpl in Hle.
    rewrite R_ltb_nlt, R_eqb_neq in Hle by lra. discriminate.
Qed.

(** C2, amended: wherever the 20-period rolling standard deviation of
    Close is strictly positive, the moving average MA20 lies strictly
    between the lower and the upper band. *)
Theorem bollinger_bands_bracket_average (close : Series) (i : nat) :
  F64.lt (F64.Fin 0) (nth i (rolling 20 (std 1) close) F64.NaN) ->
  F64.lt (nth i (CandleStickViewer.BB_lower close) F64.NaN)
         (nth i (CandleStickViewer.MA20 close) F64.NaN) /\
  F64.lt (nth i (CandleStickViewer.MA20 close) F64.NaN)
         (nth i (CandleStickViewer.BB_upper close) F64.NaN).
Proof.
  intro Hpos. unfold F64.lt in *.
  destruct (Nat.lt_ge_cases i (length close)) as [Hi|Hi].
  2: { rewrite nth_rolling_overflow in Hpos by assumption. discriminate. }
  rewrite nth_BB_lower, nth_BB_upper by assumption.
  unfold CandleStickViewer.MA20, CandleStickViewer.window.
  destruct (rolling_obs 20 close Hi) as [l Hl].
  rewrite !Hl in *.
  destruct (Nat.ltb_spec (length l) 20) as [Hshort|Hlong]; [discriminate|].
  rewrite std_finite in * by lia.
  rewrite mean_finite by (intro; subst l; simpl in Hlong; lia).
  simpl in *. apply R_ltb_true_iff in Hpos.
  split; apply R_ltb_lt; lra.
Qed.

Lemma spike_std_positive :
  F64.lt (F64.Fin 0)
         (nth 19 (rolling 20 (std 1) (map F64.Fin Examples.spike)) F64.NaN).
Proof.
  rewrite spike_rolling_std. unfold F64.lt. simpl.
  apply R_ltb_lt. apply spike_std_bounds.
Qed.

Lemma bollinger_bands_bracket_average_witness :
  F64.lt (F64.Fin 0)
         (nth 19 (rolling 20 (std 1) (map F64.Fin Examples.spike)) F64.NaN) /\
  F64.lt (nth 19 (CandleStickViewer.BB_lower (map F64.Fin Examples.spike)) F64.NaN)
         (nth 19 (CandleStickViewer.MA20 (map F64.Fin Examples.spike)) F64.NaN) /\
  F64.lt (nth 19 (CandleStickViewer.MA20 (map F64.Fin Examples.spike)) F64.NaN)
         (nth 19 (CandleStickViewer.BB_upper (map F64.Fin Examples.spike)) F64.NaN).
Proof.
  split; [exact spike_std_positive|].
  apply (@bollinger_bands_bracket_average (map F64.Fin Examples.spike) 19).
  exact spike_std_positive.
Defined.

(** ** RSI (C3) *)

Section RSI.

Import CandleStickViewer.

Lemma nth_map_lt {A B} (f : A -> B) (xs : list A) (d : B) (d' : A) (j : nat) :
  (j < length xs)%nat -> nth j (map f xs) d = f (nth j xs d').
Proof.
  revert j. induction xs as [|x xs IH]; intros [|j] Hj; simpl in *; try lia.
  - reflexivity.
  - apply IH. lia.
Qed.

Lemma list_as_map_seq (xs : Series) :
  xs = map (fun j => nth j xs F64.NaN) (seq 0 (length xs)).
Proof.
  apply (nth_ext _ _ F64.NaN F64.NaN).
  - now rewrite length_map, length_seq.
  - intros j Hj. now rewrite nth_map_seq.
Qed.

(** A Series whose entries are all finite is the image of a list of reals. *)
Lemma finite_series (xs : Series) (g : nat -> R) :
  (forall j, (j < length xs)%nat -> nth j xs F64.NaN = F64.Fin (g j)) ->
  xs = map F64.Fin (map g (seq 0 (length xs))).
Proof.
  intro H. rewrite (list_as_map_seq xs) at 1. rewrite map_map.
  apply map_ext_in. intros j Hj. apply in_seq in Hj. apply H. lia.
Qed.

Lemma where_map (p : f64 -> bool) (other : f64) (xs : Series) :
  where_ (map p xs) other xs = map (fun x => if p x then x else other) xs.
Proof.
  unfold where_. induction xs as [|x xs IH]; simpl; [reflexivity|].
  now rewrite IH.
Qed.

Lemma length_shift1 (xs : Series) : length (shift1 xs) = length xs.
Proof.
  destruct xs as [|x xs]; [reflexivity|].
  unfold shift1. cbn [length]. rewrite removelast_firstn_len, length_firstn.
  cbn [length]. lia.
Qed.

Lemma nth_shift1 (xs : Series) (j : nat) :
  (S j < length xs)%nat -> nth (S j) (shift1 xs) F64.NaN = nth j xs F64.NaN.
Proof.
  intro Hj. destruct xs as [|x xs]; [simpl in Hj; lia|].
  unfold shift1. cbn [nth]. rewrite removelast_firstn_len, nth_firstn.
  destruct (Nat.ltb_spec j (Nat.pred (length (x :: xs)))) as [_|Hbad];
    [reflexivity | simpl in *; lia].
Qed.

Lemma length_diff (xs : Series) : length (diff xs) = length xs.
Proof. unfold diff. rewrite length_map2, length_shift1. lia. Qed.

Lemma nth_diff_0 (xs : Series) : nth 0 (diff xs) F64.NaN = F64.NaN.
Proof. destruct xs as [|[] xs]; reflexivity. Qed.

Lemma nth_map_Fin (cs : list R) (j : nat) :
  (j < length cs)%nat -> nth j (map F64.Fin cs) F64.NaN = F64.Fin (nth j cs 0).
Proof.
  intro Hj. rewrite (nth_indep _ F64.NaN (F64.Fin 0)) by now rewrite length_map.
  apply map_nth.
Qed.

Lemma nth_diff_S (cs : list R) (j : nat) :
  (S j < length cs)%nat ->
  nth (S j) (diff (map F64.Fin cs)) F64.NaN
  = F64.Fin (nth (S j) cs 0 + - nth j cs 0).
Proof.
  intro Hj. unfold diff.
  rewrite nth_map2 by (rewrite ?length_shift1, length_map; lia).
  rewrite nth_shift1 by (rewrite length_map; lia).
  rewrite !nth_map_Fin by lia. reflexivity.
Qed.

Lemma length_ups close : length (ups close) = length close.
Proof. unfold ups. now rewrite where_map, length_map, length_diff. Qed.

Lemma length_downs close : length (downs close) = length close.
Proof. unfold downs. now rewrite where_map, !length_map, length_diff. Qed.

Lemma nth_downs (close : Series) (j : nat) :
  (j < length close)%nat ->
  nth j (downs close) F64.NaN
  = F64.neg (if F64.ltb (nth j (diff close) F64.NaN) (F64.Fin 0)
             then nth j (diff close) F64.NaN else F64.Fin 0).
Proof.
  intro Hj. unfold downs. rewrite where_map, map_map.
  now rewrite (nth_map_lt _ _ F64.NaN F64.NaN) by now rewrite length_diff.
Qed.

Lemma nth_ups_lt (close : Series) (j : nat) :
  (j < length close)%nat ->
  nth j (ups close) F64.NaN
  = if F64.gtb (nth j (diff close) F64.NaN) (F64.Fin 0)
    then nth j (diff close) F64.NaN else F64.Fin 0.
Proof.
  intro Hj. unfold ups. rewrite where_map.
  now rewrite (nth_map_lt _ _ F64.NaN F64.NaN) by now rewrite length_diff.
Qed.

Lemma nth_RSI (close : Series) (i : nat) :
  (i < length close)%nat ->
  nth i (RSI close) F64.NaN
  = rsi_of (nth i (rolling 14 mean (ups close)) F64.NaN)
           (nth i (rolling 14 mean (downs close)) F64.NaN).
Proof.
  intro Hi. unfold RSI, gain, loss. fold (ups close) (downs close).
  rewrite (nth_map_lt _ _ F64.NaN F64.NaN)
    by (rewrite length_map2, !length_rolling, length_ups, length_downs; lia).
  unfold rsi_of. do 3 f_equal.
  apply nth_map2; rewrite length_rolling, ?length_ups, ?length_downs; assumption.
Qed.

Lemma rsi_of_no_loss (m z : R) : 0 < m -> z = 0 -> rsi_of (F64.Fin m) (F64.Fin z) = F64.Fin 100.
Proof.
  intros Hm ->. unfold rsi_of. simpl. rcompare. simpl. f_equal. lra.
Qed.

Lemma rsi_of_flat (m z : R) : m = 0 -> z = 0 -> rsi_of (F64.Fin m) (F64.Fin z) = F64.NaN.
Proof. intros -> ->. unfold rsi_of. simpl. now rcompare. Qed.

(** Either sign of an infinite [rs] maps to 100. *)
Remark rsi_of_infinite_rs :
  F64.sub (F64.Fin 100) (F64.div (F64.Fin 100) (F64.add (F64.Fin 1) F64.PInf)) = F64.Fin (100 + - 0) /\
  F64.sub (F64.Fin 100) (F64.div (F64.Fin 100) (F64.add (F64.Fin 1) F64.NInf)) = F64.Fin (100 + - 0).
Proof. split; reflexivity. Qed.

Lemma Rsum_nonneg (l : list R) : Forall (fun x => 0 <= x) l -> 0 <= Rsum l.
Proof. induction 1; simpl; lra. Qed.

Lemma Rsum_zero (l : list R) : Forall (fun x => x = 0) l -> Rsum l = 0.
Proof. induction 1; simpl; lra. Qed.

(** The window of 14 entries ending at [i], read off a generating function. *)
Lemma last_n_map_seq (g : nat -> R) (n w i : nat) :
  (i < n)%nat ->
  last_n w i (map g (seq 0 n)) = map (fun k => g (i - k)%nat) (seq 0 w).
Proof.
  intro Hi. unfold last_n. apply map_ext. intro k.
  rewrite (nth_indep _ 0 (g 0%nat)) by (rewrite length_map, length_seq; lia).
  rewrite map_nth, seq_nth by lia. reflexivity.
Qed.

Lemma rolling_mean_generated (xs : Series) (g : nat -> R) (i : nat) :
  (forall j, (j < length xs)%nat -> nth j xs F64.NaN = F64.Fin (g j)) ->
  (13 <= i < length xs)%nat ->
  nth i (rolling 14 mean xs) F64.NaN
  = F64.Fin (Rsum (map (fun k => g (i - k)%nat) (seq 0 14)) / 14).
Proof.
  intros Hg Hi. rewrite (finite_series xs g Hg).
  rewrite rolling_mean_finite by (rewrite ?length_map, ?length_seq; lia).
  unfold sma, mean_of. rewrite length_last_n, last_n_map_seq by lia.
  f_equal. f_equal. simpl. lra.
Qed.

Lemma ups_increasing (cs : list R) (j : nat) :
  (forall k, (S k < length cs)%nat -> nth k cs 0 < nth (S k) cs 0) ->
  (j < length cs)%nat ->
  nth j (ups (map F64.Fin cs)) F64.NaN = F64.Fin (price_change cs j).
Proof.
  intros Hinc Hj. rewrite nth_ups_lt by now rewrite length_map.
  destruct j as [|j]; [now rewrite nth_diff_0|].
  rewrite nth_diff_S by assumption. unfold F64.gtb. simpl.
  specialize (Hinc j Hj). now rewrite R_ltb_lt by lra.
Qed.

Lemma downs_increasing (cs : list R) (j : nat) :
  (forall k, (S k < length cs)%nat -> nth k cs 0 < nth (S k) cs 0) ->
  (j < length cs)%nat ->
  nth j (downs (map F64.Fin cs)) F64.NaN = F64.Fin (- 0).
Proof.
  intros Hinc Hj. rewrite nth_downs by now rewrite length_map.
  destruct j as [|j]; [now rewrite nth_diff_0|].
  rewrite nth_diff_S by assumption. simpl.
  specialize (Hinc j Hj). now rewrite R_ltb_nlt by lra.
Qed.

Lemma nth_repeat_lt (c : R) (n j : nat) : (j < n)%nat -> nth j (repeat c n) 0 = c.
Proof.
  intro Hj. rewrite (nth_indep _ 0 c) by now rewrite repeat_length.
  apply nth_repeat.
Qed.

Lemma ups_constant (c : R) (n j : nat) :
  (j < n)%nat -> nth j (ups (map F64.Fin (repeat c n))) F64.NaN = F64.Fin 0.
Proof.
  intro Hj. rewrite nth_ups_lt by now rewrite length_map, repeat_length.
  destruct j as [|j]; [now rewrite nth_diff_0|].
  rewrite nth_diff_S by now rewrite repeat_length.
  rewrite !nth_repeat_lt by lia. unfold F64.gtb. simpl.
  now rewrite R_ltb_nlt by lra.
Qed.

Lemma downs_constant (c : R) (n j : nat) :
  (j < n)%nat -> nth j (downs (map F64.Fin (repeat c n))) F64.NaN = F64.Fin (- 0).
Proof.
  intro Hj. rewrite nth_downs by now rewrite length_map, repeat_length.
  destruct j as [|j]; [now rewrite nth_diff_0|].
  rewrite nth_diff_S by now rewrite repeat_length.
  rewrite !nth_repeat_lt by lia. simpl.
  now rewrite R_ltb_nlt by lra.
Qed.

Lemma Rsum_const_zero {A} (z : R) (l : list A) :
  z = 0 -> Rsum (map (fun _ => z) l) = 0.
Proof. intros ->. induction l; simpl; lra. Qed.

Lemma rsi_increasing (cs : list R) (i : nat) :
  (forall k, (S k < length cs)%nat -> nth k cs 0 < nth (S k) cs 0) ->
  (13 <= i < length cs)%nat ->
  nth i (RSI (map F64.Fin cs)) F64.NaN = F64.Fin 100.
Proof.
  intros Hinc Hi.
  assert (Hlen : length (map F64.Fin cs) = length cs) by apply length_map.
  rewrite nth_RSI by lia.
  rewrite (@rolling_mean_generated (ups (map F64.Fin cs)) (price_change cs))
    by (rewrite length_ups, Hlen; auto using ups_increasing).
  rewrite (@rolling_mean_generated (downs (map F64.Fin cs)) (fun _ => - 0))
    by (rewrite length_downs, Hlen; auto using downs_increasing).
  apply rsi_of_no_loss.
  - assert (Hnonneg : forall j, (j < length cs)%nat -> 0 <= price_change cs j).
    { intros [|j] Hj; simpl; [lra|]. specialize (Hinc j Hj). lra. }
    assert (Hlast : 0 < price_change cs i).
    { destruct i as [|i']; [lia|]. simpl.
      assert (Hs : (S i' < length cs)%nat) by lia.
      specialize (Hinc i' Hs). lra. }
    assert (Hrest : 0 <= Rsum (map (fun k => price_change cs (i - k)) (seq 1 13))).
    { apply Rsum_nonneg. apply Forall_forall. intros x Hx.
      apply in_map_iff in Hx. destruct Hx as (k & <- & _).
      apply Hnonneg. lia. }
    change (seq 0 14) with (0%nat :: seq 1 13). cbn [map Rsum fold_right].
    fold (Rsum (map (fun k => price_change cs (i - k)) (seq 1 13))).
    rewrite Nat.sub_0_r. lra.
  - rewrite Rsum_const_zero by lra. lra.
Qed.

Lemma rsi_constant (c : R) (n i : nat) :
  (i < n)%nat -> nth i (RSI (map F64.Fin (repeat c n))) F64.NaN = F64.NaN.
Proof.
  intro Hi.
  assert (Hlen : length (map F64.Fin (repeat c n)) = n)
    by now rewrite length_map, repeat_length.
  rewrite nth_RSI by lia.
  destruct (Nat.lt_ge_cases i 13) as [Hwarm|Hfull].
  - rewrite (@rolling_warmup 14 mean (ups _)) by lia. reflexivity.
  - rewrite (@rolling_mean_generated (ups (map F64.Fin (repeat c n))) (fun _ => 0))
      by (rewrite length_ups, Hlen; auto using ups_constant).
    rewrite (@rolling_mean_generated (downs (map F64.Fin (repeat c n))) (fun _ => - 0))
      by (rewrite length_downs, Hlen; auto using downs_constant).
    apply rsi_of_flat; rewrite Rsum_const_zero by lra; lra.
Qed.

End RSI.

(** C3: on a constant price series of length at least 15 every RSI value
    is NaN; on a strictly increasing series of length at least 15 the RSI
    equals 100 at every position that has a full 14-period window (from
    position 13 on). *)
Theorem rsi_constant_and_increasing (c : R) (n : nat) (cs : list R) (i : nat) :
  (15 <= n)%nat ->
  (15 <= length cs)%nat ->
  (forall k, (S k < length cs)%nat -> nth k cs 0 < nth (S k) cs 0) ->
  ((i < n)%nat ->
   nth i (CandleStickViewer.RSI (map F64.Fin (repeat c n))) F64.NaN = F64.NaN) /\
  ((13 <= i < length cs)%nat ->
   nth i (CandleStickViewer.RSI (map F64.Fin cs)) F64.NaN = F64.Fin 100).
Proof.
  intros _ _ Hinc. split.
  - apply rsi_constant.
  - now apply rsi_increasing.
Qed.

Lemma rising_increasing (k : nat) :
  (S k < length Examples.rising)%nat ->
  nth k Examples.rising 0 < nth (S k) Examples.rising 0.
Proof.
  intro Hk. simpl in Hk.
  do 14 (destruct k as [|k]; [simpl; lra|]). lia.
Qed.

Lemma rsi_constant_and_increasing_witness :
  nth 14 (CandleStickViewer.RSI (map F64.Fin (repeat 100 15))) F64.NaN = F64.NaN /\
  nth 14 (CandleStickViewer.RSI (map F64.Fin Examples.rising)) F64.NaN = F64.Fin 100.
Proof.
  destruct (@rsi_constant_and_increasing 100 15 Examples.rising 14) as [Hc Hr].
  - lia.
  - simpl; lia.
  - exact rising_increasing.
  - split; [apply Hc; lia | apply Hr; simpl; lia].
Defined.

(** ** Exponential moving average (C4) *)

Section EMA.

Variable alpha : R.

Lemma ewm_loop_finite (rest : list R) (e : R) (nobs : nat) :
  (1 <= nobs)%nat ->
  ewm_loop (1 - alpha) alpha false (F64.Fin e) 1 nobs (map F64.Fin rest)
  = map F64.Fin (ema_from alpha e rest).
Proof.
  revert e nobs. induction rest as [|c rest IH]; intros e nobs Hn; [reflexivity|].
  cbn [map ewm_loop ema_from F64.isnan negb].
  destruct (Nat.leb_spec 1 (nobs + 1)) as [_|Hbad]; [|lia].
  assert (Hstep : (if F64.neqb (F64.Fin e) (F64.Fin c)
                   then F64.div (F64.add (F64.mul (F64.Fin (1 * (1 - alpha))) (F64.Fin e))
                                         (F64.mul (F64.Fin alpha) (F64.Fin c)))
                                (F64.Fin (1 * (1 - alpha) + alpha))
                   else F64.Fin e)
                  = F64.Fin (alpha * c + (1 - alpha) * e)).
  { unfold F64.neqb. simpl. destruct (R_eqb e c) eqn:E; simpl.
    - apply R_eqb_true_iff in E. subst c. f_equal. lra.
    - rewrite R_eqb_neq by lra. f_equal. field. lra. }
  rewrite Hstep. f_equal. apply IH. lia.
Qed.

Lemma ema_from_nth (prev : R) (cs : list R) (t : nat) :
  (t < length cs)%nat ->
  nth t (ema_from alpha prev cs) 0
  = alpha * nth t cs 0 + (1 - alpha) * nth t (prev :: ema_from alpha prev cs) 0.
Proof.
  revert prev t. induction cs as [|c cs IH]; intros prev t Ht; [simpl in Ht; lia|].
  destruct t as [|t]; [reflexivity|].
  cbn [ema_from nth]. rewrite IH by (simpl in Ht; lia). reflexivity.
Qed.

Lemma length_ema_from (prev : R) (cs : list R) :
  length (ema_from alpha prev cs) = length cs.
Proof. revert prev. induction cs; intro; simpl; auto. Qed.

Lemma ema_unadjusted (cs : list R) : unadjusted_ema alpha cs (ema alpha cs).
Proof.
  destruct cs as [|c0 rest].
  - repeat split; [discriminate | simpl; lia].
  - repeat split.
    + simpl. now rewrite length_ema_from.
    + intros c0' rest' [= <- <-]. reflexivity.
    + intros t Ht. destruct t as [|t]; [lia|].
      replace (S t - 1)%nat with t by lia.
      cbn [ema nth]. now rewrite ema_from_nth by (simpl in Ht; lia).
Qed.

End EMA.

Lemma ewm_mean_finite (span : R) (cs : list R) :
  span + 1 <> 0 ->
  ewm_mean span false (map F64.Fin cs) = map F64.Fin (ema (2 / (span + 1)) cs).
Proof.
  intro Hs. destruct cs as [|c0 rest]; [reflexivity|].
  assert (Ha : 1 / (1 + (span - 1) / 2) = 2 / (span + 1)) by (field; lra).
  unfold ewm_mean. rewrite prep_values_finite. cbn [map F64.isnan ema]. rewrite Ha.
  f_equal. apply ewm_loop_finite. lia.
Qed.

Lemma lookup_not_in (name : string) cols :
  ~ In name (map fst cols) -> lookup name cols = None.
Proof.
  induction cols as [|[n c] cols IH]; intro H; [reflexivity|].
  simpl in *. destruct (String.eqb n name) eqn:E.
  - apply String.eqb_eq in E. tauto.
  - apply IH. tauto.
Qed.

(** The EMA Overlay tab adds exactly the columns EMA20, EMA50 and EMA200. *)
Lemma ema_columns_lookup (data : DataFrame) (name : string) :
  map fst (columns data) = OHLCV ->
  lookup name (columns (CandleStickViewer.ema_columns data))
  = if String.eqb name "EMA20" then Some (ewm_mean 20 false (get data "Close"))
    else if String.eqb name "EMA50" then Some (ewm_mean 50 false (get data "Close"))
    else if String.eqb name "EMA200" then Some (ewm_mean 200 false (get data "Close"))
    else lookup name (columns data).
Proof.
  intro Hcols. unfold CandleStickViewer.ema_columns. cbn [columns set].
  destruct (String.eqb_spec name "EMA200") as [->|H200].
  { cbn. rewrite lookup_assign_same.
    rewrite !get_set_other by discriminate. reflexivity. }
  rewrite lookup_assign_other by congruence.
  destruct (String.eqb_spec name "EMA50") as [->|H50].
  { cbn. rewrite lookup_assign_same.
    rewrite !get_set_other by discriminate. reflexivity. }
  rewrite lookup_assign_other by congruence.
  destruct (String.eqb_spec name "EMA20") as [->|H20].
  { now rewrite lookup_assign_same. }
  now rewrite lookup_assign_other by congruence.
Qed.

(** The three columns of the tab, whatever columns [data] has. *)
Lemma ema_columns_get (data : DataFrame) :
  get (CandleStickViewer.ema_columns data) "EMA20" = ewm_mean 20 false (get data "Close") /\
  get (CandleStickViewer.ema_columns data) "EMA50" = ewm_mean 50 false (get data "Close") /\
  get (CandleStickViewer.ema_columns data) "EMA200" = ewm_mean 200 false (get data "Close").
Proof.
  unfold CandleStickViewer.ema_columns. repeat split.
  - rewrite !get_set_other by discriminate. apply get_set_same.
  - rewrite get_set_other by discriminate. rewrite get_set_same.
    now rewrite get_set_other by discriminate.
  - rewrite get_set_same. now rewrite !get_set_other by discriminate.
Qed.

Lemma no_EMA100_column (data : DataFrame) :
  map fst (columns data) = OHLCV ->
  lookup (ema_column_name 100) (columns (CandleStickViewer.ema_columns data)) = None.
Proof.
  intro Hcols. rewrite ema_columns_lookup by assumption.
  cbn. apply lookup_not_in. rewrite Hcols. cbv.
  intuition discriminate.
Qed.

Lemma ema_column_names :
  ema_column_name 20 = "EMA20"%string /\ ema_column_name 50 = "EMA50"%string /\
  ema_column_name 200 = "EMA200"%string.
Proof. repeat split; reflexivity. Qed.

(** C4, as the code has it: on a Close column without missing values,
    the pandas computation [Close.ewm(span, adjust=False).mean()] is, for
    each span among 20, 50, 100 and 200, the unadjusted recursive EMA
    with [alpha = 2 / (span + 1)]: [EMA_0 = Close_0] and
    [EMA_t = alpha Close_t + (1 - alpha) EMA_(t-1)]; and for each of the
    spans 20, 50 and 200 the EMA Overlay tab stores that series as the
    column EMA<span>. *)
Theorem ema_overlay_recursion (data : DataFrame) (cs : list R) :
  get data "Close" = map F64.Fin cs ->
  (forall span, In span [20; 50; 100; 200]%Z ->
     exists es,
       ewm_mean (IZR span) false (map F64.Fin cs) = map F64.Fin es /\
       unadjusted_ema (2 / (IZR span + 1)) cs es) /\
  (forall span, In span [20; 50; 200]%Z ->
     exists es,
       get (CandleStickViewer.ema_columns data) (ema_column_name span)
       = map F64.Fin es /\
       unadjusted_ema (2 / (IZR span + 1)) cs es).
Proof.
  intro Hclose.
  destruct (ema_columns_get data) as (H20 & H50 & H200).
  destruct ema_column_names as (N20 & N50 & N200).
  rewrite Hclose in H20, H50, H200.
  split; intros span Hspan; exists (ema (2 / (IZR span + 1)) cs);
    (split; [|apply ema_unadjusted]).
  - apply ewm_mean_finite.
    simpl in Hspan. destruct Hspan as [<-|[<-|[<-|[<-|[]]]]]; lra.
  - simpl in Hspan. destruct Hspan as [<-|[<-|[<-|[]]]].
    + rewrite N20, H20. apply ewm_mean_finite. lra.
    + rewrite N50, H50. apply ewm_mean_finite. lra.
    + rewrite N200, H200. apply ewm_mean_finite. lra.
Qed.

Lemma ema_overlay_recursion_witness :
  exists es,
    get (CandleStickViewer.ema_columns Examples.bars) (ema_column_name 20)
    = map F64.Fin es /\
    unadjusted_ema (2 / (20 + 1)) Examples.closes es.
Proof.
  destruct (@ema_overlay_recursion Examples.bars Examples.closes eq_refl)
    as [_ Hcols].
  apply (Hcols 20%Z). simpl. auto.
Defined.

(** C4 as stated fails for the span 100: the tab computes the columns
    EMA20, EMA50 and EMA200 only, so on three daily bars there is no
    column EMA100 that could be the recursive average of the closes. *)
Lemma ema_overlay_no_EMA100 :
  get Examples.bars "Close" = map F64.Fin Examples.closes /\
  has_column (CandleStickViewer.ema_columns Examples.bars) (ema_column_name 100)
  = false /\
  ~ exists es,
      get (CandleStickViewer.ema_columns Examples.bars) (ema_column_name 100)
      = map F64.Fin es /\
      unadjusted_ema (2 / (100 + 1)) Examples.closes es.
Proof.
  assert (Hnone : lookup (ema_column_name 100)
                         (columns (CandleStickViewer.ema_columns Examples.bars))
                  = None) by (apply no_EMA100_column; reflexivity).
  split; [reflexivity|]. split.
  - unfold has_column. now rewrite Hnone.
  - intros (es & Hes & Hlen & _). unfold get in Hes. rewrite Hnone in Hes.
    destruct es; [|discriminate]. discriminate Hlen.
Qed.

(** ** Offset windows over a datetime index *)

Lemma nth_rolling_time (w : Z) (agg : Series -> f64) (index : list Z)
      (xs : Series) (i : nat) :
  (i < length xs)%nat ->
  nth i (rolling_time w agg index xs) F64.NaN
  = let obs := observations (window_time w index i (prep_values xs)) in
    if (length obs <? 1)%nat then F64.NaN else agg obs.
Proof. intro Hi. unfold rolling_time. now rewrite nth_map_seq. Qed.

Lemma length_rolling_time (w : Z) agg (index : list Z) (xs : Series) :
  length (rolling_time w agg index xs) = length xs.
Proof. unfold rolling_time. now rewrite length_map, length_seq. Qed.

Lemma firstn_seq (k a n : nat) : firstn k (seq a n) = seq a (Nat.min k n).
Proof.
  revert a n. induction k as [|k IH]; intros a [|n]; simpl; try reflexivity.
  now rewrite IH.
Qed.

Lemma combine_map_same {A B C} (f : A -> B) (g : A -> C) (l : list A) :
  combine (map f l) (map g l) = map (fun x => (f x, g x)) l.
Proof. induction l; simpl; congruence. Qed.

(** A window over rows generated from the positions [a, a + 1, ...]. *)
Lemma window_time_generated (w : Z) (d : nat -> Z) (f : nat -> f64)
      (a n i : nat) :
  (i < n)%nat ->
  window_time w (map d (seq a n)) i (map f (seq a n))
  = map f (filter (fun j => (d (a + i)%nat - w <? d j)%Z) (seq a (i + 1))).
Proof.
  intro Hi. unfold window_time.
  rewrite (nth_indep _ 0%Z (d 0%nat)) by (rewrite length_map, length_seq; lia).
  rewrite map_nth, seq_nth by assumption.
  rewrite combine_map_same, firstn_map, firstn_seq.
  replace (Nat.min (i + 1) n) with (i + 1)%nat by lia.
  rewrite filter_map_swap, map_map. reflexivity.
Qed.

Lemma observations_generated (f : nat -> f64) (g : nat -> R) (l : list nat) :
  (forall j, In j l -> f j = F64.Fin (g j)) ->
  observations (map f l) = map F64.Fin (map g l).
Proof.
  intro H. rewrite <- observations_finite, map_map. f_equal.
  apply map_ext_in. exact H.
Qed.

Lemma dates_as_map_seq (dates : list Z) :
  dates = map (fun j => nth j dates 0%Z) (seq 0 (length dates)).
Proof.
  apply (nth_ext _ _ 0%Z 0%Z).
  - now rewrite length_map, length_seq.
  - intros j Hj. now rewrite nth_map_seq.
Qed.

(** *** Percent changes of finite, non-zero prices *)

Lemma length_pct_change (xs : Series) : length (pct_change xs) = length xs.
Proof. unfold pct_change. rewrite length_map, length_map2, length_shift1. lia. Qed.

Lemma nth_nonzero (cs : list R) (j : nat) :
  Forall (fun c => c <> 0) cs -> (j < length cs)%nat -> nth j cs 0 <> 0.
Proof. intros H Hj. rewrite Forall_forall in H. apply H. now apply nth_In. Qed.

Lemma pct_change_finite (cs : list R) :
  Forall (fun c => c <> 0) cs ->
  pct_change (map F64.Fin cs) = map (pct cs) (seq 0 (length cs)).
Proof.
  intro Hnz. apply (nth_ext _ _ F64.NaN F64.NaN).
  - now rewrite length_pct_change, !length_map, length_seq.
  - intros j Hj. rewrite length_pct_change, length_map in Hj.
    rewrite nth_map_seq by assumption.
    unfold pct_change.
    rewrite (nth_map_lt _ _ F64.NaN F64.NaN)
      by (rewrite length_map2, length_shift1, length_map; lia).
    rewrite nth_map2 by (rewrite ?length_shift1, length_map; lia).
    destruct j as [|j].
    + destruct cs; [simpl in Hj; lia|reflexivity].
    + rewrite nth_shift1 by (rewrite length_map; lia).
      rewrite !nth_map_Fin by lia. simpl.
      rewrite R_eqb_neq by (apply nth_nonzero; [assumption|lia]).
      unfold daily_return. replace (S j - 1)%nat with j by lia. reflexivity.
Qed.

Lemma prep_values_pct (cs : list R) (l : list nat) :
  prep_values (map (pct cs) l) = map (pct cs) l.
Proof.
  unfold prep_values. rewrite map_map. apply map_ext.
  intros [|j]; reflexivity.
Qed.

Lemma observations_pct (cs : list R) (l : list nat) :
  Forall (fun j => (1 <= j)%nat) l ->
  observations (map (pct cs) l) = map F64.Fin (map (daily_return cs) l).
Proof.
  intro H. apply observations_generated. intros j Hj.
  rewrite Forall_forall in H. specialize (H j Hj).
  destruct j; [lia|reflexivity].
Qed.

Lemma filter_seq_from_1 (q : nat -> bool) (i : nat) :
  Forall (fun j => (1 <= j)%nat) (filter q (seq 1 i)).
Proof.
  apply Forall_forall. intros j Hj. apply filter_In in Hj.
  destruct Hj as [Hj _]. apply in_seq in Hj. lia.
Qed.

(** The observations that the offset window ending at row [i] finds in the
    Return column are the returns dated within the window. *)
Lemma window_returns (w : Z) (dates : list Z) (cs : list R) (i : nat) :
  Forall (fun c => c <> 0) cs ->
  length dates = length cs ->
  (i < length cs)%nat ->
  observations (window_time (days w) dates i (prep_values (pct_change (map F64.Fin cs))))
  = map F64.Fin (returns_in_window w dates cs i).
Proof.
  intros Hnz Hlen Hi.
  rewrite pct_change_finite, prep_values_pct by assumption.
  rewrite (dates_as_map_seq dates) at 1. rewrite Hlen.
  rewrite window_time_generated by assumption.
  replace (i + 1)%nat with (S i) by lia. cbn [seq filter Nat.add].
  unfold returns_in_window.
  destruct (_ <? _)%Z; cbn [map pct observations filter F64.isnan negb];
    fold (observations (map (pct cs)
           (filter (fun j => (nth i dates 0 - days w <? nth j dates 0)%Z) (seq 1 i))));
    apply observations_pct, filter_seq_from_1.
Qed.

(** The same for a frame whose first row was dropped: row [i] of the
    remaining rows is observation [i + 1]. *)
Lemma window_returns_dropped (w : Z) (dates : list Z) (cs : list R) (i : nat) :
  length dates = length cs ->
  (S i < length cs)%nat ->
  observations (window_time (days w) (tl dates) i
                  (prep_values (map (pct cs) (seq 1 (length cs - 1)))))
  = map F64.Fin (returns_in_window w dates cs (S i)).
Proof.
  intros Hlen Hi. rewrite prep_values_pct.
  assert (Htl : tl dates = map (fun j => nth j dates 0%Z) (seq 1 (length cs - 1))).
  { rewrite (dates_as_map_seq dates) at 1. rewrite Hlen.
    destruct (length cs) as [|n]; [lia|].
    cbn [seq map tl]. now replace (S n - 1)%nat with n by lia. }
  rewrite Htl, window_time_generated by lia.
  unfold returns_in_window.
  replace (i + 1)%nat with (S i) by lia. replace (1 + i)%nat with (S i) by lia.
  apply observations_pct, filter_seq_from_1.
Qed.

Lemma std_finite_or_nan (l : list R) :
  std 1 (map F64.Fin l)
  = if (length l <? 2)%nat then F64.NaN else F64.Fin (sample_std l).
Proof.
  destruct (Nat.ltb_spec (length l) 2) as [Hshort|Hlong].
  - unfold std, var. rewrite length_map.
    destruct (Nat.leb_spec (length l) 1); [reflexivity|lia].
  - now apply std_finite.
Qed.

Lemma sqrt_252 : F64.sqrt (F64.Fin 252) = F64.Fin (sqrt 252).
Proof. simpl. now rewrite R_ltb_nlt by lra. Qed.

(** Annualised volatility of the returns seen by one window. *)
Lemma annualised_std (rs : list R) :
  F64.mul (let obs := map F64.Fin rs in
           if (length obs <? 1)%nat then F64.NaN else std 1 obs)
          (F64.sqrt (F64.Fin 252))
  = if (length rs <? 2)%nat then F64.NaN else F64.Fin (sample_std rs * sqrt 252).
Proof.
  cbv zeta. rewrite length_map, std_finite_or_nan, sqrt_252.
  destruct (Nat.ltb_spec (length rs) 1), (Nat.ltb_spec (length rs) 2);
    try reflexivity; lia.
Qed.

(** ** Rolling annualised volatility (C7) *)

Lemma candle_roll_vol (data : DataFrame) (cs : list R) (vol_window : Z) (i : nat) :
  get data "Close" = map F64.Fin cs ->
  length (Date data) = length cs ->
  Forall (fun c => c <> 0) cs ->
  (i < length cs)%nat ->
  nth i (CandleStickViewer.roll_vol vol_window data) F64.NaN
  = annualised_volatility vol_window (Date data) cs i.
Proof.
  intros Hclose Hlen Hnz Hi.
  unfold CandleStickViewer.roll_vol, CandleStickViewer.Return. rewrite Hclose.
  rewrite (nth_map_lt _ _ F64.NaN F64.NaN)
    by (rewrite length_rolling_time, length_pct_change, length_map; assumption).
  rewrite nth_rolling_time by (rewrite length_pct_change, length_map; assumption).
  rewrite window_returns by assumption.
  apply annualised_std.
Qed.

Lemma mask_select_all {A} (q : nat -> bool) (a : nat) (xs : list A) :
  (forall j, (a <= j)%nat -> q j = true) ->
  mask_select (map q (seq a (length xs))) xs = xs.
Proof.
  intro Hq. revert a Hq. unfold mask_select.
  induction xs as [|x xs IH]; intros a Hq; [reflexivity|].
  cbn [length seq map combine filter fst]. rewrite Hq by lia.
  cbn [map snd]. f_equal. apply IH. intros j Hj. apply Hq. lia.
Qed.

Lemma mask_select_after_first {A} (xs : list A) :
  mask_select (map after_first (seq 0 (length xs))) xs = tl xs.
Proof.
  destruct xs as [|x xs]; [reflexivity|].
  cbn [length seq map tl]. unfold mask_select at 1. cbn [combine filter fst after_first].
  apply (@mask_select_all A after_first 1%nat xs).
  intros [|j] Hj; [lia|reflexivity].
Qed.

Lemma tl_map_seq {A} (f : nat -> A) (n : nat) :
  tl (map f (seq 0 n)) = map f (seq 1 (n - 1)).
Proof.
  destruct n as [|n]; [reflexivity|].
  cbn [seq map tl]. now replace (S n - 1)%nat with n by lia.
Qed.

(** The frame of returns of the Oil page: the first row is dropped. *)
Lemma oil_returns_frame (data : DataFrame) (bs ws : list R) :
  columns data = [("Brent"%string, map F64.Fin bs); ("WTI"%string, map F64.Fin ws)] ->
  length (Date data) = length bs ->
  length ws = length bs ->
  Forall (fun c => c <> 0) bs ->
  Forall (fun c => c <> 0) ws ->
  Oil.returns data
  = {| Date := tl (Date data);
       columns := [("Brent"%string, map (pct bs) (seq 1 (length bs - 1)));
                   ("WTI"%string, map (pct ws) (seq 1 (length bs - 1)))] |}.
Proof.
  intros Hcols Hd Hw Hb Hws.
  unfold Oil.returns, map_columns. rewrite Hcols. cbn [map fst snd].
  rewrite !pct_change_finite by assumption. rewrite Hw.
  unfold dropna, filter_rows. cbn [Date columns map fst snd].
  match goal with
  | |- context [notna_rows ?df] =>
      assert (Hmask : notna_rows df = map after_first (seq 0 (length bs)))
  end.
  { unfold notna_rows. cbn [Date columns]. rewrite Hd.
    apply map_ext_in. intros j Hj. apply in_seq in Hj.
    cbn [forallb snd]. rewrite !nth_map_seq by lia.
    destruct j; reflexivity. }
  rewrite Hmask. f_equal.
  - rewrite <- Hd. apply mask_select_after_first.
  - assert (Hsel : forall f : nat -> f64,
               mask_select (map after_first (seq 0 (length bs))) (map f (seq 0 (length bs)))
               = map f (seq 1 (length bs - 1))).
    { intro f. rewrite <- tl_map_seq.
      rewrite <- (length_seq (length bs) 0) at 1.
      rewrite <- (length_map f (seq 0 (length bs))) at 1.
      apply mask_select_after_first. }
    now rewrite !Hsel.
Qed.

Lemma oil_vol_column (dates : list Z) (cs : list R) (i : nat) :
  length dates = length cs ->
  (S i < length cs)%nat ->
  nth i (map (fun s => F64.mul s (F64.sqrt (F64.Fin 252)))
             (rolling_time (days 30) (std 1) (tl dates)
                           (map (pct cs) (seq 1 (length cs - 1))))) F64.NaN
  = annualised_volatility 30 dates cs (S i).
Proof.
  intros Hlen Hi.
  rewrite (nth_map_lt _ _ F64.NaN F64.NaN)
    by (rewrite length_rolling_time, length_map, length_seq; lia).
  rewrite nth_rolling_time by (rewrite length_map, length_seq; lia).
  rewrite window_returns_dropped by assumption.
  apply annualised_std.
Qed.

Lemma oil_vol (data : DataFrame) (bs ws : list R) (i : nat) :
  columns data = [("Brent"%string, map F64.Fin bs); ("WTI"%string, map F64.Fin ws)] ->
  length (Date data) = length bs ->
  length ws = length bs ->
  Forall (fun c => c <> 0) bs ->
  Forall (fun c => c <> 0) ws ->
  (S i < length bs)%nat ->
  let vol := Oil.vol (Oil.returns data) in
  Date vol = tl (Date data) /\
  nth i (get vol "Volatility_Brent") F64.NaN
  = annualised_volatility 30 (Date data) bs (S i) /\
  nth i (get vol "Volatility_WTI") F64.NaN
  = annualised_volatility 30 (Date data) ws (S i).
Proof.
  intros Hcols Hd Hw Hb Hws Hi vol. subst vol.
  rewrite (@oil_returns_frame data bs ws Hcols Hd Hw Hb Hws).
  unfold Oil.vol, rename, map_columns, get. cbn [Date columns map fst snd].
  change ("Volatility_" ++ "Brent")%string with "Volatility_Brent"%string.
  change ("Volatility_" ++ "WTI")%string with "Volatility_WTI"%string.
  cbn [lookup].
  change (String.eqb "Volatility_Brent" "Volatility_Brent") with true.
  change (String.eqb "Volatility_Brent" "Volatility_WTI") with false.
  change (String.eqb "Volatility_WTI" "Volatility_WTI") with true.
  cbv iota.
  split; [reflexivity|]. split.
  - now apply oil_vol_column.
  - rewrite <- Hw. apply oil_vol_column; lia.
Qed.

(** C7: for closes that are finite and non-zero, the rolling annualised
    volatility at each date is the sample standard deviation of the
    percent-change returns dated within the window ending at that date,
    times the square root of 252 (NaN when the window holds fewer than two
    returns): on the Candle Stick Viewer for the chosen window of
    [vol_window] days, on the Oil page for its window of 30 days. *)
Theorem rolling_annualised_volatility
        (data : DataFrame) (cs : list R) (vol_window : Z) (i : nat)
        (oil : DataFrame) (bs ws : list R) (k : nat) :
  get data "Close" = map F64.Fin cs ->
  length (Date data) = length cs ->
  Forall (fun c => c <> 0) cs ->
  (i < length cs)%nat ->
  columns oil = [("Brent"%string, map F64.Fin bs); ("WTI"%string, map F64.Fin ws)] ->
  length (Date oil) = length bs ->
  length ws = length bs ->
  Forall (fun c => c <> 0) bs ->
  Forall (fun c => c <> 0) ws ->
  (S k < length bs)%nat ->
  nth i (CandleStickViewer.roll_vol vol_window data) F64.NaN
  = annualised_volatility vol_window (Date data) cs i /\
  (let vol := Oil.vol (Oil.returns oil) in
   Date vol = tl (Date oil) /\
   nth k (get vol "Volatility_Brent") F64.NaN
   = annualised_volatility 30 (Date oil) bs (S k) /\
   nth k (get vol "Volatility_WTI") F64.NaN
   = annualised_volatility 30 (Date oil) ws (S k)).
Proof.
  intros. split.
  - now apply candle_roll_vol.
  - now apply oil_vol.
Qed.

Lemma closes_nonzero : Forall (fun c => c <> 0) Examples.closes.
Proof. repeat constructor; lra. Qed.

Lemma brent_nonzero : Forall (fun c => c <> 0) Examples.brent.
Proof. repeat constructor; lra. Qed.

Lemma wti_nonzero : Forall (fun c => c <> 0) Examples.wti.
Proof. repeat constructor; lra. Qed.

Lemma rolling_annualised_volatility_witness :
  nth 2 (CandleStickViewer.roll_vol 30 Examples.bars) F64.NaN
  = annualised_volatility 30 (Date Examples.bars) Examples.closes 2 /\
  Date (Oil.vol (Oil.returns Examples.oil_frame)) = tl (Date Examples.oil_frame) /\
  nth 1 (get (Oil.vol (Oil.returns Examples.oil_frame)) "Volatility_Brent") F64.NaN
  = annualised_volatility 30 (Date Examples.oil_frame) Examples.brent 2 /\
  nth 1 (get (Oil.vol (Oil.returns Examples.oil_frame)) "Volatility_WTI") F64.NaN
  = annualised_volatility 30 (Date Examples.oil_frame) Examples.wti 2.
Proof.
  apply (@rolling_annualised_volatility
           Examples.bars Examples.closes 30%Z 2%nat
           Examples.oil_frame Examples.brent Examples.wti 1%nat).
  - reflexivity.
  - reflexivity.
  - exact closes_nonzero.
  - simpl; lia.
  - reflexivity.
  - reflexivity.
  - reflexivity.
  - exact brent_nonzero.
  - exact wti_nonzero.
  - simpl; lia.
Defined.

(** ** Rolling VaR (C6) *)

Lemma leb_Fin (x y : R) : F64.leb (F64.Fin x) (F64.Fin y) = true <-> x <= y.
Proof.
  unfold F64.leb. simpl. rewrite orb_true_iff, R_ltb_true_iff, R_eqb_true_iff.
  lra.
Qed.

Lemma Forall_perm {A} (P : A -> Prop) (l l' : list A) :
  Permutation l l' -> Forall P l -> Forall P l'.
Proof.
  intros Hp H. rewrite Forall_forall in *. intros x Hx.
  apply H. eapply Permutation_in; [symmetry; eassumption|assumption].
Qed.

Lemma Sorted_cons_Forall (y : R) (l : list R) :
  Sorted Rle l -> Forall (Rle y) l -> Sorted Rle (y :: l).
Proof.
  intros Hs Hf. constructor; [assumption|].
  destruct l as [|z l]; constructor. now inversion Hf.
Qed.

Lemma Sorted_Rle_Forall (y : R) (l : list R) :
  Sorted Rle (y :: l) -> Forall (Rle y) l.
Proof.
  intro H. apply Sorted_extends in H; [assumption|].
  intros a b c. apply Rle_trans.
Qed.

Lemma insert_sorted_finite (x : R) (l : list R) :
  exists l',
    insert_sorted (F64.Fin x) (map F64.Fin l) = map F64.Fin l' /\
    Permutation l' (x :: l) /\
    (Sorted Rle l -> Sorted Rle l').
Proof.
  induction l as [|y l (l' & Heq & Hperm & Hsorted)].
  - exists [x]. repeat split; auto.
  - cbn [map insert_sorted].
    destruct (F64.leb (F64.Fin x) (F64.Fin y)) eqn:E.
    + exists (x :: y :: l). apply leb_Fin in E. repeat split; auto.
    + exists (y :: l'). rewrite Heq. split; [reflexivity|]. split.
      * rewrite Hperm. apply perm_swap.
      * intro Hs.
        assert (Hxy : y <= x).
        { destruct (Rle_dec x y) as [Hle|Hnle]; [|lra].
          apply leb_Fin in Hle. congruence. }
        apply Sorted_cons_Forall.
        -- apply Hsorted. now inversion Hs.
        -- apply (Forall_perm (Permutation_sym Hperm)).
           constructor; [assumption|]. now apply Sorted_Rle_Forall.
Qed.

Lemma sort_finite (l : list R) :
  exists l',
    sort (map F64.Fin l) = map F64.Fin l' /\ Permutation l' l /\ Sorted Rle l'.
Proof.
  induction l as [|x l (l' & Heq & Hperm & Hsorted)].
  - exists []. repeat split; auto.
  - unfold sort in *. cbn [map fold_right]. rewrite Heq.
    destruct (insert_sorted_finite x l') as (l'' & Heq' & Hperm' & Hsorted').
    exists l''. rewrite Heq'. repeat split; auto.
    rewrite Hperm'. now constructor.
Qed.

(** The integer part of a non-negative rank, as a position. *)
Lemma rank_position (h : R) :
  0 <= h ->
  let k := Z.to_nat (Int_part h) in INR k <= h < INR k + 1.
Proof.
  intros Hh k. subst k.
  destruct (base_Int_part h) as [Hlo Hhi].
  assert (Hz : (0 <= Int_part h)%Z).
  { apply Z.lt_succ_r. apply lt_IZR. rewrite succ_IZR. lra. }
  rewrite INR_IZR_INZ, Z2Nat.id by assumption. lra.
Qed.

Lemma quantile_percentile (p : R) (l : list R) :
  l <> [] -> 0 <= p <= 100 ->
  exists y, quantile (p / 100) (map F64.Fin l) = F64.Fin y /\ is_percentile p l y.
Proof.
  intros Hne Hp. unfold quantile, is_percentile. rewrite length_map.
  destruct (sort_finite l) as (sorted & Heq & Hperm & Hsorted). rewrite Heq.
  pose proof (INR_length_pos Hne) as Hn.
  assert (Hn1 : 1 <= INR (length l)).
  { destruct l as [|x l]; [congruence|]. rewrite length_cons, S_INR.
    pose proof (pos_INR (length l)). lra. }
  set (h := p / 100 * (INR (length l) - 1)).
  assert (Hh : 0 <= h <= INR (length l) - 1).
  { subst h. split; [apply Rmult_le_pos; lra|].
    rewrite <- (Rmult_1_l (INR (length l) - 1)) at 2.
    apply Rmult_le_compat_r; lra. }
  pose proof (rank_position (proj1 Hh)) as Hk. cbv zeta in Hk.
  set (k := Z.to_nat (Int_part h)) in *.
  assert (Hlen : length sorted = length l) by now apply Permutation_length.
  assert (Hkn : (k < length l)%nat) by (apply INR_lt; lra).
  destruct (R_eqb h (INR k)) eqn:E.
  - apply R_eqb_true_iff in E.
    exists (nth k sorted 0). split; [apply nth_map_Fin; lia|].
    exists sorted, k. repeat split; try assumption; try lra.
    rewrite E. ring.
  - assert (Hne' : h <> INR k).
    { intro Heq'. apply R_eqb_true_iff in Heq'. congruence. }
    assert (Hk1 : (k + 1 < length l)%nat).
    { apply INR_lt. rewrite plus_INR. simpl. lra. }
    rewrite !nth_map_Fin by lia.
    exists (nth k sorted 0 + (nth (k + 1) sorted 0 + - nth k sorted 0) * (h - INR k)).
    split; [reflexivity|].
    exists sorted, k. repeat split; try assumption; try lra.
    rewrite (nth_indep sorted (nth k sorted 0) 0) by lia. ring.
Qed.

(** C6: for closes that are finite and non-zero and a confidence level
    [v] between 90 and 99, the rolling VaR at each date is the
    [(100 - v)]-th percentile of the percent-change returns dated within
    the window ending at that date (NaN when the window holds no return). *)
Theorem rolling_var_percentile
        (data : DataFrame) (cs : list R) (vol_window var_level : Z) (i : nat) :
  get data "Close" = map F64.Fin cs ->
  length (Date data) = length cs ->
  Forall (fun c => c <> 0) cs ->
  (i < length cs)%nat ->
  (90 <= var_level <= 99)%Z ->
  let rs := returns_in_window vol_window (Date data) cs i in
  let var_i := nth i (CandleStickViewer.roll_var vol_window var_level data) F64.NaN in
  (rs = [] -> var_i = F64.NaN) /\
  (rs <> [] ->
   exists y, var_i = F64.Fin y /\ is_percentile (100 - IZR var_level) rs y).
Proof.
  intros Hclose Hlen Hnz Hi Hv rs var_i. subst var_i.
  unfold CandleStickViewer.roll_var, CandleStickViewer.Return. rewrite Hclose.
  rewrite nth_rolling_time by (rewrite length_pct_change, length_map; assumption).
  rewrite window_returns by assumption. fold rs. cbv zeta. rewrite length_map.
  split.
  - intros ->. reflexivity.
  - intro Hne.
    destruct (Nat.ltb_spec (length rs) 1) as [Hbad|_].
    { destruct rs; [congruence|simpl in Hbad; lia]. }
    apply quantile_percentile; [assumption|].
    destruct Hv as [Hlo Hhi]. apply IZR_le in Hlo, Hhi. lra.
Qed.

Lemma closes_window_nonempty :
  returns_in_window 30 (Date Examples.bars) Examples.closes 2 <> [].
Proof. discriminate. Qed.

Lemma rolling_var_percentile_witness :
  exists y,
    nth 2 (CandleStickViewer.roll_var 30 95 Examples.bars) F64.NaN = F64.Fin y /\
    is_percentile (100 - 95)
                  (returns_in_window 30 (Date Examples.bars) Examples.closes 2) y.
Proof.
  apply (@rolling_var_percentile Examples.bars Examples.closes 30%Z 95%Z 2%nat).
  - reflexivity.
  - reflexivity.
  - exact closes_nonzero.
  - simpl; lia.
  - lia.
  - exact closes_window_nonempty.
Defined.

(** ** The Candle Stick Viewer page: date range and empty data (C10, C8) *)

Lemma mask_select_In {A} (mask : list bool) (xs : list A) (x : A) :
  In x (mask_select mask xs) -> In (true, x) (combine mask xs).
Proof.
  unfold mask_select. intro H. apply in_map_iff in H.
  destruct H as ([b y] & Hx & Hin). simpl in Hx. subst y.
  apply filter_In in Hin. destruct Hin as [Hin Hb]. simpl in Hb. now subst b.
Qed.

Lemma combine_map_In {A} (p : A -> bool) (xs : list A) (b : bool) (x : A) :
  In (b, x) (combine (map p xs) xs) -> b = p x.
Proof.
  induction xs as [|y xs IH]; simpl; [tauto|].
  intros [[= <- <-]|H]; auto.
Qed.

(** Every row of a frame filtered by [display_range] is dated within the
    chosen range. *)
Lemma display_range_dates (start end_ : Z) (data : DataFrame) (d : Z) :
  In d (Date (CandleStickViewer.display_range start end_ data)) ->
  (to_datetime start <= d <= to_datetime end_)%Z.
Proof.
  unfold CandleStickViewer.display_range, CandleStickViewer.in_range, filter_rows.
  cbn [Date]. intro H. apply mask_select_In, combine_map_In in H.
  symmetry in H. apply andb_true_iff in H. lia.
Qed.

Lemma candle_change_pct_ok (last_price prev_close : f64) :
  F64.eqb prev_close (F64.Fin 0) = false ->
  CandleStickViewer.change_pct last_price prev_close
  = Ok (F64.mul (F64.div (F64.sub last_price prev_close) prev_close) (F64.Fin 100)).
Proof.
  intro H. unfold CandleStickViewer.change_pct, PyFloat.truediv. now rewrite H.
Qed.

(** Reduce the plumbing of the page monad, and nothing else. *)
Ltac run_page :=
  cbn [bind emit ret lift raise st_stop fst snd app rendered outcome
       rendered_x flat_map trace_x existsb filter is_error is_metric is_chart
       orb negb].

Section CandlePage.

Variables (yf : YFinance) (selected : string) (start end_ : Z).
Variables (vol_window var_level : Z) (data : DataFrame).
Variables (last prev : f64).

Hypothesis Hload : CandleStickViewer.load yf selected start end_ = Ok data.

(** With no row in the range the page shows the error and the footer,
    and nothing else. *)
Lemma candle_page_empty_range :
  Date (CandleStickViewer.display_range start end_ data) = [] ->
  CandleStickViewer.page yf selected start end_ vol_window var_level
  = ([st_error "No data found for this date range."; st_caption
            "This dashboard is for educational/analytical use only. Data powered by Yahoo Finance and the yfinance python module."],
         Ok tt).
Proof.
  intro Hempty. unfold CandleStickViewer.page.
  rewrite Hload. run_page. rewrite Hempty. reflexivity.
Qed.

(** With rows in the range and a non-zero previous close, the dates put on
    screen are those of the four filtered frames and, for the Rolling
    Volatility & VaR tab, all the dates of [data]. *)
Lemma candle_page_rendered_x :
  Date (CandleStickViewer.display_range start end_ data) <> [] ->
  quoted yf selected last prev ->
  F64.eqb prev (F64.Fin 0) = false ->
  let shown := Date (CandleStickViewer.display_range start end_ data) in
  rendered_x (CandleStickViewer.page yf selected start end_ vol_window var_level)
  = (shown ++ shown) ++ (shown ++ shown ++ shown ++ shown)
    ++ (Date data ++ Date data)
    ++ (shown ++ shown ++ shown ++ shown) ++ shown.
Proof.
  intros Hrows [Hlast Hquote] Hprev shown. unfold CandleStickViewer.page.
  rewrite Hload. run_page.
  assert (Hlen : (length (Date (CandleStickViewer.display_range start end_ data)) =? 0)%nat
                 = false).
  { destruct (Date (CandleStickViewer.display_range start end_ data));
      [congruence|reflexivity]. }
  rewrite Hlen.
  unfold CandleStickViewer.quick_metrics. rewrite Hlast, Hquote. run_page.
  rewrite candle_change_pct_ok by assumption.
  unfold CandleStickViewer.tab1, CandleStickViewer.tab2, CandleStickViewer.tab3,
    CandleStickViewer.tab4, CandleStickViewer.tab5, footer, CandleStickViewer.candles.
  run_page. rewrite !app_nil_r.
  reflexivity.
Qed.

End CandlePage.

Lemma quote_ok_quoted (yf : YFinance) (t : string) :
  fast_info yf t = Examples.quote_ok -> quoted yf t (F64.Fin 70) (F64.Fin 69).
Proof. intro H. unfold quoted. rewrite H. split; reflexivity. Qed.

Lemma quote_ok_previous_close : F64.eqb (F64.Fin 69) (F64.Fin 0) = false.
Proof. simpl. apply R_eqb_neq. lra. Qed.

Lemma two_bars_loaded :
  CandleStickViewer.load Examples.yf_two_bars "BZ=F" 1000 1100
  = Ok Examples.two_bars_frame.
Proof. reflexivity. Qed.

Lemma two_bars_shown :
  Date (CandleStickViewer.display_range 1000 1100 Examples.two_bars_frame)
  = [days 1050].
Proof. reflexivity. Qed.

(** C10: the four filtered frames hold only rows of the chosen range, but
    the Rolling Volatility & VaR tab plots the unfiltered [data]: with a
    bar on day 700 and a bar on day 1050, and the range of days 1000 to
    1100, day 700 is put on screen although it lies before the start. *)
Theorem candle_tab3_shows_dates_before_start :
  In (days 700)
     (rendered_x (CandleStickViewer.page Examples.yf_two_bars "BZ=F" 1000 1100 30 95)) /\
  (days 700 < to_datetime 1000)%Z /\
  ~ In (days 700)
       (Date (CandleStickViewer.display_range 1000 1100 Examples.two_bars_frame)).
Proof.
  split; [|split].
  - rewrite (@candle_page_rendered_x Examples.yf_two_bars "BZ=F" 1000 1100 30 95
               Examples.two_bars_frame (F64.Fin 70) (F64.Fin 69) two_bars_loaded).
    + rewrite two_bars_shown. cbn [Date Examples.two_bars_frame app].
      simpl. tauto.
    + rewrite two_bars_shown. discriminate.
    + now apply quote_ok_quoted.
    + exact quote_ok_previous_close.
  - reflexivity.
  - rewrite two_bars_shown. simpl. intros [H|[]]. discriminate H.
Qed.

(** The dates of [data] all reach the screen through the Rolling
    Volatility & VaR tab, whatever the chosen range. *)
Lemma candle_tab3_unfiltered (yf : YFinance) (selected : string) (start end_ : Z)
      (vol_window var_level : Z) (data : DataFrame) (last prev : f64) (d : Z) :
  CandleStickViewer.load yf selected start end_ = Ok data ->
  Date (CandleStickViewer.display_range start end_ data) <> [] ->
  quoted yf selected last prev ->
  F64.eqb prev (F64.Fin 0) = false ->
  In d (Date data) ->
  In d (rendered_x (CandleStickViewer.page yf selected start end_ vol_window var_level)).
Proof.
  intros Hload Hrows Hquote Hprev Hd.
  rewrite (@candle_page_rendered_x yf selected start end_ vol_window var_level
             data last prev Hload Hrows Hquote Hprev).
  rewrite !in_app_iff. tauto.
Qed.

(** ** The Metals page on an empty download (C8) *)

Lemma metals_page_empty_download (yf : YFinance)
      (selected_names custom_tickers tickers : list string)
      (start end_ : Z) (normalise : bool) :
  Metals.tickers_of selected_names = Ok tickers ->
  (tickers ++ custom_tickers)%list <> [] ->
  raw_empty (download yf (tickers ++ custom_tickers)%list start end_
                      (Metals.interval_for (end_ - start))) = true ->
  let run := Metals.page yf selected_names custom_tickers start end_ normalise in
  outcome run = Raise StopException /\
  filter is_error (rendered run)
  = [st_error "No data returned for the selected tickers/date range."] /\
  filter is_metric (rendered run) = [] /\
  filter is_chart (rendered run) = [].
Proof.
  intros Htickers Hsel Hempty run. subst run. unfold Metals.page.
  rewrite Htickers.
  assert (Hlen : (length (tickers ++ custom_tickers) =? 0)%nat = false).
  { destruct (tickers ++ custom_tickers)%list; [congruence|reflexivity]. }
  destruct (existsb _ selected_names); run_page; rewrite Hlen; run_page;
    rewrite Hempty; run_page; auto.
Qed.

(** ** The Oil page has no check for an empty download (C8, C1) *)

Lemma oil_change_ok (live prev : f64) :
  F64.eqb prev (F64.Fin 0) = false ->
  Oil.change live prev
  = Ok (F64.mul (F64.div (F64.sub live prev) prev) (F64.Fin 100)).
Proof. intro H. unfold Oil.change, PyFloat.truediv. now rewrite H. Qed.

Lemma oil_page_without_rows (yf : YFinance) (start end_ window_days : Z)
      (data : DataFrame) (brent_live brent_prev wti_live wti_prev : f64) :
  Oil.load yf start end_ (Oil.interval_for (end_ - start)) = Ok data ->
  empty data = true ->
  quoted yf "BZ=F" brent_live brent_prev ->
  F64.eqb brent_prev (F64.Fin 0) = false ->
  quoted yf "CL=F" wti_live wti_prev ->
  F64.eqb wti_prev (F64.Fin 0) = false ->
  let run := Oil.page yf start end_ window_days in
  outcome run = Raise ValueError /\
  filter is_error (rendered run) = [] /\
  length (filter is_metric (rendered run)) = 6%nat /\
  filter is_chart (rendered run) = [].
Proof.
  intros Hload Hempty [Hbl Hbp] Hb [Hwl Hwp] Hw run. subst run. unfold Oil.page.
  rewrite Hload. run_page.
  unfold Oil.quick_metrics. rewrite Hbl, Hbp, Hwl, Hwp. run_page.
  rewrite !oil_change_ok by assumption.
  unfold Oil.two_lines. rewrite Hempty. run_page. auto.
Qed.

Lemma no_rows_loaded (start end_ : Z) (interval : string) :
  Oil.load Examples.yf_no_rows start end_ interval = Ok Examples.oil_no_rows.
Proof. reflexivity. Qed.

(** C8 fails on the Oil page, which has no check for empty data: when the
    provider returns no rows for the range of days 0 to 100, the page
    shows no error message of its own; it shows the six quote metrics,
    goes on to chart the empty frame and is ended there by the
    [ValueError] of [px.line], before any chart.  (The Candle Stick
    Viewer and the Metals page do answer empty data with an error message
    and nothing else: [candle_page_empty_range],
    [metals_page_empty_download].) *)
Theorem oil_page_no_message_on_empty_data :
  raw_empty (download Examples.yf_no_rows ["BZ=F"; "CL=F"]%string 0 100 "1d") = true /\
  outcome (Oil.page Examples.yf_no_rows 0 100 30) = Raise ValueError /\
  filter is_error (rendered (Oil.page Examples.yf_no_rows 0 100 30)) = [] /\
  length (filter is_metric (rendered (Oil.page Examples.yf_no_rows 0 100 30))) = 6%nat /\
  filter is_chart (rendered (Oil.page Examples.yf_no_rows 0 100 30)) = [].
Proof.
  split; [reflexivity|].
  apply (@oil_page_without_rows Examples.yf_no_rows 0 100 30 Examples.oil_no_rows
           (F64.Fin 70) (F64.Fin 69) (F64.Fin 70) (F64.Fin 69)).
  - apply no_rows_loaded.
  - reflexivity.
  - now apply quote_ok_quoted.
  - exact quote_ok_previous_close.
  - now apply quote_ok_quoted.
  - exact quote_ok_previous_close.
Qed.

(** On a zero previous close the Oil page stops with [ZeroDivisionError]
    before any metric is shown; so does the Candle Stick Viewer. *)
Lemma oil_page_zero_previous_close (yf : YFinance) (start end_ window_days : Z)
      (data : DataFrame) (brent_live : f64) :
  Oil.load yf start end_ (Oil.interval_for (end_ - start)) = Ok data ->
  quoted yf "BZ=F" brent_live (F64.Fin 0) ->
  let run := Oil.page yf start end_ window_days in
  outcome run = Raise ZeroDivisionError /\
  filter is_metric (rendered run) = [].
Proof.
  intros Hload [Hlive Hzero] run. subst run. unfold Oil.page.
  rewrite Hload. run_page.
  unfold Oil.quick_metrics, Oil.change. rewrite Hlive, Hzero. run_page.
  rewrite truediv_zero. run_page. auto.
Qed.

Lemma candle_page_zero_previous_close (yf : YFinance) (selected : string)
      (start end_ vol_window var_level : Z) (data : DataFrame) (last : f64) :
  CandleStickViewer.load yf selected start end_ = Ok data ->
  Date (CandleStickViewer.display_range start end_ data) <> [] ->
  quoted yf selected last (F64.Fin 0) ->
  let run := CandleStickViewer.page yf selected start end_ vol_window var_level in
  outcome run = Raise ZeroDivisionError /\
  filter is_metric (rendered run) = [].
Proof.
  intros Hload Hrows [Hlast Hzero] run. subst run. unfold CandleStickViewer.page.
  rewrite Hload. run_page.
  assert (Hlen : (length (Date (CandleStickViewer.display_range start end_ data)) =? 0)%nat
                 = false).
  { destruct (Date (CandleStickViewer.display_range start end_ data));
      [congruence|reflexivity]. }
  rewrite Hlen.
  unfold CandleStickViewer.quick_metrics, CandleStickViewer.change_pct.
  rewrite Hlast, Hzero. run_page. rewrite truediv_zero. run_page. auto.
Qed.

(** ** The interval the pages request *)

(** Each page consults the provider's prices only through one download,
    at the interval chosen by [interval_for]: two providers that agree on
    the quotes and on that download give the same page. *)
Lemma oil_page_requests_interval (yf yf' : YFinance) (start end_ window_days : Z) :
  fast_info yf = fast_info yf' ->
  download yf ["BZ=F"; "CL=F"]%string start end_ (Oil.interval_for (end_ - start))
  = download yf' ["BZ=F"; "CL=F"]%string start end_ (Oil.interval_for (end_ - start)) ->
  Oil.page yf start end_ window_days = Oil.page yf' start end_ window_days.
Proof.
  intros Hq Hd. unfold Oil.page, Oil.load, Oil.quick_metrics.
  cbn [map snd Oil.tickers]. now rewrite Hd, Hq.
Qed.

Lemma metals_page_requests_interval (yf yf' : YFinance)
      (selected_names custom_tickers : list string) (start end_ : Z)
      (normalise : bool) :
  fast_info yf = fast_info yf' ->
  (forall tickers,
      download yf tickers start end_ (Metals.interval_for (end_ - start))
      = download yf' tickers start end_ (Metals.interval_for (end_ - start))) ->
  Metals.page yf selected_names custom_tickers start end_ normalise
  = Metals.page yf' selected_names custom_tickers start end_ normalise.
Proof.
  intros Hq Hd. destruct yf as [d1 f], yf' as [d2 f']. simpl in Hq, Hd. subst f'.
  unfold Metals.page, Metals.quote, Metals.try_quote. cbn [download fast_info].
  f_equal.
  destruct (Metals.tickers_of selected_names) as [tickers|e]; [|reflexivity].
  run_page. now rewrite Hd.
Qed.

(** * Further properties of the code *)

(** ** RSI: range, closed form, falling prices *)

Lemma ups_finite (cs : list R) (j : nat) :
  (j < length cs)%nat ->
  nth j (ups (map F64.Fin cs)) F64.NaN = F64.Fin (up_move cs j).
Proof.
  intro Hj. rewrite nth_ups_lt by now rewrite length_map.
  destruct j as [|j]; [now rewrite nth_diff_0|].
  rewrite nth_diff_S by assumption. unfold F64.gtb, up_move, price_change. simpl.
  destruct (R_ltb 0 _); reflexivity.
Qed.

Lemma downs_finite (cs : list R) (j : nat) :
  (j < length cs)%nat ->
  nth j (downs (map F64.Fin cs)) F64.NaN = F64.Fin (down_move cs j).
Proof.
  intro Hj. rewrite nth_downs by now rewrite length_map.
  destruct j as [|j]; [now rewrite nth_diff_0|].
  rewrite nth_diff_S by assumption. unfold down_move, price_change. simpl.
  destruct (R_ltb _ 0); reflexivity.
Qed.

Lemma up_move_nonneg (cs : list R) (j : nat) : 0 <= up_move cs j.
Proof.
  destruct j as [|j]; simpl; [lra|].
  destruct (R_ltb 0 _) eqn:E; [|lra].
  apply R_ltb_true_iff in E. lra.
Qed.

Lemma down_move_nonneg (cs : list R) (j : nat) : 0 <= down_move cs j.
Proof.
  destruct j as [|j]; simpl; [lra|].
  destruct (R_ltb _ 0) eqn:E; [|lra].
  apply R_ltb_true_iff in E. lra.
Qed.

Lemma average14_nonneg (g : nat -> R) (i : nat) :
  (forall j, 0 <= g j) -> 0 <= average14 g i.
Proof.
  intro Hg. unfold average14.
  assert (0 <= Rsum (map (fun k => g (i - k)%nat) (seq 0 14))).
  { apply Rsum_nonneg. apply Forall_forall. intros x Hx.
    apply in_map_iff in Hx. destruct Hx as (k & <- & _). apply Hg. }
  lra.
Qed.

(** Gain and loss of the source at a position with a full window. *)
Lemma rsi_gain_loss (cs : list R) (i : nat) :
  (13 <= i < length cs)%nat ->
  nth i (CandleStickViewer.RSI (map F64.Fin cs)) F64.NaN
  = rsi_of (F64.Fin (average14 (up_move cs) i)) (F64.Fin (average14 (down_move cs) i)).
Proof.
  intro Hi.
  assert (Hlen : length (map F64.Fin cs) = length cs) by apply length_map.
  rewrite nth_RSI by lia.
  rewrite (@rolling_mean_generated (ups (map F64.Fin cs)) (up_move cs))
    by (rewrite length_ups, Hlen; auto using ups_finite).
  rewrite (@rolling_mean_generated (downs (map F64.Fin cs)) (down_move cs))
    by (rewrite length_downs, Hlen; auto using downs_finite).
  reflexivity.
Qed.

Lemma rsi_warmup (close : Series) (i : nat) :
  (i < 13)%nat -> nth i (CandleStickViewer.RSI close) F64.NaN = F64.NaN.
Proof.
  intro Hi. destruct (Nat.lt_ge_cases i (length close)) as [Hlt|Hge].
  - rewrite nth_RSI by assumption.
    rewrite (@rolling_warmup 14 mean (ups close)) by lia. reflexivity.
  - apply nth_overflow. unfold CandleStickViewer.RSI.
    rewrite length_map, length_map2. unfold CandleStickViewer.gain.
    rewrite length_rolling. fold (ups close). rewrite length_ups. lia.
Qed.

Lemma length_RSI (close : Series) :
  length (CandleStickViewer.RSI close) = length close.
Proof.
  unfold CandleStickViewer.RSI, CandleStickViewer.gain, CandleStickViewer.loss.
  fold (ups close) (downs close).
  rewrite length_map, length_map2, !length_rolling, length_ups, length_downs. lia.
Qed.

Lemma rsi_of_positive_loss (g l : R) :
  0 <= g -> 0 < l ->
  rsi_of (F64.Fin g) (F64.Fin l) = F64.Fin (100 * g / (g + l)).
Proof.
  intros Hg Hl. unfold rsi_of. simpl. rewrite (@R_eqb_neq l 0) by lra. simpl.
  assert (Hq : 0 <= g / l) by (apply Rmult_le_pos; [lra|left; now apply Rinv_0_lt_compat]).
  rewrite R_eqb_neq by lra. simpl. f_equal. field. lra.
Qed.

(** X1: for every series of finite closes and every position, the RSI is
    either NaN or a number between 0 and 100. *)
Theorem rsi_range (cs : list R) (i : nat) :
  nth i (CandleStickViewer.RSI (map F64.Fin cs)) F64.NaN = F64.NaN \/
  exists r, nth i (CandleStickViewer.RSI (map F64.Fin cs)) F64.NaN = F64.Fin r /\
            0 <= r <= 100.
Proof.
  destruct (Nat.lt_ge_cases i 13) as [Hwarm|Hfull].
  { left. now apply rsi_warmup. }
  destruct (Nat.lt_ge_cases i (length cs)) as [Hi|Hi].
  2: { left. apply nth_overflow. now rewrite length_RSI, length_map. }
  rewrite rsi_gain_loss by lia.
  pose proof (average14_nonneg (up_move cs) i (up_move_nonneg cs)) as Hg.
  pose proof (average14_nonneg (down_move cs) i (down_move_nonneg cs)) as Hl.
  destruct (Rle_lt_or_eq_dec _ _ Hl) as [Hlpos|Hl0].
  - right. rewrite rsi_of_positive_loss by assumption.
    eexists. split; [reflexivity|].
    set (g := average14 (up_move cs) i) in *. set (l := average14 (down_move cs) i) in *.
    assert (Hgl : 0 < g + l) by lra.
    split.
    + apply Rmult_le_pos; [lra|]. left. now apply Rinv_0_lt_compat.
    + apply (Rmult_le_reg_r (g + l)); [assumption|].
      unfold Rdiv. rewrite Rmult_assoc, Rinv_l by lra. lra.
  - destruct (Rle_lt_or_eq_dec _ _ Hg) as [Hgpos|Hg0].
    + right. exists 100. split; [|lra]. apply rsi_of_no_loss; [assumption|now symmetry].
    + left. apply rsi_of_flat; now symmetry.
Qed.

(** X2: at a position with a full window whose average loss is positive,
    the RSI of the source equals the textbook closed form
    [100 * G / (G + L)], with [G] and [L] the 14-period averages of the
    upward and downward moves. *)
Theorem rsi_closed_form (cs : list R) (i : nat) :
  (13 <= i < length cs)%nat ->
  0 < average14 (down_move cs) i ->
  nth i (CandleStickViewer.RSI (map F64.Fin cs)) F64.NaN
  = F64.Fin (100 * average14 (up_move cs) i
             / (average14 (up_move cs) i + average14 (down_move cs) i)).
Proof.
  intros Hi Hl. rewrite rsi_gain_loss by assumption.
  apply rsi_of_positive_loss; [|assumption].
  apply average14_nonneg, up_move_nonneg.
Qed.

Section Falling.

Variable cs : list R.
Hypothesis Hdec : forall k, (S k < length cs)%nat -> nth (S k) cs 0 < nth k cs 0.

Lemma up_move_falling (j : nat) : (j < length cs)%nat -> up_move cs j = 0.
Proof.
  intro Hj. destruct j as [|j]; [reflexivity|].
  unfold up_move, price_change. specialize (Hdec Hj).
  now rewrite R_ltb_nlt by lra.
Qed.

Lemma down_move_falling (j : nat) :
  (S j < length cs)%nat -> 0 < down_move cs (S j).
Proof.
  intro Hj. unfold down_move, price_change. specialize (Hdec Hj).
  rewrite R_ltb_lt by lra. lra.
Qed.

Lemma average14_up_falling (i : nat) :
  (i < length cs)%nat -> average14 (up_move cs) i = 0.
Proof.
  intro Hi. unfold average14.
  rewrite (@Rsum_zero (map (fun k => up_move cs (i - k)) (seq 0 14))); [lra|].
  apply Forall_forall. intros x Hx. apply in_map_iff in Hx.
  destruct Hx as (k & <- & _). apply up_move_falling. lia.
Qed.

Lemma average14_down_falling (i : nat) :
  (13 <= i < length cs)%nat -> 0 < average14 (down_move cs) i.
Proof.
  intro Hi. unfold average14.
  change (seq 0 14) with (0%nat :: seq 1 13). cbn [map Rsum fold_right].
  fold (Rsum (map (fun k => down_move cs (i - k)) (seq 1 13))).
  assert (Hrest : 0 <= Rsum (map (fun k => down_move cs (i - k)) (seq 1 13))).
  { apply Rsum_nonneg. apply Forall_forall. intros x Hx.
    apply in_map_iff in Hx. destruct Hx as (k & <- & _). apply down_move_nonneg. }
  rewrite Nat.sub_0_r.
  destruct i as [|i']; [lia|].
  assert (Hs : (S i' < length cs)%nat) by lia.
  pose proof (down_move_falling Hs). lra.
Qed.

End Falling.

Lemma falling_decreasing (k : nat) :
  (S k < length Examples.falling)%nat ->
  nth (S k) Examples.falling 0 < nth k Examples.falling 0.
Proof.
  intro Hk. simpl in Hk.
  do 14 (destruct k as [|k]; [simpl; lra|]). lia.
Qed.

Lemma rsi_closed_form_witness :
  0 < average14 (down_move Examples.falling) 14 /\
  nth 14 (CandleStickViewer.RSI (map F64.Fin Examples.falling)) F64.NaN
  = F64.Fin (100 * average14 (up_move Examples.falling) 14
             / (average14 (up_move Examples.falling) 14
                + average14 (down_move Examples.falling) 14)).
Proof.
  assert (H : 0 < average14 (down_move Examples.falling) 14).
  { apply average14_down_falling; [exact falling_decreasing | simpl; lia]. }
  split; [exact H|].
  apply (@rsi_closed_form Examples.falling 14); [simpl; lia | exact H].
Defined.

(** X3: on a strictly decreasing price series the RSI equals 0 at every
    position with a full 14-period window (from position 13 on). *)
Theorem rsi_falling_prices (cs : list R) (i : nat) :
  (forall k, (S k < length cs)%nat -> nth (S k) cs 0 < nth k cs 0) ->
  (13 <= i < length cs)%nat ->
  nth i (CandleStickViewer.RSI (map F64.Fin cs)) F64.NaN = F64.Fin 0.
Proof.
  intros Hdec Hi. rewrite rsi_gain_loss by assumption.
  pose proof (@average14_down_falling cs Hdec i Hi) as Hl.
  rewrite (@average14_up_falling cs Hdec i) by lia.
  rewrite rsi_of_positive_loss by lra. f_equal. field. lra.
Qed.

Lemma rsi_falling_prices_witness :
  nth 14 (CandleStickViewer.RSI (map F64.Fin Examples.falling)) F64.NaN = F64.Fin 0.
Proof.
  apply (@rsi_falling_prices Examples.falling 14).
  - exact falling_decreasing.
  - simpl; lia.
Defined.

(** ** EMA: the average stays within the range of the prices *)

Lemma ema_from_bounds (alpha lo hi prev : R) (cs : list R) :
  0 <= alpha <= 1 ->
  lo <= prev <= hi ->
  Forall (fun c => lo <= c <= hi) cs ->
  Forall (fun e => lo <= e <= hi) (ema_from alpha prev cs).
Proof.
  intros Ha Hp Hcs. revert prev Hp.
  induction Hcs as [|c cs Hc Hcs IH]; intros prev Hp; simpl; constructor.
  - split; nra.
  - apply IH. split; nra.
Qed.

Lemma ema_bounds (alpha lo hi : R) (cs : list R) :
  0 <= alpha <= 1 ->
  Forall (fun c => lo <= c <= hi) cs ->
  Forall (fun e => lo <= e <= hi) (ema alpha cs).
Proof.
  intros Ha Hcs. destruct Hcs as [|c cs Hc Hcs]; simpl; constructor.
  - assumption.
  - now apply ema_from_bounds.
Qed.

Lemma length_ema (alpha : R) (cs : list R) : length (ema alpha cs) = length cs.
Proof. destruct cs; simpl; [reflexivity|]. now rewrite length_ema_from. Qed.

Lemma ewm_within (span lo hi : R) (cs : list R) (t : nat) :
  1 <= span ->
  Forall (fun c => lo <= c <= hi) cs ->
  (t < length cs)%nat ->
  exists e, nth t (ewm_mean span false (map F64.Fin cs)) F64.NaN = F64.Fin e /\
            lo <= e <= hi.
Proof.
  intros Hs Hcs Ht. rewrite ewm_mean_finite by lra.
  rewrite nth_map_Fin by now rewrite length_ema.
  eexists. split; [reflexivity|].
  assert (Ha : 0 <= 2 / (span + 1) <= 1).
  { split.
    - apply Rmult_le_pos; [lra|]. left. apply Rinv_0_lt_compat. lra.
    - apply (Rmult_le_reg_r (span + 1)); [lra|].
      unfold Rdiv. rewrite Rmult_assoc, Rinv_l by lra. lra. }
  pose proof (ema_bounds Ha Hcs) as Hb. rewrite Forall_forall in Hb.
  apply Hb. apply nth_In. now rewrite length_ema.
Qed.

(** X4: when all closes lie between [lo] and [hi], every value of the
    three EMA columns of the EMA Overlay tab lies between [lo] and [hi]
    as well: the averages never leave the range of the prices. *)
Theorem ema_within_price_range (data : DataFrame) (cs : list R) (lo hi : R)
        (name : string) (t : nat) :
  get data "Close" = map F64.Fin cs ->
  Forall (fun c => lo <= c <= hi) cs ->
  In name ["EMA20"; "EMA50"; "EMA200"]%string ->
  (t < length cs)%nat ->
  exists e, nth t (get (CandleStickViewer.ema_columns data) name) F64.NaN = F64.Fin e /\
            lo <= e <= hi.
Proof.
  intros Hclose Hcs Hname Ht.
  destruct (ema_columns_get data) as (H20 & H50 & H200).
  simpl in Hname. destruct Hname as [<-|[<-|[<-|[]]]].
  - rewrite H20, Hclose. apply ewm_within; (assumption || lra).
  - rewrite H50, Hclose. apply ewm_within; (assumption || lra).
  - rewrite H200, Hclose. apply ewm_within; (assumption || lra).
Qed.

Lemma closes_in_range : Forall (fun c => 10 <= c <= 12) Examples.closes.
Proof. repeat constructor; lra. Qed.

Lemma ema_within_price_range_witness :
  exists e,
    nth 2 (get (CandleStickViewer.ema_columns Examples.bars) "EMA50") F64.NaN = F64.Fin e /\
    10 <= e <= 12.
Proof.
  apply (@ema_within_price_range Examples.bars Examples.closes 10 12 "EMA50" 2).
  - reflexivity.
  - exact closes_in_range.
  - simpl. auto.
  - simpl; lia.
Defined.

(** ** Bollinger bands: defined together, ordered, NaN during warm-up *)

Lemma length_BB_upper (close : Series) :
  length (CandleStickViewer.BB_upper close) = length close.
Proof.
  unfold CandleStickViewer.BB_upper.
  rewrite length_map2, length_map, length_MA20, length_rolling. lia.
Qed.

Lemma length_BB_lower (close : Series) :
  length (CandleStickViewer.BB_lower close) = length close.
Proof.
  unfold CandleStickViewer.BB_lower.
  rewrite length_map2, length_map, length_MA20, length_rolling. lia.
Qed.

Lemma sample_std_nonneg (l : list R) : 0 <= sample_std l.
Proof. unfold sample_std. apply sqrt_pos. Qed.

(** X5: at every position of every Close series (missing values
    included) the three Bollinger columns are either all NaN or all
    finite, and when finite they are MA20, MA20 + 2s and MA20 - 2s for one
    s >= 0, so that lower <= MA20 <= upper; during the first 19 positions
    they are all NaN. *)
Theorem bollinger_columns_consistent (close : Series) (i : nat) :
  let ma := nth i (CandleStickViewer.MA20 close) F64.NaN in
  let upper := nth i (CandleStickViewer.BB_upper close) F64.NaN in
  let lower := nth i (CandleStickViewer.BB_lower close) F64.NaN in
  ((ma = F64.NaN /\ upper = F64.NaN /\ lower = F64.NaN) \/
   (exists m s, 0 <= s /\ ma = F64.Fin m /\
                upper = F64.Fin (m + 2 * s) /\ lower = F64.Fin (m - 2 * s))) /\
  ((i < 19)%nat -> ma = F64.NaN /\ upper = F64.NaN /\ lower = F64.NaN).
Proof.
  cbv zeta.
  destruct (Nat.lt_ge_cases i (length close)) as [Hi|Hi].
  2: { assert (Hnan : nth i (CandleStickViewer.MA20 close) F64.NaN = F64.NaN /\
                      nth i (CandleStickViewer.BB_upper close) F64.NaN = F64.NaN /\
                      nth i (CandleStickViewer.BB_lower close) F64.NaN = F64.NaN).
       { repeat split; apply nth_overflow;
           rewrite ?length_MA20, ?length_BB_upper, ?length_BB_lower; assumption. }
       split; [now left|auto]. }
  rewrite nth_BB_upper, nth_BB_lower by assumption.
  unfold CandleStickViewer.MA20, CandleStickViewer.window.
  split.
  - destruct (rolling_obs 20 close Hi) as [l Hl]. rewrite !Hl.
    destruct (Nat.ltb_spec (length l) 20) as [Hshort|Hlong].
    + left. auto.
    + right. exists (mean_of l), (sample_std l).
      rewrite std_finite by lia.
      rewrite mean_finite by (intro; subst l; simpl in Hlong; lia).
      split; [apply sample_std_nonneg|].
      repeat split; simpl; f_equal; lra.
  - intro Hwarm. rewrite !rolling_warmup by lia. auto.
Qed.

(** ** How far a close can lie from the moving average *)

Lemma Rsum_shift (m : R) (l : list R) :
  Rsum (map (fun y => y - m) l) = Rsum l - INR (length l) * m.
Proof.
  induction l as [|y l IH]; [simpl; lra|].
  cbn [map Rsum fold_right]. fold (Rsum (map (fun y => y - m) l)) (Rsum l).
  rewrite IH, length_cons, S_INR. lra.
Qed.

Lemma Rsum_deviations (l : list R) :
  l <> [] -> Rsum (map (fun y => y - mean_of l) l) = 0.
Proof.
  intro Hne. rewrite Rsum_shift. unfold mean_of.
  pose proof (INR_length_pos Hne). field. lra.
Qed.

(** The square of a sum is at most the number of terms times the sum of
    the squares. *)
Lemma square_of_sum (l : list R) :
  Rsum l * Rsum l <= INR (length l) * Rsum (map (fun x => x * x) l).
Proof.
  induction l as [|x l IH]; [simpl; lra|].
  cbn [map Rsum fold_right]. fold (Rsum l) (Rsum (map (fun x => x * x) l)).
  rewrite length_cons, S_INR.
  set (s := Rsum l) in *. set (q := Rsum (map (fun x => x * x) l)) in *.
  set (n := INR (length l)) in *.
  assert (Hn : 0 <= n) by apply pos_INR.
  assert (Hq : 0 <= q).
  { subst q. apply Rsum_nonneg. apply Forall_forall. intros y Hy.
    apply in_map_iff in Hy. destruct Hy as (z & <- & _). nra. }
  destruct (Req_dec n 0) as [Hz|Hnz].
  - rewrite Hz in *. assert (s = 0) by nra. subst s. nra.
  - assert (Hpos : 0 < n) by lra.
    assert (Hcross : 2 * x * s <= n * (x * x) + q).
    { apply (Rmult_le_reg_l n); [assumption|].
      pose proof (Rle_0_sqr (n * x - s)) as Hsq. unfold Rsqr in Hsq. nra. }
    nra.
Qed.

(** Samuelson's inequality for the first element of a sample. *)
Lemma deviation_bound (x : R) (rest : list R) :
  let l := x :: rest in
  INR (length l) * ((x - mean_of l) * (x - mean_of l))
  <= (INR (length l) - 1)
     * Rsum (map (fun y => (y - mean_of l) * (y - mean_of l)) l).
Proof.
  intro l. set (m := mean_of l).
  assert (Hzero : Rsum (map (fun y => y - m) l) = 0)
    by (apply Rsum_deviations; discriminate).
  subst l. cbn [map Rsum fold_right] in *.
  fold (Rsum (map (fun y => y - m) rest)) in Hzero.
  fold (Rsum (map (fun y => (y - m) * (y - m)) rest)).
  pose proof (square_of_sum (map (fun y => y - m) rest)) as Hcs.
  rewrite map_map, length_map in Hcs.
  rewrite length_cons, S_INR.
  set (e := Rsum (map (fun y => y - m) rest)) in *.
  set (q := Rsum (map (fun y => (y - m) * (y - m)) rest)) in *.
  set (n := INR (length rest)) in *.
  assert (He : e = - (x - m)) by lra.
  rewrite He in Hcs. nra.
Qed.

Lemma last_n_head (n i : nat) (cs : list R) :
  last_n (S n) i cs = nth i cs 0 :: map (fun k => nth (i - k) cs 0) (seq 1 n).
Proof. unfold last_n. cbn [seq map]. now rewrite Nat.sub_0_r. Qed.

(** X6: on a Close column without missing values, at every position with
    at least 20 observations, the close lies within 4.25 rolling standard
    deviations of MA20 (Samuelson's bound 19/sqrt 20 for a sample of 20);
    so the price can leave the 2-deviation bands, but never by more than
    2.25 deviations. *)
Theorem close_within_samuelson_bound (cs : list R) (i : nat) :
  (19 <= i < length cs)%nat ->
  exists m s,
    nth i (CandleStickViewer.MA20 (map F64.Fin cs)) F64.NaN = F64.Fin m /\
    nth i (rolling 20 (std 1) (map F64.Fin cs)) F64.NaN = F64.Fin s /\
    m - 4.25 * s <= nth i cs 0 <= m + 4.25 * s.
Proof.
  intro Hi. exists (sma 20 i cs), (Textbook.rolling_std 20 i cs).
  split; [unfold CandleStickViewer.MA20, CandleStickViewer.window;
          apply rolling_mean_finite; lia|].
  split; [apply rolling_std_finite; lia|].
  unfold sma, Textbook.rolling_std.
  pose proof (@deviation_bound (nth i cs 0)
                (map (fun k => nth (i - k) cs 0) (seq 1 19))) as Hb.
  cbv zeta in Hb. rewrite <- (last_n_head 19 i cs) in Hb.
  rewrite length_last_n in Hb.
  set (l := last_n 20 i cs) in *. set (m := mean_of l) in *.
  set (x := nth i cs 0) in *.
  pose proof (sample_std_nonneg l) as Hs.
  assert (Hsq : sample_std l * sample_std l
                = Rsum (map (fun y => (y - m) * (y - m)) l) / 19).
  { unfold sample_std. fold m. subst l. rewrite length_last_n.
    replace (INR 20 - 1) with 19 by (simpl; lra).
    apply sqrt_sqrt. apply Rmult_le_pos; [apply Rsum_squares_nonneg|lra]. }
  replace (INR 20) with 20 in Hb by (simpl; lra).
  set (s := sample_std l) in *.
  set (q := Rsum (map (fun y => (y - m) * (y - m)) l)) in *.
  assert (Hq : q = 19 * (s * s)) by lra.
  assert (Hd : (x - m) * (x - m) <= (4.25 * s) * (4.25 * s)) by nra.
  split; nra.
Qed.

Lemma close_within_samuelson_bound_witness :
  exists m s,
    nth 19 (CandleStickViewer.MA20 (map F64.Fin Examples.spike)) F64.NaN = F64.Fin m /\
    nth 19 (rolling 20 (std 1) (map F64.Fin Examples.spike)) F64.NaN = F64.Fin s /\
    m - 4.25 * s <= nth 19 Examples.spike 0 <= m + 4.25 * s.
Proof.
  apply (@close_within_samuelson_bound Examples.spike 19). simpl; lia.
Defined.

(** ** Rolling volatility is never negative *)

Lemma in_firstn {A} (n : nat) (l : list A) (x : A) : In x (firstn n l) -> In x l.
Proof.
  intro H. rewrite <- (firstn_skipn n l). apply in_or_app. now left.
Qed.

Lemma window_time_In (w : Z) (index : list Z) (i : nat) (ys : Series) (x : f64) :
  In x (window_time w index i ys) -> In x ys.
Proof.
  unfold window_time. intro H. apply in_map_iff in H.
  destruct H as ([t y] & Hx & Hin). simpl in Hx. subst y.
  apply filter_In in Hin. destruct Hin as [Hin _].
  apply in_firstn in Hin. eapply in_combine_r. eassumption.
Qed.

Lemma prep_values_no_inf (xs : Series) (x : f64) :
  In x (prep_values xs) -> F64.isinf x = false.
Proof.
  unfold prep_values. intro H. apply in_map_iff in H.
  destruct H as (y & <- & _). destruct y; reflexivity.
Qed.

Lemma observations_no_inf (xs : Series) :
  (forall x, In x xs -> F64.isinf x = false) ->
  exists l, observations xs = map F64.Fin l.
Proof.
  unfold observations. induction xs as [|x xs IH]; intro H; [now exists []|].
  destruct IH as [l Hl]; [intros y Hy; apply H; now right|].
  pose proof (H x (or_introl eq_refl)) as Hx.
  destruct x; simpl in *; try discriminate; rewrite Hl.
  - now exists (r :: l).
  - now exists l.
Qed.

Lemma window_time_obs (w : Z) (index : list Z) (i : nat) (xs : Series) :
  exists l, observations (window_time w index i (prep_values xs)) = map F64.Fin l.
Proof.
  apply observations_no_inf. intros x Hx.
  apply window_time_In in Hx. now apply prep_values_no_inf in Hx.
Qed.

(** One annualised rolling standard deviation, whatever the column holds. *)
Lemma annualised_nonneg (w : Z) (index : list Z) (xs : Series) (i : nat) :
  let v := nth i (map (fun s => F64.mul s (F64.sqrt (F64.Fin 252)))
                      (rolling_time w (std 1) index xs)) F64.NaN in
  v = F64.NaN \/ exists r, v = F64.Fin r /\ 0 <= r.
Proof.
  cbv zeta. destruct (Nat.lt_ge_cases i (length xs)) as [Hi|Hi].
  2: { left. apply nth_overflow. now rewrite length_map, length_rolling_time. }
  rewrite (nth_map_lt _ _ F64.NaN F64.NaN) by now rewrite length_rolling_time.
  rewrite nth_rolling_time by assumption.
  destruct (window_time_obs w index i xs) as [l Hl]. rewrite Hl.
  rewrite annualised_std.
  destruct (length l <? 2)%nat; [now left|right].
  eexists. split; [reflexivity|].
  apply Rmult_le_pos; [apply sample_std_nonneg|apply sqrt_pos].
Qed.

(** X7: every value of a rolling annualised volatility line is NaN or a
    non-negative number, for any prices (missing or zero values
    included): on the Candle Stick Viewer, and for every column of the
    volatility frames of the Oil and Metals pages. *)
Theorem rolling_volatility_nonnegative
        (data : DataFrame) (vol_window : Z) (name : string) (col : Series) (i : nat) :
  (let v := nth i (CandleStickViewer.roll_vol vol_window data) F64.NaN in
   v = F64.NaN \/ exists r, v = F64.Fin r /\ 0 <= r) /\
  (In (name, col) (columns (Oil.vol data)) \/
   In (name, col) (columns (Metals.vol data)) ->
   nth i col F64.NaN = F64.NaN \/ exists r, nth i col F64.NaN = F64.Fin r /\ 0 <= r).
Proof.
  split.
  - apply annualised_nonneg.
  - intros [H|H].
    + unfold Oil.vol, rename, map_columns in H. cbn [columns] in H.
      rewrite map_map in H. apply in_map_iff in H.
      destruct H as ([n c] & [= _ <-] & _). cbn [snd Date].
      apply annualised_nonneg.
    + unfold Metals.vol, map_columns in H. cbn [columns Date] in H.
      rewrite map_map in H. apply in_map_iff in H.
      destruct H as ([n c] & [= _ <-] & _). cbn [snd].
      apply annualised_nonneg.
Qed.

Lemma rolling_volatility_nonnegative_witness :
  nth 1 (map (fun s => F64.mul s (F64.sqrt (F64.Fin 252)))
             (rolling_time (days 30) (std 1) (Date Examples.oil_frame)
                           (map F64.Fin Examples.brent))) F64.NaN = F64.NaN \/
  exists r,
    nth 1 (map (fun s => F64.mul s (F64.sqrt (F64.Fin 252)))
               (rolling_time (days 30) (std 1) (Date Examples.oil_frame)
                             (map F64.Fin Examples.brent))) F64.NaN = F64.Fin r /\
    0 <= r.
Proof.
  apply (@rolling_volatility_nonnegative
           Examples.oil_frame 30%Z "Volatility_Brent" _ 1%nat).
  left. unfold Oil.vol, rename, map_columns, Examples.oil_frame.
  cbn [columns Date map fst snd]. left. reflexivity.
Defined.

(** ** Rolling VaR: ordered by confidence level, bounded by the returns *)

Lemma sorted_nth_le (s : list R) (a b : nat) :
  Sorted Rle s -> (a <= b < length s)%nat -> nth a s 0 <= nth b s 0.
Proof.
  intro Hs. apply Sorted_StronglySorted in Hs; [|intros x y z; apply Rle_trans].
  revert a b. induction Hs as [|x s Hs IH Hall]; intros a b Hab; [simpl in Hab; lia|].
  destruct a as [|a], b as [|b]; simpl in *; try lia; try lra.
  - rewrite Forall_forall in Hall. apply Hall. apply nth_In. lia.
  - apply IH. lia.
Qed.

Lemma quantile_at (q : R) (l sorted : list R) :
  sort (map F64.Fin l) = map F64.Fin sorted ->
  length sorted = length l ->
  l <> [] -> 0 <= q <= 1 ->
  exists k,
    (k < length l)%nat /\
    INR k <= q * (INR (length l) - 1) < INR k + 1 /\
    quantile q (map F64.Fin l)
    = F64.Fin (interpolate sorted k (q * (INR (length l) - 1))).
Proof.
  intros Heq Hlen Hne Hq. unfold quantile, interpolate. rewrite length_map, Heq.
  assert (Hn1 : 1 <= INR (length l)).
  { destruct l as [|x l]; [congruence|]. rewrite length_cons, S_INR.
    pose proof (pos_INR (length l)). lra. }
  set (h := q * (INR (length l) - 1)).
  assert (Hh : 0 <= h <= INR (length l) - 1).
  { subst h. split; [apply Rmult_le_pos; lra|].
    rewrite <- (Rmult_1_l (INR (length l) - 1)) at 2.
    apply Rmult_le_compat_r; lra. }
  pose proof (rank_position (proj1 Hh)) as Hk. cbv zeta in Hk.
  set (k := Z.to_nat (Int_part h)) in *.
  assert (Hkn : (k < length l)%nat) by (apply INR_lt; lra).
  exists k. split; [assumption|]. split; [assumption|].
  destruct (R_eqb h (INR k)) eqn:E.
  - apply R_eqb_true_iff in E. rewrite nth_map_Fin by lia.
    f_equal. rewrite E. ring.
  - assert (Hne' : h <> INR k).
    { intro Heq'. apply R_eqb_true_iff in Heq'. congruence. }
    assert (Hk1 : (k + 1 < length l)%nat).
    { apply INR_lt. rewrite plus_INR. simpl. lra. }
    rewrite !nth_map_Fin by lia. simpl. f_equal.
    rewrite (nth_indep sorted (nth k sorted 0) 0) by lia. ring.
Qed.

Section Interpolation.

Variable sorted : list R.
Hypothesis Hsorted : Sorted Rle sorted.

Lemma next_order_statistic (k : nat) :
  (k < length sorted)%nat ->
  nth k sorted 0 <= nth (k + 1) sorted (nth k sorted 0).
Proof.
  intro Hk. destruct (Nat.lt_ge_cases (k + 1) (length sorted)) as [Hin|Hout].
  - rewrite (nth_indep sorted (nth k sorted 0) 0) by assumption.
    apply sorted_nth_le; [assumption|lia].
  - rewrite (nth_overflow sorted (nth k sorted 0) Hout). lra.
Qed.

Lemma interpolate_between (k : nat) (h : R) :
  (k < length sorted)%nat -> INR k <= h < INR k + 1 ->
  nth k sorted 0 <= interpolate sorted k h <= nth (k + 1) sorted (nth k sorted 0).
Proof.
  intros Hk Hh. pose proof (next_order_statistic Hk). unfold interpolate. nra.
Qed.

Lemma interpolate_monotone (k1 k2 : nat) (h1 h2 : R) :
  (k1 < length sorted)%nat -> (k2 < length sorted)%nat ->
  INR k1 <= h1 < INR k1 + 1 -> INR k2 <= h2 < INR k2 + 1 ->
  h1 <= h2 ->
  interpolate sorted k1 h1 <= interpolate sorted k2 h2.
Proof.
  intros Hk1 Hk2 Hh1 Hh2 Hle.
  assert (Hk : (k1 <= k2)%nat).
  { apply Nat.lt_succ_r. apply INR_lt. rewrite S_INR. lra. }
  destruct (Nat.eq_dec k1 k2) as [->|Hneq].
  - pose proof (next_order_statistic Hk2). unfold interpolate. nra.
  - pose proof (interpolate_between Hk1 Hh1) as [_ Hup].
    pose proof (interpolate_between Hk2 Hh2) as [Hlo _].
    rewrite (nth_indep sorted (nth k1 sorted 0) 0) in Hup by lia.
    assert (nth (k1 + 1) sorted 0 <= nth k2 sorted 0)
      by (apply sorted_nth_le; [assumption|lia]).
    lra.
Qed.

Lemma next_order_statistic_In (k : nat) :
  (k < length sorted)%nat -> In (nth (k + 1) sorted (nth k sorted 0)) sorted.
Proof.
  intro Hk. destruct (Nat.lt_ge_cases (k + 1) (length sorted)) as [Hin|Hout].
  - now apply nth_In.
  - rewrite (nth_overflow sorted (nth k sorted 0) Hout). now apply nth_In.
Qed.

End Interpolation.

(** X8: for closes that are finite and non-zero and a window holding at
    least one return, the rolling VaR at a higher confidence level is never
    above the VaR at a lower one, and both lie between two returns of the
    window. *)
Theorem rolling_var_ordered
        (data : DataFrame) (cs : list R) (vol_window v1 v2 : Z) (i : nat) :
  get data "Close" = map F64.Fin cs ->
  length (Date data) = length cs ->
  Forall (fun c => c <> 0) cs ->
  (i < length cs)%nat ->
  (90 <= v1 <= v2)%Z -> (v2 <= 99)%Z ->
  returns_in_window vol_window (Date data) cs i <> [] ->
  exists y1 y2 lo hi,
    nth i (CandleStickViewer.roll_var vol_window v1 data) F64.NaN = F64.Fin y1 /\
    nth i (CandleStickViewer.roll_var vol_window v2 data) F64.NaN = F64.Fin y2 /\
    In lo (returns_in_window vol_window (Date data) cs i) /\
    In hi (returns_in_window vol_window (Date data) cs i) /\
    lo <= y2 /\ y2 <= y1 /\ y1 <= hi.
Proof.
  intros Hclose Hlen Hnz Hi Hv Hv2 Hne.
  set (rs := returns_in_window vol_window (Date data) cs i) in *.
  unfold CandleStickViewer.roll_var, CandleStickViewer.Return. rewrite Hclose.
  rewrite !nth_rolling_time by (rewrite length_pct_change, length_map; assumption).
  rewrite window_returns by assumption. fold rs. cbv zeta. rewrite length_map.
  destruct (Nat.ltb_spec (length rs) 1) as [Hbad|_].
  { destruct rs; [congruence|simpl in Hbad; lia]. }
  destruct (sort_finite rs) as (sorted & Heq & Hperm & Hsorted).
  assert (Hlen' : length sorted = length rs) by now apply Permutation_length.
  destruct Hv as [Hv1 Hv12].
  apply IZR_le in Hv1, Hv12, Hv2.
  destruct (@quantile_at ((100 - IZR v1) / 100) rs sorted Heq Hlen' Hne)
    as (k1 & Hk1 & Hh1 & Hq1); [lra|].
  destruct (@quantile_at ((100 - IZR v2) / 100) rs sorted Heq Hlen' Hne)
    as (k2 & Hk2 & Hh2 & Hq2); [lra|].
  rewrite Hq1, Hq2. rewrite <- Hlen' in Hk1, Hk2.
  assert (Hn1 : 1 <= INR (length rs)).
  { destruct rs as [|x l]; [congruence|]. rewrite length_cons, S_INR.
    pose proof (pos_INR (length l)). lra. }
  pose proof (interpolate_between Hsorted Hk2 Hh2) as [Hlo2 _].
  pose proof (interpolate_between Hsorted Hk1 Hh1) as [_ Hhi1].
  eexists _, _, (nth k2 sorted 0), (nth (k1 + 1) sorted (nth k1 sorted 0)).
  split; [reflexivity|]. split; [reflexivity|].
  split; [apply (Permutation_in _ Hperm); now apply nth_In|].
  split; [apply (Permutation_in _ Hperm); now apply next_order_statistic_In|].
  split; [assumption|]. split; [|assumption].
  apply interpolate_monotone; try assumption.
  apply Rmult_le_compat_r; lra.
Qed.

Lemma rolling_var_ordered_witness :
  exists y1 y2 lo hi,
    nth 2 (CandleStickViewer.roll_var 30 90 Examples.bars) F64.NaN = F64.Fin y1 /\
    nth 2 (CandleStickViewer.roll_var 30 99 Examples.bars) F64.NaN = F64.Fin y2 /\
    In lo (returns_in_window 30 (Date Examples.bars) Examples.closes 2) /\
    In hi (returns_in_window 30 (Date Examples.bars) Examples.closes 2) /\
    lo <= y2 /\ y2 <= y1 /\ y1 <= hi.
Proof.
  apply (@rolling_var_ordered Examples.bars Examples.closes 30%Z 90%Z 99%Z 2%nat).
  - reflexivity.
  - reflexivity.
  - exact closes_nonzero.
  - simpl; lia.
  - lia.
  - lia.
  - exact closes_window_nonempty.
Defined.

(** ** The Candle Stick Viewer page: filtered tabs, error message *)

Lemma display_range_same_dates (start end_ : Z) (df df' : DataFrame) :
  Date df = Date df' ->
  Date (CandleStickViewer.display_range start end_ df)
  = Date (CandleStickViewer.display_range start end_ df').
Proof.
  intro H. unfold CandleStickViewer.display_range, CandleStickViewer.in_range,
             filter_rows. cbn [Date]. now rewrite H.
Qed.

(** X9: every date that the Candlestick, EMA Overlay, Bollinger Bands and
    RSI tabs put on a chart lies between the chosen start and end dates
    (both included), whatever rows the download holds. *)
Theorem candle_filtered_tabs_in_range (start end_ : Z) (data : DataFrame) (d : Z) :
  In d (rendered_x (CandleStickViewer.tab1
                      (CandleStickViewer.display_range start end_ data))) \/
  In d (rendered_x (CandleStickViewer.tab2 start end_ data)) \/
  In d (rendered_x (CandleStickViewer.tab4 start end_ data)) \/
  In d (rendered_x (CandleStickViewer.tab5 start end_ data)) ->
  (to_datetime start <= d <= to_datetime end_)%Z.
Proof.
  unfold CandleStickViewer.tab1, CandleStickViewer.tab2, CandleStickViewer.tab4,
    CandleStickViewer.tab5, CandleStickViewer.candles.
  run_page. rewrite !app_nil_r, !in_app_iff.
  intros H.
  repeat match type of H with
         | _ \/ _ => destruct H as [H|H]
         end;
    try (now apply display_range_dates in H); now destruct H.
Qed.

Lemma candle_filtered_tabs_in_range_witness :
  In (days 1050)
     (rendered_x (CandleStickViewer.tab1
                    (CandleStickViewer.display_range 1000 1100 Examples.two_bars_frame))) /\
  (to_datetime 1000 <= days 1050 <= to_datetime 1100)%Z.
Proof.
  assert (H : In (days 1050)
                 (rendered_x (CandleStickViewer.tab1
                    (CandleStickViewer.display_range 1000 1100
                                                     Examples.two_bars_frame)))).
  { unfold CandleStickViewer.tab1, CandleStickViewer.candles. run_page.
    rewrite two_bars_shown. left. reflexivity. }
  split; [exact H|].
  apply (@candle_filtered_tabs_in_range 1000 1100 Examples.two_bars_frame (days 1050)).
  left. exact H.
Defined.

Section CandleOutcome.

Variables (yf : YFinance) (selected : string) (start end_ : Z).
Variables (vol_window var_level : Z) (data : DataFrame).
Variables (last prev : f64).

Hypothesis Hload : CandleStickViewer.load yf selected start end_ = Ok data.
Hypothesis Hquote : quoted yf selected last prev.
Hypothesis Hprev : F64.eqb prev (F64.Fin 0) = false.

Lemma candle_page_with_rows :
  Date (CandleStickViewer.display_range start end_ data) <> [] ->
  outcome (CandleStickViewer.page yf selected start end_ vol_window var_level) = Ok tt /\
  filter is_error
    (rendered (CandleStickViewer.page yf selected start end_ vol_window var_level)) = [] /\
  length (filter is_metric
    (rendered (CandleStickViewer.page yf selected start end_ vol_window var_level))) = 3%nat /\
  length (filter is_chart
    (rendered (CandleStickViewer.page yf selected start end_ vol_window var_level))) = 5%nat.
Proof.
  intro Hrows. unfold CandleStickViewer.page. rewrite Hload. run_page.
  assert (Hlen : (length (Date (CandleStickViewer.display_range start end_ data)) =? 0)%nat
                 = false).
  { destruct (Date (CandleStickViewer.display_range start end_ data));
      [congruence|reflexivity]. }
  rewrite Hlen. unfold CandleStickViewer.quick_metrics.
  destruct Hquote as [Hl Hp]. rewrite Hl, Hp. run_page.
  rewrite candle_change_pct_ok by assumption.
  unfold CandleStickViewer.tab1, CandleStickViewer.tab2, CandleStickViewer.tab3,
    CandleStickViewer.tab4, CandleStickViewer.tab5, footer.
  run_page. auto.
Qed.

End CandleOutcome.

(** X10: once the OHLCV frame is loaded and the quote can be read and
    has a non-zero previous close, the Candle Stick Viewer shows its error message exactly
    when no row falls in the chosen range; then it shows nothing but the
    error and the footer, and otherwise it finishes normally with three
    metrics and five charts and no error message. *)
Theorem candle_page_error_iff_empty_range
        (yf : YFinance) (selected : string) (start end_ vol_window var_level : Z)
        (data : DataFrame) (last prev : f64) :
  CandleStickViewer.load yf selected start end_ = Ok data ->
  quoted yf selected last prev ->
  F64.eqb prev (F64.Fin 0) = false ->
  let run := CandleStickViewer.page yf selected start end_ vol_window var_level in
  let shown := Date (CandleStickViewer.display_range start end_ data) in
  outcome run = Ok tt /\
  (shown = [] ->
   filter is_error (rendered run) = [st_error "No data found for this date range."] /\
   filter is_metric (rendered run) = [] /\ filter is_chart (rendered run) = []) /\
  (shown <> [] ->
   filter is_error (rendered run) = [] /\
   length (filter is_metric (rendered run)) = 3%nat /\
   length (filter is_chart (rendered run)) = 5%nat).
Proof.
  intros Hload Hquote Hprev run shown. subst run shown.
  destruct (Date (CandleStickViewer.display_range start end_ data)) eqn:E.
  - rewrite (@candle_page_empty_range yf selected start end_ vol_window var_level
               data Hload E).
    repeat split; congruence.
  - assert (Hrows : Date (CandleStickViewer.display_range start end_ data) <> [])
      by (rewrite E; discriminate).
    destruct (@candle_page_with_rows yf selected start end_ vol_window var_level
                data last prev Hload Hquote Hprev Hrows) as (Ho & He & Hm & Hc).
    repeat split; auto; congruence.
Qed.

Lemma candle_page_error_iff_empty_range_witness :
  outcome (CandleStickViewer.page Examples.yf_two_bars "BZ=F" 1000 1100 30 95) = Ok tt /\
  filter is_error
    (rendered (CandleStickViewer.page Examples.yf_two_bars "BZ=F" 1000 1100 30 95)) = [] /\
  length (filter is_metric
    (rendered (CandleStickViewer.page Examples.yf_two_bars "BZ=F" 1000 1100 30 95))) = 3%nat /\
  length (filter is_chart
    (rendered (CandleStickViewer.page Examples.yf_two_bars "BZ=F" 1000 1100 30 95))) = 5%nat.
Proof.
  destruct (@candle_page_error_iff_empty_range
              Examples.yf_two_bars "BZ=F" 1000 1100 30 95 Examples.two_bars_frame
              (F64.Fin 70) (F64.Fin 69) two_bars_loaded
              (@quote_ok_quoted Examples.yf_two_bars "BZ=F" eq_refl)
              quote_ok_previous_close) as (Ho & _ & Hrows).
  split; [exact Ho|]. apply Hrows. rewrite two_bars_shown. discriminate.
Defined.

(** ** The Metals page: the metrics row *)

Lemma skipn_nth_error {A} (l : list A) (idx : nat) (x : A) :
  nth_error l idx = Some x -> skipn idx l = x :: skipn (S idx) l.
Proof.
  revert idx. induction l as [|y l IH]; intros [|idx] H; simpl in *; try discriminate.
  - now injection H as ->.
  - now apply IH.
Qed.

Lemma firstn_plus {A} (a b : nat) (l : list A) :
  firstn (a + b) l = firstn a l ++ firstn b (skipn a l).
Proof.
  revert l. induction a as [|a IH]; intros [|x l]; simpl;
    rewrite ?firstn_nil; try reflexivity.
  now rewrite IH.
Qed.

Section MetricsRow.

Variable metrics : list Metals.metric_row.

(** The inner loop of one row, started at column [a]. *)
Lemma metrics_row_loop (body : nat -> ui bool) (r k a : nat) :
  (forall i, body i =
     let idx := (r * 5 + i)%nat in
     if (length metrics <=? idx)%nat then ret false
     else match nth_error metrics idx with
          | Some (lbl, last_price, prev_close, change_abs, change_pct) =>
              bind (emit (st_metric (lbl ++ " Last")%string (Metals.notna last_price)
                                    (Metals.notna change_pct)))
                   (fun _ => bind (emit (st_caption "Prev Close: ...  |  change: ..."))
                                  (fun _ => ret true))
          | None => ret false
          end) ->
  Metals.for_break body (seq a k)
  = (flat_map metric_elements (firstn k (skipn (r * 5 + a) metrics)), Ok tt).
Proof.
  intro Hbody. revert a. induction k as [|k IH]; intro a; [reflexivity|].
  cbn [seq Metals.for_break]. rewrite Hbody. cbv zeta.
  destruct (Nat.leb_spec (length metrics) (r * 5 + a)) as [Hout|Hin].
  - rewrite skipn_all2 by assumption. rewrite firstn_nil. reflexivity.
  - destruct (nth_error metrics (r * 5 + a)) as [m|] eqn:E.
    2: { apply nth_error_None in E. lia. }
    rewrite (skipn_nth_error _ _ E). cbn [firstn flat_map].
    destruct m as [[[[lbl last_price] prev_close] change_abs] change_pct].
    run_page. rewrite IH. replace (r * 5 + S a)%nat with (S (r * 5 + a)) by lia.
    reflexivity.
Qed.

Lemma for_each_rendered {A} (f : A -> ui unit) (g : A -> list element) (l : list A) :
  (forall x, f x = (g x, Ok tt)) ->
  Metals.for_each f l = (flat_map g l, Ok tt).
Proof.
  intro Hf. unfold Metals.for_each.
  induction l as [|x l IH]; [reflexivity|].
  cbn [fold_right flat_map]. rewrite Hf, IH. reflexivity.
Qed.

Lemma chunks_of_five (rows r0 : nat) :
  flat_map (fun r => flat_map metric_elements (firstn 5 (skipn (r * 5 + 0) metrics)))
           (seq r0 rows)
  = flat_map metric_elements (firstn (rows * 5) (skipn (r0 * 5) metrics)).
Proof.
  revert r0. induction rows as [|rows IH]; intro r0; [reflexivity|].
  cbn [seq flat_map]. rewrite IH.
  replace (S rows * 5)%nat with (5 + rows * 5)%nat by lia.
  rewrite firstn_plus, flat_map_app, skipn_skipn.
  replace (r0 * 5 + 0)%nat with (r0 * 5)%nat by lia.
  replace (5 + r0 * 5)%nat with (S r0 * 5)%nat by lia.
  reflexivity.
Qed.

End MetricsRow.

(** X11: the metrics row of the Metals page, laid out five to a row with
    an inner loop that breaks at the end of the list, shows every entry of
    [metrics] exactly once and in order (one metric and one caption each),
    whatever the number of series, and never fails. *)
Theorem metals_metrics_row_complete (metrics : list Metals.metric_row) :
  Metals.display_metrics metrics = (flat_map metric_elements metrics, Ok tt).
Proof.
  unfold Metals.display_metrics. cbv zeta.
  rewrite (@for_each_rendered nat _
             (fun r => flat_map metric_elements
                                (firstn 5 (skipn (r * 5 + 0) metrics)))).
  - rewrite chunks_of_five. cbn [Nat.mul skipn].
    rewrite firstn_all2; [reflexivity|].
    pose proof (Nat.div_mod_eq (length metrics + 5 - 1) 5) as Hd.
    pose proof (Nat.mod_upper_bound (length metrics + 5 - 1) 5). lia.
  - intro r. apply metrics_row_loop. intro i. reflexivity.
Qed.

(** X12: when the provider's failures are ordinary exceptions, fetching
    the live metrics never raises: the loop yields one row per column
    label, in order; a label whose last price or previous close cannot be
    read gets the row of NaN of the [except] clause, and every other label
    its quote, with a percent change that is NaN when the previous close
    is zero and (last - prev) / prev * 100 otherwise. *)
Theorem metals_quotes_never_raise (yf : YFinance) (labels : list string) :
  ordinary_failures yf ->
  map_result (Metals.quote yf) labels = Ok (map (quote_row yf) labels).
Proof.
  intro Hyf. induction labels as [|lbl labels IH]; [reflexivity|].
  cbn [map_result map]. rewrite IH.
  assert (Hq : Metals.quote yf lbl = Ok (quote_row yf lbl)).
  { unfold Metals.quote, Metals.try_quote, quote_row. cbv zeta.
    fold (ticker_of_label lbl).
    destruct (last_price (fast_info yf (ticker_of_label lbl))) as [last|e] eqn:El;
      cbn [and_then].
    - destruct (previous_close (fast_info yf (ticker_of_label lbl)))
        as [prev|e] eqn:Ep; cbn [and_then].
      + unfold Metals.change_pct, PyFloat.truediv, F64.neqb.
        destruct (F64.eqb prev (F64.Fin 0)); reflexivity.
      + now rewrite (Hyf (ticker_of_label lbl) e (or_intror Ep)).
    - now rewrite (Hyf (ticker_of_label lbl) e (or_introl El)). }
  rewrite Hq. reflexivity.
Qed.

Lemma missing_quotes_ordinary : ordinary_failures yf_missing_quotes.
Proof.
  intros t e. unfold yf_missing_quotes. cbn [fast_info].
  destruct (String.eqb t "GC=F"); [|destruct (String.eqb t "SI=F")];
    cbn; intros [H|H]; try discriminate; now injection H as <-.
Qed.

Lemma metals_quotes_never_raise_witness :
  map_result (Metals.quote yf_missing_quotes) ["Gold"; "Silver"; "Copper"]%string
  = Ok (map (quote_row yf_missing_quotes) ["Gold"; "Silver"; "Copper"]%string) /\
  quote_row yf_missing_quotes "Gold"
  = ("Gold"%string, F64.NaN, F64.NaN, F64.NaN, F64.NaN) /\
  quote_row yf_missing_quotes "Silver"
  = ("Silver"%string, F64.NaN, F64.NaN, F64.NaN, F64.NaN).
Proof.
  split; [|split; reflexivity].
  apply (@metals_quotes_never_raise yf_missing_quotes
           ["Gold"; "Silver"; "Copper"]%string).
  exact missing_quotes_ordinary.
Defined.

(** ** The Metals page: one column per selected label *)

Lemma has_column_assign (name other : string) (col : Series) cols :
  lookup other (assign name col cols) = None -> lookup other cols = None /\ name <> other.
Proof.
  intro H. destruct (String.eqb_spec name other) as [->|Hne].
  - now rewrite lookup_assign_same in H.
  - rewrite lookup_assign_other in H by assumption. auto.
Qed.

Lemma ensure_labels_Date (labels : list string) (df : DataFrame) :
  Date (Metals.ensure_labels labels df) = Date df.
Proof.
  unfold Metals.ensure_labels. revert df.
  induction labels as [|l labels IH]; intro df; [reflexivity|].
  cbn [fold_left]. rewrite IH. destruct (has_column df l); reflexivity.
Qed.

(** A column that is there stays as it is. *)
Lemma ensure_labels_keeps (labels : list string) (df : DataFrame)
      (name : string) (col : Series) :
  lookup name (columns df) = Some col ->
  lookup name (columns (Metals.ensure_labels labels df)) = Some col.
Proof.
  unfold Metals.ensure_labels. revert df.
  induction labels as [|l labels IH]; intros df H; [assumption|].
  cbn [fold_left]. apply IH. unfold has_column.
  destruct (lookup l (columns df)) eqn:E; [assumption|].
  unfold set. cbn [columns].
  rewrite lookup_assign_other; [assumption|].
  intros ->. congruence.
Qed.

(** A selected label that is missing gets a column of NaN. *)
Lemma ensure_labels_adds (labels : list string) (df : DataFrame) (name : string) :
  In name labels ->
  lookup name (columns df) = None ->
  lookup name (columns (Metals.ensure_labels labels df))
  = Some (repeat F64.NaN (length (Date df))).
Proof.
  unfold Metals.ensure_labels. revert df.
  induction labels as [|l labels IH]; intros df Hin Hnone; [destruct Hin|].
  cbn [fold_left]. destruct (String.eqb_spec l name) as [->|Hne].
  - unfold has_column. rewrite Hnone.
    apply (@ensure_labels_keeps labels). unfold set. cbn [columns].
    apply lookup_assign_same.
  - destruct Hin as [Heq|Hin]; [congruence|].
    unfold has_column. destruct (lookup l (columns df)) eqn:E.
    + now apply IH.
    + change (fold_left _ labels (set df l (repeat F64.NaN (length (Date df)))))
        with (Metals.ensure_labels labels (set df l (repeat F64.NaN (length (Date df))))).
      unfold Metals.ensure_labels.
      rewrite (IH (set df l (repeat F64.NaN (length (Date df)))) Hin).
      * reflexivity.
      * unfold set. cbn [columns]. now rewrite lookup_assign_other.
Qed.

Lemma select_present (df : DataFrame) (names : list string) :
  (forall n, In n names -> lookup n (columns df) <> None) ->
  exists cols,
    select df names = Ok {| Date := Date df; columns := cols |} /\
    map fst cols = names /\
    forall n, In n names -> lookup n cols = lookup n (columns df).
Proof.
  unfold select. induction names as [|n names IH]; intro H.
  - exists []. repeat split. intros n [].
  - destruct IH as (cols & Heq & Hnames & Hlook); [intros m Hm; apply H; now right|].
    destruct (lookup n (columns df)) as [col|] eqn:E.
    2: { exfalso. apply (H n); [now left|assumption]. }
    exists ((n, col) :: cols). cbn [map_result and_then]. rewrite E.
    cbn [and_then].
    destruct (map_result _ names) as [cols'|e]; cbn [and_then] in *; [|discriminate].
    injection Heq as ->.
    split; [reflexivity|]. split; [simpl; now rewrite Hnames|].
    intros m Hm. cbn [lookup].
    destruct (String.eqb_spec n m) as [->|Hne]; [now rewrite E|].
    destruct Hm as [Hm|Hm]; [congruence|]. now apply Hlook.
Qed.

(** X13: after the renaming steps of the Metals page the frame has
    exactly one column per selected label, in the order of the selection,
    on the dates of the download; a column the download does provide is
    kept as it is, and a label with no downloaded column is shown as a
    column of NaN of full length. *)
Theorem metals_columns_follow_selection
        (close : DataFrame) (selected_tickers selected_labels : list string) :
  let renamed := rename (Metals.label_of selected_tickers selected_labels) close in
  NoDup (map fst (columns renamed)) ->
  exists data,
    select (Metals.ensure_labels selected_labels renamed) selected_labels = Ok data /\
    map fst (columns data) = selected_labels /\
    Date data = Date close /\
    forall lbl, In lbl selected_labels ->
      (forall col, lookup lbl (columns renamed) = Some col -> get data lbl = col) /\
      (lookup lbl (columns renamed) = None ->
       get data lbl = repeat F64.NaN (length (Date close))).
Proof.
  intros renamed _.
  set (full := Metals.ensure_labels selected_labels renamed).
  assert (Hall : forall n, In n selected_labels -> lookup n (columns full) <> None).
  { intros n Hn. subst full.
    destruct (lookup n (columns renamed)) as [col|] eqn:E.
    - now rewrite (@ensure_labels_keeps selected_labels renamed n col E).
    - now rewrite (@ensure_labels_adds selected_labels renamed n Hn E). }
  destruct (@select_present full selected_labels Hall) as (cols & Heq & Hnames & Hlook).
  eexists. split; [exact Heq|]. cbn [columns Date].
  split; [assumption|].
  split; [subst full; now rewrite ensure_labels_Date|].
  intros lbl Hlbl. unfold get. cbn [columns]. rewrite (Hlook lbl Hlbl). subst full.
  split.
  - intros col E. now rewrite (@ensure_labels_keeps selected_labels renamed lbl col E).
  - intro E. now rewrite (@ensure_labels_adds selected_labels renamed lbl Hlbl E).
Qed.

Lemma metals_columns_follow_selection_witness :
  exists data,
    select (Metals.ensure_labels ["Gold"; "Silver"]%string
              (rename (Metals.label_of ["GC=F"; "SI=F"]%string ["Gold"; "Silver"]%string)
                      Examples.gold_only))
           ["Gold"; "Silver"]%string = Ok data /\
    map fst (columns data) = ["Gold"; "Silver"]%string /\
    Date data = Date Examples.gold_only /\
    get data "Gold" = map F64.Fin [1900; 1910] /\
    get data "Silver" = repeat F64.NaN 2.
Proof.
  destruct (@metals_columns_follow_selection Examples.gold_only
              ["GC=F"; "SI=F"]%string ["Gold"; "Silver"]%string)
    as (data & Hsel & Hnames & Hdate & Hcols).
  - cbv. repeat constructor. intros [].
  - exists data. repeat split; try assumption.
    + apply (Hcols "Gold"%string); [simpl; auto|reflexivity].
    + apply (Hcols "Silver"%string); [simpl; auto|reflexivity].
Defined.

(** ** The Metals page: early exits *)

Lemma metals_tickers_none : Metals.tickers_of [] = Ok [].
Proof. reflexivity. Qed.

(** X14: the Metals page stops before any metric or chart in two further
    cases: with nothing selected it shows the warning "Select at least one
    metal." and nothing else; and when the download has rows but no Close
    field it shows the error about missing 'Close' prices as its only
    error, with no metric and no chart. *)
Theorem metals_page_early_exits
        (yf : YFinance) (selected_names custom_tickers tickers : list string)
        (start end_ : Z) (normalise : bool) :
  Metals.tickers_of selected_names = Ok tickers ->
  (tickers ++ custom_tickers)%list <> [] ->
  raw_empty (download yf (tickers ++ custom_tickers)%list start end_
                      (Metals.interval_for (end_ - start))) = false ->
  Metals.mem "Close"
             (level0 (download yf (tickers ++ custom_tickers)%list start end_
                               (Metals.interval_for (end_ - start)))) = false ->
  Metals.page yf [] [] start end_ normalise
  = ([st_warning "Select at least one metal."], Raise StopException) /\
  (let run := Metals.page yf selected_names custom_tickers start end_ normalise in
   outcome run = Raise StopException /\
   filter is_error (rendered run)
   = [st_error "Downloaded data did not include 'Close' prices."] /\
   filter is_metric (rendered run) = [] /\
   filter is_chart (rendered run) = []).
Proof.
  intros Htickers Hsel Hrows Hclose. split; [reflexivity|].
  cbv zeta. unfold Metals.page. rewrite Htickers.
  assert (Hlen : (length (tickers ++ custom_tickers) =? 0)%nat = false).
  { destruct (tickers ++ custom_tickers)%list; [congruence|reflexivity]. }
  destruct (existsb _ selected_names); run_page; rewrite Hlen; run_page;
    rewrite Hrows; run_page; unfold Metals.close_prices; rewrite Hclose;
    run_page; auto.
Qed.

Lemma metals_page_early_exits_witness :
  Metals.page Examples.yf_no_close [] [] 0 100 false
  = ([st_warning "Select at least one metal."], Raise StopException) /\
  outcome (Metals.page Examples.yf_no_close ["Gold"]%string [] 0 100 false)
  = Raise StopException /\
  filter is_error (rendered (Metals.page Examples.yf_no_close ["Gold"]%string [] 0 100 false))
  = [st_error "Downloaded data did not include 'Close' prices."] /\
  filter is_metric (rendered (Metals.page Examples.yf_no_close ["Gold"]%string [] 0 100 false))
  = [] /\
  filter is_chart (rendered (Metals.page Examples.yf_no_close ["Gold"]%string [] 0 100 false))
  = [].
Proof.
  apply (@metals_page_early_exits Examples.yf_no_close ["Gold"]%string []
           ["GC=F"]%string 0 100 false).
  - reflexivity.
  - discriminate.
  - reflexivity.
  - reflexivity.
Defined.

(** ** The Candle Stick Viewer: the loaded frame has no missing value *)

Lemma lookup_In (name : string) (col : Series) cols :
  lookup name cols = Some col -> In (name, col) cols.
Proof.
  induction cols as [|[n c] cols IH]; simpl; [discriminate|].
  destruct (String.eqb_spec n name) as [->|Hne].
  - intros [= ->]. now left.
  - intro H. right. now apply IH.
Qed.

Lemma select_ok_inv (df d : DataFrame) (names : list string) :
  select df names = Ok d ->
  Date d = Date df /\ map fst (columns d) = names /\
  forall n col, In (n, col) (columns d) -> In (n, col) (columns df).
Proof.
  unfold select.
  destruct (map_result _ names) as [cols|e] eqn:E; cbn [and_then]; [|discriminate].
  intros [= <-]. cbn [Date columns]. split; [reflexivity|].
  revert cols E. induction names as [|n names IH]; intros cols E.
  - cbn in E. injection E as <-. split; [reflexivity|]. intros n col [].
  - cbn [map_result] in E.
    destruct (lookup n (columns df)) as [c|] eqn:El; cbn [and_then] in E; [|discriminate].
    destruct (map_result _ names) as [cols'|e'] eqn:E'; cbn [and_then] in E; [|discriminate].
    injection E as <-. destruct (IH cols' eq_refl) as [Hn Hin].
    split; [simpl; now rewrite Hn|].
    intros m col [[= <- <-]|H]; [now apply lookup_In|now apply Hin].
Qed.

Lemma mask_select_nth {A} (mask : list bool) (xs : list A) (x : A) :
  In x (mask_select mask xs) ->
  exists i, nth_error mask i = Some true /\ nth_error xs i = Some x.
Proof.
  unfold mask_select. revert xs.
  induction mask as [|b mask IH]; intros [|y xs] H; simpl in H; try contradiction.
  destruct b; simpl in H.
  - destruct H as [->|H]; [now exists 0%nat|].
    destruct (IH xs H) as (i & Hm & Hx). now exists (S i).
  - destruct (IH xs H) as (i & Hm & Hx). now exists (S i).
Qed.

Lemma length_mask_select {A} (mask : list bool) (xs : list A) :
  length xs = length mask ->
  length (mask_select mask xs) = length (filter (fun b => b) mask).
Proof.
  unfold mask_select. revert xs.
  induction mask as [|b mask IH]; intros [|y xs] H; simpl in *; try lia.
  destruct b; simpl; rewrite IH by lia; reflexivity.
Qed.

Lemma length_notna_rows (df : DataFrame) :
  length (notna_rows df) = length (Date df).
Proof. unfold notna_rows. now rewrite length_map, length_seq. Qed.

(** Rows kept by [dropna] hold no NaN, and all columns keep one length. *)
Lemma dropna_no_missing (df : DataFrame) (name : string) (col : Series) :
  (forall c, In c (columns df) -> length (snd c) = length (Date df)) ->
  In (name, col) (columns (dropna df)) ->
  length col = length (Date (dropna df)) /\
  forall x, In x col -> F64.isnan x = false.
Proof.
  intros Hwf Hin. unfold dropna, filter_rows in *. cbn [columns Date] in *.
  apply in_map_iff in Hin. destruct Hin as ([n c] & [= <- <-] & Hc).
  cbn [fst snd]. split.
  - rewrite !length_mask_select; [reflexivity| |].
    + now rewrite length_notna_rows.
    + rewrite length_notna_rows. now apply (Hwf (n, c)).
  - intros x Hx. apply mask_select_nth in Hx. destruct Hx as (i & Hm & Hxi).
    unfold notna_rows in Hm. rewrite nth_error_map in Hm.
    destruct (nth_error (seq 0 (length (Date df))) i) as [j|] eqn:Ej; [|discriminate].
    assert (Hj : j = i).
    { pose proof Ej as Hlt. apply nth_error_nth with (d := 0%nat) in Ej.
      assert (i < length (seq 0 (length (Date df))))%nat
        by (apply nth_error_Some; congruence).
      rewrite length_seq in *. rewrite seq_nth in Ej by assumption. lia. }
    subst j. cbn in Hm. injection Hm as Hm.
    rewrite forallb_forall in Hm. specialize (Hm (n, c) Hc). cbn [snd] in Hm.
    rewrite (nth_error_nth _ _ F64.NaN Hxi) in Hm.
    now apply negb_true_iff in Hm.
Qed.

(** X15: when the download is rectangular (every column as long as the
    index), the frame [data] the Candle Stick Viewer works on has exactly
    the columns Open, High, Low, Close and Volume, all of the length of
    its Date column, and none of them holds a NaN. *)
Theorem candle_loaded_frame_complete
        (yf : YFinance) (selected : string) (start end_ : Z) (data : DataFrame) :
  CandleStickViewer.load yf selected start end_ = Ok data ->
  (forall c, In c (raw_columns (download yf [selected] (start - 365) end_ "1d")) ->
             length (snd c)
             = length (raw_index (download yf [selected] (start - 365) end_ "1d"))) ->
  map fst (columns data) = OHLCV /\
  forall name col, In (name, col) (columns data) ->
    length col = length (Date data) /\
    forall x, In x col -> F64.isnan x = false.
Proof.
  unfold CandleStickViewer.load. cbv zeta.
  set (raw := download yf [selected] (start - 365) end_ "1d").
  intros Hload Hwf.
  destruct (select (flatten raw) OHLCV) as [ohlcv|e] eqn:E;
    [|unfold OHLCV in E; rewrite E in Hload; discriminate].
  unfold OHLCV in E. rewrite E in Hload. cbn [and_then] in Hload.
  injection Hload as <-.
  destruct (select_ok_inv _ _ E) as (Hd & Hn & Hin).
  split.
  - unfold dropna, filter_rows. cbn [columns]. rewrite map_map. cbn [fst].
    exact Hn.
  - intros name col Hcol. apply (@dropna_no_missing ohlcv name col); [|assumption].
    intros [n c] Hc. cbn [snd]. rewrite Hd. unfold flatten. cbn [Date].
    apply Hin in Hc. unfold flatten in Hc. cbn [columns] in Hc.
    apply in_map_iff in Hc. destruct Hc as (rc & [= _ <-] & Hrc).
    now apply Hwf.
Qed.

Lemma candle_loaded_frame_complete_witness :
  map fst (columns Examples.two_bars_frame) = OHLCV /\
  forall name col, In (name, col) (columns Examples.two_bars_frame) ->
    length col = length (Date Examples.two_bars_frame) /\
    forall x, In x col -> F64.isnan x = false.
Proof.
  apply (@candle_loaded_frame_complete Examples.yf_two_bars "BZ=F" 1000 1100
           Examples.two_bars_frame two_bars_loaded).
  intros c Hc. cbn in Hc.
  repeat destruct Hc as [<-|Hc]; try reflexivity. destruct Hc.
Defined.

(** ** The Oil page: the spread tab on data with rows *)

Lemma map2_sub_finite (bs ws : list R) :
  map2 F64.sub (map F64.Fin bs) (map F64.Fin ws) = map F64.Fin (spread_of bs ws).
Proof.
  unfold map2, spread_of. revert ws.
  induction bs as [|b bs IH]; intros [|w ws]; simpl; try reflexivity.
  now rewrite IH.
Qed.

Lemma last_map_Fin (l : list R) :
  l <> [] -> last (map F64.Fin l) F64.NaN = F64.Fin (last l 0).
Proof.
  induction l as [|x l IH]; [congruence|]. intros _.
  destruct l as [|y l]; [reflexivity|].
  change (last (map F64.Fin (x :: y :: l)) F64.NaN) with (last (map F64.Fin (y :: l)) F64.NaN).
  change (last (x :: y :: l) 0) with (last (y :: l) 0).
  apply IH. discriminate.
Qed.

Lemma last_spread (bs ws : list R) :
  length bs = length ws -> bs <> [] ->
  last (spread_of bs ws) 0 = last bs 0 - last ws 0.
Proof.
  unfold spread_of. revert ws.
  induction bs as [|b bs IH]; intros [|w ws] Hlen Hne; simpl in Hlen; try congruence; try lia.
  destruct bs as [|b' bs], ws as [|w' ws]; simpl in Hlen; try lia.
  - simpl. lra.
  - change (last (b :: b' :: bs) 0) with (last (b' :: bs) 0).
    change (last (w :: w' :: ws) 0) with (last (w' :: ws) 0).
    rewrite <- (IH (w' :: ws)) by (simpl; (lia || discriminate)).
    reflexivity.
Qed.

Lemma no_nan_finite (l : list R) : existsb F64.isnan (map F64.Fin l) = false.
Proof. induction l; simpl; auto. Qed.

Lemma iloc_last_finite (l : list R) :
  l <> [] -> iloc_last (map F64.Fin l) = Ok (F64.Fin (last l 0)).
Proof.
  intro Hne. unfold iloc_last. rewrite <- (last_map_Fin Hne).
  destruct l; [congruence|reflexivity].
Qed.

(** X16: on Brent and WTI columns of equal length with at least one row
    and no missing value, the spread tab of the Oil page finishes without an
    exception and shows four metrics: the current spread is the last Brent
    close minus the last WTI close, the average is the mean of the
    row-by-row spread, and the 5th percentile is never above the 95th. *)
Theorem oil_spread_tab (data : DataFrame) (bs ws : list R) :
  get data "Brent" = map F64.Fin bs ->
  get data "WTI" = map F64.Fin ws ->
  length bs = length ws -> bs <> [] ->
  exists p5 p95,
    outcome (Oil.tab3 data) = Ok tt /\
    filter is_metric (rendered (Oil.tab3 data))
    = [st_metric "Current Spread" (Some (F64.Fin (last bs 0 - last ws 0))) None;
       st_metric "Average Spread" (Some (F64.Fin (mean_of (spread_of bs ws)))) None;
       st_metric "5th Percentile" (Some (F64.Fin p5)) None;
       st_metric "95th Percentile" (Some (F64.Fin p95)) None] /\
    p5 <= p95.
Proof.
  intros Hb Hw Hlen Hne.
  assert (Hsp : spread_of bs ws <> []).
  { unfold spread_of. destruct bs, ws; simpl in *; try congruence; try lia. }
  destruct (sort_finite (spread_of bs ws)) as (sorted & Heq & Hperm & Hsorted).
  assert (Hlen' : length sorted = length (spread_of bs ws)) by now apply Permutation_length.
  destruct (@quantile_at (5 / 100) (spread_of bs ws) sorted Heq Hlen' Hsp)
    as (k1 & Hk1 & Hh1 & Hq1); [lra|].
  destruct (@quantile_at (95 / 100) (spread_of bs ws) sorted Heq Hlen' Hsp)
    as (k2 & Hk2 & Hh2 & Hq2); [lra|].
  eexists _, _.
  unfold Oil.tab3. rewrite Hb, Hw, map2_sub_finite.
  rewrite iloc_last_finite, last_spread by assumption.
  rewrite observations_finite, mean_finite by assumption.
  unfold np_percentile. rewrite no_nan_finite, Hq1, Hq2.
  run_page. split; [reflexivity|]. split; [reflexivity|].
  rewrite <- Hlen' in Hk1, Hk2.
  apply (interpolate_monotone Hsorted Hk1 Hk2 Hh1 Hh2).
  assert (Hn1 : 1 <= INR (length (spread_of bs ws))).
  { destruct (spread_of bs ws) as [|y l]; [congruence|]. rewrite length_cons, S_INR.
    pose proof (pos_INR (length l)). lra. }
  apply Rmult_le_compat_r; lra.
Qed.

Lemma oil_spread_tab_witness :
  exists p5 p95,
    outcome (Oil.tab3 Examples.oil_frame) = Ok tt /\
    filter is_metric (rendered (Oil.tab3 Examples.oil_frame))
    = [st_metric "Current Spread"
                 (Some (F64.Fin (last Examples.brent 0 - last Examples.wti 0))) None;
       st_metric "Average Spread"
                 (Some (F64.Fin (mean_of (spread_of Examples.brent Examples.wti)))) None;
       st_metric "5th Percentile" (Some (F64.Fin p5)) None;
       st_metric "95th Percentile" (Some (F64.Fin p95)) None] /\
    p5 <= p95.
Proof.
  apply (@oil_spread_tab Examples.oil_frame Examples.brent Examples.wti).
  - reflexivity.
  - reflexivity.
  - reflexivity.
  - discriminate.
Defined.

(** ** The Candle Stick Viewer: which ticker is selected *)

Section Selection.

Import CandleControls.

Variable upper : string -> string.
Variable pressed : string -> bool.

Lemma commodity_button_agrees acc entry :
  agrees acc -> agrees (commodity_button pressed acc entry).
Proof.
  unfold agrees, commodity_button. intros H s.
  destruct (pressed (fst entry)); [|apply H].
  cbn. congruence.
Qed.

Lemma fold_buttons_agrees (l : list (string * string)) acc :
  agrees acc -> agrees (fold_left (commodity_button pressed) l acc).
Proof.
  revert acc. induction l as [|e l IH]; intros acc H; [assumption|].
  cbn [fold_left]. apply IH. now apply commodity_button_agrees.
Qed.

Lemma custom_input_agrees custom_ticker st :
  agrees (custom_input upper custom_ticker st).
Proof.
  unfold agrees, custom_input. intro s.
  destruct (match custom_mode st with Some b => b | None => false end);
    [|discriminate].
  destruct (truthy custom_ticker); [|discriminate].
  cbn. congruence.
Qed.

(** After the last pressed button, the remaining buttons change nothing. *)
Lemma fold_buttons_unpressed (l : list (string * string)) acc :
  (forall e, In e l -> pressed (fst e) = false) ->
  fold_left (commodity_button pressed) l acc = acc.
Proof.
  revert acc. induction l as [|e l IH]; intros acc H; [reflexivity|].
  cbn [fold_left]. unfold commodity_button at 2.
  rewrite (H e (or_introl eq_refl)). apply IH. intros e' He'. apply H. now right.
Qed.

End Selection.

(** X17: after every run of the ticker selection of the Candle Stick
    Viewer, whatever buttons were pressed and whatever was typed, the
    ticker shown is the one stored in the session under
    "selected_commodity"; if nothing is stored, the ticker shown is the
    default "BZ=F". *)
Theorem candle_selection_matches_session
        (upper : string -> string) (custom_button : bool) (custom_ticker : string)
        (pressed : string -> bool) (st : SessionState) :
  let run := CandleControls.select upper custom_button custom_ticker pressed st in
  match selected_commodity (snd run) with
  | Some stored => fst run = stored
  | None => fst run = "BZ=F"%string
  end.
Proof.
  unfold CandleControls.select. cbv zeta. cbn [fst snd].
  set (acc := CandleControls.commodity_buttons pressed _).
  assert (H : CandleControls.agrees acc)
    by (subst acc; apply fold_buttons_agrees, custom_input_agrees).
  unfold CandleControls.agrees in H.
  destruct (selected_commodity (snd acc)) as [stored|] eqn:Es;
    destruct (fst acc) as [s|] eqn:Ef; try reflexivity.
  - specialize (H s eq_refl). congruence.
  - specialize (H s eq_refl). congruence.
Qed.

(** X18: when commodity buttons are pressed, the ticker of the last
    pressed button (in the order of the table) is selected, it is stored in
    the session and custom mode is switched off, whatever custom ticker was
    typed in the same run. *)
Theorem candle_commodity_button_wins
        (upper : string -> string) (custom_button : bool) (custom_ticker : string)
        (pressed : string -> bool) (st : SessionState)
        (before after : list (string * string)) (name ticker : string) :
  CandleControls.commodities = (before ++ (name, ticker) :: after)%list ->
  pressed name = true ->
  (forall e, In e after -> pressed (fst e) = false) ->
  let run := CandleControls.select upper custom_button custom_ticker pressed st in
  fst run = ticker /\
  selected_commodity (snd run) = Some ticker /\
  custom_mode (snd run) = Some false.
Proof.
  intros Hsplit Hname Hafter.
  unfold CandleControls.select, CandleControls.commodity_buttons.
  cbv zeta. cbn [fst snd].
  rewrite Hsplit, fold_left_app. cbn [fold_left].
  rewrite fold_buttons_unpressed by assumption.
  set (acc := fold_left _ before _).
  assert (E : CandleControls.commodity_button pressed acc (name, ticker)
              = (Some ticker,
                 set_custom_mode false (set_selected_commodity ticker (snd acc))))
    by (unfold CandleControls.commodity_button; cbn [fst snd]; now rewrite Hname).
  rewrite E. cbn. auto.
Qed.

Lemma candle_commodity_button_wins_witness :
  fst (CandleControls.select (fun s => s) false "aapl"
         (fun n => String.eqb n "Gold" || String.eqb n "Brent Crude")
         {| custom_mode := Some true; selected_commodity := Some "CL=F"%string;
            active_preset := None; manual_start := None; manual_end := None |})
  = "GC=F"%string.
Proof.
  apply (@candle_commodity_button_wins (fun s => s) false "aapl"
           (fun n => String.eqb n "Gold" || String.eqb n "Brent Crude")
           {| custom_mode := Some true; selected_commodity := Some "CL=F"%string;
              active_preset := None; manual_start := None; manual_end := None |}
           [("Brent Crude", "BZ=F"); ("WTI Crude", "CL=F")]%string
           [("Silver", "SI=F"); ("Platinum", "PL=F"); ("Copper", "HG=F");
            ("Wheat", "ZW=F"); ("Corn", "ZC=F"); ("Natural Gas", "NG=F")]%string
           "Gold"%string "GC=F"%string).
  - reflexivity.
  - reflexivity.
  - intros e He. cbn in He.
    repeat (destruct He as [<-|He]; [reflexivity|]). contradiction.
Defined.

(** ** The date range and its presets *)

Section CandleDates.

Import CandleControls.

Variable today : Z.
Variable pressed : string -> bool.

Lemma preset_button_keeps_dates acc entry :
  manual_start (snd (preset_button today pressed acc entry)) = manual_start (snd acc) /\
  manual_end (snd (preset_button today pressed acc entry)) = manual_end (snd acc).
Proof. unfold preset_button. destruct (pressed (fst entry)); split; reflexivity. Qed.

Lemma fold_presets_keeps_dates (l : list (string * Z)) acc :
  manual_start (snd (fold_left (preset_button today pressed) l acc)) = manual_start (snd acc) /\
  manual_end (snd (fold_left (preset_button today pressed) l acc)) = manual_end (snd acc).
Proof.
  revert acc. induction l as [|e l IH]; intro acc; [split; reflexivity|].
  cbn [fold_left]. destruct (IH (preset_button today pressed acc e)) as [Hs He].
  destruct (preset_button_keeps_dates acc e) as [Hs' He'].
  split; congruence.
Qed.

Lemma fold_presets_unpressed (l : list (string * Z)) acc :
  (forall e, In e l -> pressed (fst e) = false) ->
  fold_left (preset_button today pressed) l acc = acc.
Proof.
  revert acc. induction l as [|e l IH]; intros acc H; [reflexivity|].
  cbn [fold_left]. unfold preset_button at 2.
  rewrite (H e (or_introl eq_refl)). apply IH. intros e' He'. apply H. now right.
Qed.

Lemma differs_same (d : Z) : differs d (Some d) = false.
Proof. unfold differs. now rewrite Z.eqb_refl. Qed.

End CandleDates.

(** X19: in the Candle Stick Viewer, pressing a quick-select button makes
    the range of the run run from the preset's start to today, while the
    two date inputs keep their values; the preset is left recorded as
    active only when that range coincides with the date inputs, and is
    cleared in the same run otherwise. *)
Theorem candle_preset_pressed
        (year_start : Z -> Z) (today start_input end_input : Z)
        (pressed : string -> bool) (st : SessionState)
        (before after : list (string * Z)) (label : string) (preset_start : Z) :
  presets year_start today = (before ++ (label, preset_start) :: after)%list ->
  pressed label = true ->
  (forall e, In e after -> pressed (fst e) = false) ->
  let run := CandleControls.date_range year_start today start_input end_input pressed st in
  fst (fst run) = preset_start /\
  snd (fst run) = today /\
  manual_start (snd run) = Some start_input /\
  manual_end (snd run) = Some end_input /\
  active_preset (snd run)
  = if ((preset_start =? start_input) && (today =? end_input))%Z
    then Some label else None.
Proof.
  intros Hsplit Hlabel Hafter. unfold CandleControls.date_range. cbv zeta.
  rewrite Hsplit, fold_left_app. cbn [fold_left].
  rewrite fold_presets_unpressed by assumption.
  set (acc := fold_left _ before _).
  destruct (fold_presets_keeps_dates today pressed before
              (start_input, end_input,
               set_manual (Some start_input) (Some end_input) st)) as [Hs He].
  fold acc in Hs, He. cbn in Hs, He.
  assert (E : CandleControls.preset_button today pressed acc (label, preset_start)
              = (preset_start, today, set_active_preset (Some label) (snd acc)))
    by (unfold CandleControls.preset_button; cbn [fst snd]; now rewrite Hlabel).
  rewrite E. cbn [fst snd set_active_preset manual_start manual_end].
  rewrite Hs, He. unfold CandleControls.differs.
  destruct (preset_start =? start_input)%Z, (today =? end_input)%Z;
    cbn; rewrite ?Hs, ?He; auto.
Qed.

Lemma candle_preset_pressed_witness :
  fst (CandleControls.date_range (fun _ => 19000%Z) 19300 19117 19300
         (fun l => String.eqb l "1M")
         {| custom_mode := None; selected_commodity := None;
            active_preset := Some "6M"%string;
            manual_start := None; manual_end := None |})
  = (19270, 19300)%Z /\
  active_preset
    (snd (CandleControls.date_range (fun _ => 19000%Z) 19300 19117 19300
            (fun l => String.eqb l "1M")
            {| custom_mode := None; selected_commodity := None;
               active_preset := Some "6M"%string;
               manual_start := None; manual_end := None |}))
  = None.
Proof.
  destruct (@candle_preset_pressed (fun _ => 19000%Z) 19300 19117 19300
              (fun l => String.eqb l "1M")
              {| custom_mode := None; selected_commodity := None;
                 active_preset := Some "6M"%string;
                 manual_start := None; manual_end := None |}
              [] [("6M", 19300 - 182); ("YTD", 19000); ("1Y", 19300 - 365);
                  ("5Y", 19300 - 365 * 5)]%Z%string
              "1M"%string (19300 - 30)%Z) as (Hs & He & _ & _ & Ha).
  - reflexivity.
  - reflexivity.
  - intros e H. cbn in H.
    repeat (destruct H as [<-|H]; [reflexivity|]). contradiction.
  - split; [|exact Ha].
    rewrite (surjective_pairing (fst (CandleControls.date_range _ _ _ _ _ _))).
    rewrite Hs, He. reflexivity.
Defined.

(** X20: in the Candle Stick Viewer, a run in which no quick-select
    button is pressed uses the two date inputs as its range and leaves the
    recorded preset as it was, also when the inputs were changed by hand:
    the inputs are stored under the keys the comparison reads, so the
    comparison that clears the preset cannot fire. *)
Theorem candle_manual_dates_keep_preset
        (year_start : Z -> Z) (today start_input end_input : Z)
        (pressed : string -> bool) (st : SessionState) :
  (forall e, In e (presets year_start today) -> pressed (fst e) = false) ->
  let run := CandleControls.date_range year_start today start_input end_input pressed st in
  fst run = (start_input, end_input) /\
  active_preset (snd run) = active_preset st.
Proof.
  intros Hnone. unfold CandleControls.date_range. cbv zeta.
  rewrite fold_presets_unpressed by assumption.
  cbn [fst snd set_manual manual_start manual_end].
  rewrite !differs_same. cbn. auto.
Qed.

Lemma candle_manual_dates_keep_preset_witness :
  active_preset
    (snd (CandleControls.date_range (fun _ => 19000%Z) 19300 19100 19200
            (fun _ => false)
            {| custom_mode := None; selected_commodity := None;
               active_preset := Some "1M"%string;
               manual_start := Some 19270%Z; manual_end := Some 19300%Z |}))
  = Some "1M"%string.
Proof.
  apply (@candle_manual_dates_keep_preset (fun _ => 19000%Z) 19300 19100 19200
           (fun _ => false)
           {| custom_mode := None; selected_commodity := None;
              active_preset := Some "1M"%string;
              manual_start := Some 19270%Z; manual_end := Some 19300%Z |}).
  intros e _. reflexivity.
Defined.

(** ** Metals and Oil: the range and the interval requested *)

Section RangeDates.

Import RangeControls.

Variable today : Z.
Variable pressed : string -> bool.

Lemma fold_quick_unpressed (l : list (string * Z)) st :
  (forall e, In e l -> pressed (fst e) = false) ->
  fold_left (quick_button today pressed) l st = st.
Proof.
  revert st. induction l as [|e l IH]; intros st H; [reflexivity|].
  cbn [fold_left]. unfold quick_button at 2.
  rewrite (H e (or_introl eq_refl)). apply IH. intros e' He'. apply H. now right.
Qed.

End RangeDates.

Lemma preset_interval (year_start : Z -> Z) (today : Z) (label : string) (p : Z) :
  In (label, p) (presets year_start today) ->
  Metals.interval_for (today - p)
  = (if String.eqb label "1M" then "15m"
     else if String.eqb label "YTD"
          then Metals.interval_for (today - year_start today)
          else "1d")%string.
Proof.
  unfold presets. intro H. cbn in H.
  repeat (destruct H as [H|H];
          [injection H as <- <-; unfold Metals.interval_for; cbn [String.eqb Ascii.eqb Bool.eqb];
           repeat match goal with
                  | |- context [(?a <=? ?b)%Z] =>
                      destruct (Z.leb_spec a b); try lia
                  end; try reflexivity|]).
  contradiction.
Qed.

(** X21: on the Metals and Oil pages, pressing a quick-select button
    stores the preset's start and today as the two dates and records the
    preset; the interval then requested from the provider is "15m" for
    1M, "1d" for 6M, 1Y and 5Y, and for YTD the interval of the days
    elapsed since 1 January. *)
Theorem range_preset_dates_and_interval
        (year_start : Z -> Z) (today : Z) (pressed : string -> bool)
        (st : SessionState)
        (before after : list (string * Z)) (label : string) (preset_start : Z) :
  presets year_start today = (before ++ (label, preset_start) :: after)%list ->
  pressed label = true ->
  (forall e, In e after -> pressed (fst e) = false) ->
  let st' := RangeControls.quick_select year_start today pressed st in
  manual_start st' = Some preset_start /\
  manual_end st' = Some today /\
  active_preset st' = Some label /\
  RangeControls.interval year_start today pressed st
  = (if String.eqb label "1M" then "15m"
     else if String.eqb label "YTD"
          then Metals.interval_for (today - year_start today)
          else "1d")%string /\
  Oil.interval_for (RangeControls.date_input (manual_end st')
                    - RangeControls.date_input (manual_start st'))
  = RangeControls.interval year_start today pressed st.
Proof.
  intros Hsplit Hlabel Hafter.
  assert (Hin : In (label, preset_start) (presets year_start today))
    by (rewrite Hsplit; apply in_or_app; right; left; reflexivity).
  assert (E : RangeControls.quick_select year_start today pressed st
              = set_active_preset (Some label)
                  (set_manual (Some preset_start) (Some today)
                     (fold_left (RangeControls.quick_button today pressed) before
                                (RangeControls.init today st)))).
  { unfold RangeControls.quick_select. rewrite Hsplit, fold_left_app.
    cbn [fold_left]. rewrite fold_quick_unpressed by assumption.
    unfold RangeControls.quick_button at 1. cbn [fst snd]. now rewrite Hlabel. }
  cbv zeta. unfold RangeControls.interval. cbv zeta. rewrite E.
  cbn [set_active_preset set_manual manual_start manual_end active_preset
       RangeControls.date_input].
  repeat split; try reflexivity.
  exact (preset_interval Hin).
Qed.

Lemma range_preset_dates_and_interval_witness :
  RangeControls.interval (fun _ => 19000%Z) 19300 (fun l => String.eqb l "1M")
    {| custom_mode := None; selected_commodity := None; active_preset := None;
       manual_start := Some 100%Z; manual_end := Some 19300%Z |}
  = "15m"%string.
Proof.
  destruct (@range_preset_dates_and_interval (fun _ => 19000%Z) 19300
              (fun l => String.eqb l "1M")
              {| custom_mode := None; selected_commodity := None;
                 active_preset := None;
                 manual_start := Some 100%Z; manual_end := Some 19300%Z |}
              [] [("6M", 19300 - 182); ("YTD", 19000); ("1Y", 19300 - 365);
                  ("5Y", 19300 - 365 * 5)]%Z%string
              "1M"%string (19300 - 30)%Z) as (_ & _ & _ & Hi & _).
  - reflexivity.
  - reflexivity.
  - intros e H. cbn in H.
    repeat (destruct H as [<-|H]; [reflexivity|]). contradiction.
  - exact Hi.
Defined.

(** X22: on the Metals and Oil pages, a run without a pressed
    quick-select button keeps the stored dates; on a first visit, when no
    dates are stored yet, the range is the last 365 days and the interval
    requested is "1d". *)
Theorem range_without_preset
        (year_start : Z -> Z) (today : Z) (pressed : string -> bool)
        (st : SessionState) :
  (forall e, In e (presets year_start today) -> pressed (fst e) = false) ->
  let st' := RangeControls.quick_select year_start today pressed st in
  active_preset st' = active_preset st /\
  (forall d, manual_start st = Some d -> manual_start st' = Some d) /\
  (forall d, manual_end st = Some d -> manual_end st' = Some d) /\
  (manual_start st = None -> manual_end st = None ->
   manual_start st' = Some (today - 365)%Z /\
   manual_end st' = Some today /\
   RangeControls.interval year_start today pressed st = "1d"%string).
Proof.
  intros Hnone. cbv zeta. unfold RangeControls.interval. cbv zeta.
  unfold RangeControls.quick_select.
  rewrite fold_quick_unpressed by assumption.
  unfold RangeControls.init. cbn [set_manual manual_start manual_end active_preset].
  split; [reflexivity|]. split; [intros d ->; reflexivity|].
  split; [intros d ->; reflexivity|].
  intros -> ->. cbn [RangeControls.date_input].
  repeat split. unfold Metals.interval_for.
  destruct (Z.leb_spec (today - (today - 365)) 7); [lia|].
  destruct (Z.leb_spec (today - (today - 365)) 60); [lia|]. reflexivity.
Qed.

Lemma range_without_preset_witness :
  RangeControls.interval (fun _ => 19000%Z) 19300 (fun _ => false)
    {| custom_mode := None; selected_commodity := None; active_preset := None;
       manual_start := None; manual_end := None |}
  = "1d"%string.
Proof.
  destruct (@range_without_preset (fun _ => 19000%Z) 19300 (fun _ => false)
              {| custom_mode := None; selected_commodity := None;
                 active_preset := None;
                 manual_start := None; manual_end := None |})
    as (_ & _ & _ & H).
  - intros e _. reflexivity.
  - destruct (H eq_refl eq_refl) as (_ & _ & Hi). exact Hi.
Defined.

(** ** Metals: the normalised overview *)

Lemma observations_map (f : f64 -> f64) (col : Pandas.Series) :
  (forall x, In x col -> F64.isnan (f x) = F64.isnan x) ->
  Pandas.observations (map f col) = map f (Pandas.observations col).
Proof.
  unfold Pandas.observations. induction col as [|x col IH]; intro H; [reflexivity|].
  cbn [map filter]. rewrite (H x (or_introl eq_refl)).
  rewrite IH by (intros y Hy; apply H; now right).
  destruct (F64.isnan x); reflexivity.
Qed.

Lemma first_valid_in (col : Pandas.Series) :
  F64.isnan (Metals.first_valid col) = false -> In (Metals.first_valid col) col.
Proof.
  unfold Metals.first_valid. intro H.
  destruct (Pandas.observations col) as [|x obs] eqn:E; [discriminate|].
  assert (Hx : In x (Pandas.observations col)) by (rewrite E; now left).
  unfold Pandas.observations in Hx. now apply filter_In in Hx.
Qed.

Lemma index_keeps_nan (b : R) (x : f64) :
  b <> 0%R -> F64.isinf x = false ->
  F64.isnan (F64.mul (F64.div x (F64.Fin b)) (F64.Fin 100)) = F64.isnan x.
Proof.
  intros Hb Hx. destruct x; try discriminate; [|reflexivity].
  cbn. rewrite (@R_eqb_neq b 0%R Hb). reflexivity.
Qed.

Lemma valid_column_first (data : Pandas.DataFrame) (c : string * Pandas.Series) :
  (forall c, In c (Pandas.columns data) -> no_infinity (snd c)) ->
  In c (startable_columns data) ->
  exists b, Metals.first_valid (snd c) = F64.Fin b /\ b <> 0%R /\ no_infinity (snd c).
Proof.
  intros Hfin Hc. unfold startable_columns in Hc. apply filter_In in Hc.
  destruct Hc as [Hin Hv]. unfold Metals.startable in Hv. cbv zeta in Hv.
  apply andb_true_iff in Hv.
  destruct Hv as [Hnan Hzero]. apply negb_true_iff in Hnan.
  pose proof (Hfin c Hin (Metals.first_valid (snd c)) (first_valid_in _ Hnan)) as Hinf.
  destruct (Metals.first_valid (snd c)) as [b| | |] eqn:E; try discriminate.
  exists b. split; [reflexivity|]. split; [|exact (Hfin c Hin)].
  intro Hb. subst b. unfold F64.neqb, F64.eqb in Hzero.
  rewrite (@R_eqb_eq 0%R 0%R eq_refl) in Hzero. discriminate.
Qed.

Lemma first_valid_indexed (col : Pandas.Series) (b : R) :
  Metals.first_valid col = F64.Fin b -> b <> 0%R -> no_infinity col ->
  Metals.first_valid
    (map (fun x => F64.mul (F64.div x (F64.Fin b)) (F64.Fin 100)) col)
  = F64.Fin 100.
Proof.
  intros Hfirst Hb Hinf. unfold Metals.first_valid in *.
  rewrite observations_map
    by (intros x Hx; apply index_keeps_nan; [exact Hb|exact (Hinf x Hx)]).
  destruct (Pandas.observations col) as [|x obs]; [discriminate|].
  subst x. cbn. rewrite (@R_eqb_neq b 0%R Hb). cbn. apply f_equal. now field.
Qed.

Lemma mem_false (n : string) (names : list string) :
  ~ In n names -> Metals.mem n names = false.
Proof.
  intro H. unfold Metals.mem. destruct (existsb _ names) eqn:E; [|reflexivity].
  apply existsb_exists in E. destruct E as (x & Hx & Heq).
  apply String.eqb_eq in Heq. subst x. contradiction.
Qed.

Lemma has_duplicates_NoDup (names : list string) :
  NoDup names -> Metals.has_duplicates names = false.
Proof.
  induction 1 as [|n names Hn Hnd IH]; [reflexivity|].
  cbn [Metals.has_duplicates]. now rewrite mem_false, IH.
Qed.

(** With a label that occurs twice the overview raises before it shows
    anything, when the Normalise box is ticked. *)
Lemma metals_overview_duplicate_labels (data : Pandas.DataFrame) :
  Metals.has_duplicates (map fst (Pandas.columns data)) = true ->
  Metals.overview true data = ([], Raise ValueError).
Proof.
  intro H. unfold Metals.overview, Metals.valid_columns. now rewrite H.
Qed.

(** X23: with the Normalise box ticked, on a frame with rows and
    distinct column labels whose prices are numbers or NaN, and at least
    one series that can be indexed, the overview of the Metals page shows
    its caption and then plots, for exactly the series that have a first
    available value other than zero, a series whose first available value
    is 100. *)
Theorem metals_normalised_overview (data : Pandas.DataFrame) :
  NoDup (map fst (Pandas.columns data)) ->
  Pandas.Date data <> [] ->
  (forall c, In c (Pandas.columns data) -> no_infinity (snd c)) ->
  startable_columns data <> [] ->
  (exists rest,
     rendered (Metals.overview true data)
     = st_caption "Normalised to 100 at the first available value within the selected date range for each series."
       :: st_plotly_chart
            (map (fun c => Scatter (Pandas.Date data) (snd c) (fst c))
                 (Pandas.columns (normalised data)))
       :: rest) /\
  map fst (Pandas.columns (normalised data)) = map fst (startable_columns data) /\
  forall c, In c (Pandas.columns (normalised data)) ->
            Metals.first_valid (snd c) = F64.Fin 100.
Proof.
  intros Hnodup Hrows Hfin Hvalid. split; [|split].
  - unfold Metals.overview, Metals.valid_columns.
    rewrite (has_duplicates_NoDup Hnodup). fold (startable_columns data).
    run_page.
    destruct (startable_columns data) as [|c0 cs] eqn:E; [contradiction|].
    cbn [length Nat.eqb]. rewrite <- E.
    run_page. fold (normalised data).
    assert (Hfig : Pandas.px_line (normalised data)
                   = Ok (map (fun c => Scatter (Pandas.Date data) (snd c) (fst c))
                             (Pandas.columns (normalised data)))).
    { unfold Pandas.px_line, Pandas.empty, normalised.
      cbn [Pandas.Date Pandas.columns]. rewrite E.
      destruct (Pandas.Date data); [contradiction|reflexivity]. }
    rewrite Hfig. clear Hfig. run_page.
    destruct (Pandas.empty _); run_page; [eexists; reflexivity|].
    destruct (Pandas.px_line (Pandas.dropna _)); run_page; eexists; reflexivity.
  - unfold normalised. cbn [Pandas.columns]. rewrite map_map. reflexivity.
  - intros c Hc. unfold normalised in Hc. cbn [Pandas.columns] in Hc.
    apply in_map_iff in Hc. destruct Hc as (c0 & <- & Hc0).
    destruct (valid_column_first data c0 Hfin Hc0) as (b & Hb & Hnz & Hinf).
    cbn [snd]. rewrite Hb. now apply first_valid_indexed.
Qed.

Lemma metals_normalised_overview_witness :
  Forall (fun c => Metals.first_valid (snd c) = F64.Fin 100)
         (Pandas.columns
            (normalised
               {| Pandas.Date := [Pandas.days 100; Pandas.days 101; Pandas.days 102];
                  Pandas.columns :=
                    [("Gold"%string, [F64.NaN; F64.Fin 50; F64.Fin 75])] |})).
Proof.
  apply Forall_forall.
  apply (@metals_normalised_overview
           {| Pandas.Date := [Pandas.days 100; Pandas.days 101; Pandas.days 102];
              Pandas.columns :=
                [("Gold"%string, [F64.NaN; F64.Fin 50; F64.Fin 75])] |}).
  - cbn. repeat constructor. intros [].
  - discriminate.
  - intros c Hc x Hx. cbn in Hc. destruct Hc as [<-|[]]. cbn in Hx.
    destruct Hx as [<-|[<-|[<-|[]]]]; reflexivity.
  - unfold startable_columns, Metals.startable. cbn [Pandas.columns filter].
    unfold Metals.first_valid, Pandas.observations.
    cbn [snd filter F64.isnan negb andb F64.neqb F64.eqb].
    unfold F64.neqb, F64.eqb. rewrite (@R_eqb_neq 50%R 0%R) by lra. discriminate.
Defined.

(** ** Oil: rolling mean and standard deviation of the prices *)

Lemma window_prices (w : Z) (dates : list Z) (cs : list R) (i : nat) :
  length dates = length cs ->
  (i < length cs)%nat ->
  observations (window_time (days w) dates i (prep_values (map F64.Fin cs)))
  = map F64.Fin (prices_in_window w dates cs i).
Proof.
  intros Hlen Hi. rewrite prep_values_finite.
  rewrite (dates_as_map_seq dates) at 1. rewrite Hlen.
  assert (Hcs : map F64.Fin cs
                = map (fun j => F64.Fin (nth j cs 0)) (seq 0 (length cs))).
  { apply (nth_ext _ _ F64.NaN F64.NaN).
    - now rewrite !length_map, length_seq.
    - intros j Hj. rewrite length_map in Hj.
      rewrite nth_map_seq by assumption. now apply nth_map_Fin. }
  rewrite Hcs, window_time_generated by assumption.
  unfold prices_in_window. cbn [Nat.add].
  rewrite <- (map_map (fun j => nth j cs 0) F64.Fin).
  apply observations_finite.
Qed.

Lemma days_pos (w : Z) : (0 < w)%Z -> (0 < days w)%Z.
Proof. unfold days, ns_per_day. lia. Qed.

(** The window ending at a row holds that row. *)
Lemma prices_in_window_own (w : Z) (dates : list Z) (cs : list R) (i : nat) :
  (0 < w)%Z -> In (nth i cs 0) (prices_in_window w dates cs i).
Proof.
  intro Hw. unfold prices_in_window. apply in_map_iff. exists i.
  split; [reflexivity|]. apply filter_In. split.
  - apply in_seq. lia.
  - apply Z.ltb_lt. pose proof (days_pos Hw). lia.
Qed.

Lemma prices_in_window_within (w : Z) (dates : list Z) (cs : list R) (i : nat)
      (lo hi : R) :
  within lo hi cs -> (i < length cs)%nat ->
  within lo hi (prices_in_window w dates cs i).
Proof.
  unfold within. intros Hcs Hi. apply Forall_forall. intros x Hx.
  unfold prices_in_window in Hx. apply in_map_iff in Hx.
  destruct Hx as (j & <- & Hj). apply filter_In in Hj. destruct Hj as [Hj _].
  apply in_seq in Hj. rewrite Forall_forall in Hcs. apply Hcs, nth_In. lia.
Qed.

Lemma prices_in_window_first (w : Z) (dates : list Z) (cs : list R) :
  (0 < w)%Z -> prices_in_window w dates cs 0 = [nth 0 cs 0].
Proof.
  intro Hw. unfold prices_in_window. cbn [Nat.add seq filter].
  pose proof (days_pos Hw).
  destruct (Z.ltb_spec (nth 0 dates 0 - days w) (nth 0 dates 0))%Z; [reflexivity|lia].
Qed.

Lemma Rsum_within (lo hi : R) (l : list R) :
  within lo hi l ->
  INR (length l) * lo <= Rsum l <= INR (length l) * hi.
Proof.
  unfold within. induction 1 as [|x l Hx Hl IH].
  - simpl. lra.
  - rewrite length_cons, S_INR. simpl. lra.
Qed.

Lemma mean_of_within (lo hi : R) (l : list R) :
  l <> [] -> within lo hi l -> lo <= mean_of l <= hi.
Proof.
  intros Hne Hl. pose proof (Rsum_within Hl) as [H1 H2].
  pose proof (INR_length_pos Hne) as Hn. unfold mean_of.
  split.
  - apply Rmult_le_reg_r with (INR (length l)); [assumption|].
    unfold Rdiv. rewrite Rmult_assoc, Rinv_l by lra. lra.
  - apply Rmult_le_reg_r with (INR (length l)); [assumption|].
    unfold Rdiv. rewrite Rmult_assoc, Rinv_l by lra. lra.
Qed.

Lemma lookup_map_columns (f : Series -> Series) (name : string)
      (cols : list (string * Series)) :
  lookup name (map (fun c => (fst c, f (snd c))) cols)
  = option_map f (lookup name cols).
Proof.
  induction cols as [|[n col] cols IH]; [reflexivity|].
  cbn [map lookup fst snd]. destruct (String.eqb n name); [reflexivity|exact IH].
Qed.

Lemma get_rolling_time (w : Z) (agg : Series -> f64) (data : DataFrame)
      (name : string) :
  get (map_columns (rolling_time w agg (Date data)) data) name
  = rolling_time w agg (Date data) (get data name).
Proof.
  unfold get, map_columns. cbn [columns]. rewrite lookup_map_columns.
  destruct (lookup name (columns data)); reflexivity.
Qed.

Section OilRolling.

Variables (w : Z) (dates : list Z) (cs : list R) (lo hi : R).

Hypothesis Hw : (0 < w)%Z.
Hypothesis Hlen : length dates = length cs.
Hypothesis Hcs : within lo hi cs.

Lemma rolling_mean_within (i : nat) :
  (i < length cs)%nat ->
  nth i (rolling_time (days w) mean dates (map F64.Fin cs)) F64.NaN
  = F64.Fin (mean_of (prices_in_window w dates cs i)) /\
  lo <= mean_of (prices_in_window w dates cs i) <= hi.
Proof.
  intro Hi.
  assert (Hne : prices_in_window w dates cs i <> []).
  { intro E. pose proof (prices_in_window_own dates cs i Hw) as Hin.
    rewrite E in Hin. contradiction. }
  split.
  - rewrite nth_rolling_time by now rewrite length_map.
    cbv zeta. rewrite window_prices by assumption.
    rewrite length_map.
    destruct (prices_in_window w dates cs i) as [|x l] eqn:E; [congruence|].
    cbn [length Nat.ltb Nat.leb]. now apply mean_finite.
  - apply mean_of_within; [assumption|]. now apply prices_in_window_within.
Qed.

Lemma rolling_std_nonneg (i : nat) :
  (i < length cs)%nat ->
  let v := nth i (rolling_time (days w) (std 1) dates (map F64.Fin cs)) F64.NaN in
  v = F64.NaN \/ exists s, v = F64.Fin s /\ 0 <= s.
Proof.
  intro Hi. cbv zeta.
  rewrite nth_rolling_time by now rewrite length_map.
  cbv zeta. rewrite window_prices by assumption.
  rewrite std_finite_or_nan.
  destruct (_ <? 1)%nat; [now left|].
  destruct (_ <? 2)%nat; [now left|right].
  eexists. split; [reflexivity|apply sample_std_nonneg].
Qed.

Lemma rolling_std_first :
  cs <> [] ->
  nth 0 (rolling_time (days w) (std 1) dates (map F64.Fin cs)) F64.NaN = F64.NaN.
Proof.
  intro Hne.
  assert (H0 : (0 < length cs)%nat).
  { apply Nat.neq_0_lt_0. intro E. now apply length_zero_iff_nil in E. }
  rewrite nth_rolling_time by now rewrite length_map.
  cbv zeta. rewrite window_prices by assumption.
  rewrite prices_in_window_first by assumption. reflexivity.
Qed.

End OilRolling.

(** X24: on the Oil page, with a window of at least one day that fits in
    the requested range and Brent and WTI closes without missing values
    lying between [lo] and [hi], the Rolling Mean & Std tab shows one
    chart of four lines over the dates of the data; at every row both
    rolling means are the mean of the closes dated within the window and
    lie between [lo] and [hi]; every rolling standard deviation is NaN or
    not negative, and it is NaN at the first row. *)
Theorem oil_rolling_mean_within_prices
        (data : DataFrame) (bs ws : list R) (lo hi : R)
        (start end_ window_days : Z) :
  (0 < window_days)%Z ->
  (window_days <= end_ - start)%Z ->
  get data "Brent" = map F64.Fin bs ->
  get data "WTI" = map F64.Fin ws ->
  length (Date data) = length bs ->
  length (Date data) = length ws ->
  bs <> [] ->
  within lo hi bs -> within lo hi ws ->
  exists mean_b mean_w std_b std_w,
    rendered (Oil.tab2 start end_ window_days data)
    = [st_plotly_chart [Scatter (Date data) mean_b "Mean Brent";
                        Scatter (Date data) mean_w "Mean WTI";
                        Scatter (Date data) std_b "Std Brent";
                        Scatter (Date data) std_w "Std WTI"]] /\
    (forall i, (i < length (Date data))%nat ->
       nth i mean_b F64.NaN
       = F64.Fin (mean_of (prices_in_window window_days (Date data) bs i)) /\
       lo <= mean_of (prices_in_window window_days (Date data) bs i) <= hi /\
       nth i mean_w F64.NaN
       = F64.Fin (mean_of (prices_in_window window_days (Date data) ws i)) /\
       lo <= mean_of (prices_in_window window_days (Date data) ws i) <= hi /\
       (nth i std_b F64.NaN = F64.NaN \/
        exists s, nth i std_b F64.NaN = F64.Fin s /\ 0 <= s) /\
       (nth i std_w F64.NaN = F64.NaN \/
        exists s, nth i std_w F64.NaN = F64.Fin s /\ 0 <= s)) /\
    nth 0 std_b F64.NaN = F64.NaN /\
    nth 0 std_w F64.NaN = F64.NaN.
Proof.
  intros Hw Hfit Hb Hwti Hlb Hlw Hne Hbs Hws.
  assert (Hnew : ws <> []).
  { intro E. subst ws. destruct bs; [congruence|]. simpl in *. lia. }
  unfold Oil.tab2.
  destruct (Z.ltb_spec (end_ - start) window_days) as [Hbad|_]; [lia|].
  rewrite !get_rolling_time, Hb, Hwti. cbn [Date map_columns].
  eexists _, _, _, _. split; [reflexivity|]. split; [|split].
  - intros i Hi.
    assert (Hib : (i < length bs)%nat) by lia.
    assert (Hiw : (i < length ws)%nat) by lia.
    destruct (@rolling_mean_within window_days (Date data) bs lo hi Hw Hlb Hbs i Hib)
      as [Hmb Hrb].
    destruct (@rolling_mean_within window_days (Date data) ws lo hi Hw Hlw Hws i Hiw)
      as [Hmw Hrw].
    repeat split; try assumption; try apply Hrb; try apply Hrw.
    + exact (@rolling_std_nonneg window_days (Date data) bs Hlb i Hib).
    + exact (@rolling_std_nonneg window_days (Date data) ws Hlw i Hiw).
  - now apply rolling_std_first.
  - now apply rolling_std_first.
Qed.

Lemma oil_prices_within :
  within 75 82 Examples.brent /\ within 75 82 Examples.wti.
Proof.
  unfold within, Examples.brent, Examples.wti.
  split; repeat constructor; lra.
Qed.

Lemma oil_rolling_mean_within_prices_witness :
  exists mean_b mean_w std_b std_w,
    rendered (Oil.tab2 0 90 30 Examples.oil_frame)
    = [st_plotly_chart [Scatter (Date Examples.oil_frame) mean_b "Mean Brent";
                        Scatter (Date Examples.oil_frame) mean_w "Mean WTI";
                        Scatter (Date Examples.oil_frame) std_b "Std Brent";
                        Scatter (Date Examples.oil_frame) std_w "Std WTI"]] /\
    (exists m, nth 2 mean_b F64.NaN = F64.Fin m /\ 75 <= m <= 82) /\
    nth 0 std_b F64.NaN = F64.NaN.
Proof.
  destruct (@oil_rolling_mean_within_prices Examples.oil_frame
              Examples.brent Examples.wti 75 82 0%Z 90%Z 30%Z)
    as (mb & mw & sb & sw & Hr & Hrows & Hb0 & _).
  - lia.
  - lia.
  - reflexivity.
  - reflexivity.
  - reflexivity.
  - reflexivity.
  - discriminate.
  - apply oil_prices_within.
  - apply oil_prices_within.
  - exists mb, mw, sb, sw. split; [exact Hr|]. split; [|exact Hb0].
    destruct (Hrows 2%nat) as (Hm & Hrange & _); [simpl; lia|].
    eexists. split; [exact Hm|exact Hrange].
Defined.

(** ** Oil: the loaded frame has no missing value *)

Lemma oil_friendly_names :
  Oil.friendly "BZ=F" = "Brent"%string /\ Oil.friendly "CL=F" = "WTI"%string.
Proof. split; reflexivity. Qed.

(** X25: when the download is rectangular, the frame the Oil page works
    on has one column per ticker that came with a Close column, in the
    order of the download and under its friendly name ("BZ=F" as Brent,
    "CL=F" as WTI); every column has the length of the Date column and none
    holds a NaN: a row with a missing close for either crude is dropped for
    both. *)
Theorem oil_loaded_frame_complete
        (yf : YFinance) (start end_ : Z) (interval : string) (data : DataFrame) :
  Oil.load yf start end_ interval = Ok data ->
  rectangular (download yf ["BZ=F"; "CL=F"]%string start end_ interval) ->
  map fst (columns data)
  = map Oil.friendly
        (close_tickers (download yf ["BZ=F"; "CL=F"]%string start end_ interval)) /\
  Oil.friendly "BZ=F" = "Brent"%string /\
  Oil.friendly "CL=F" = "WTI"%string /\
  forall name col, In (name, col) (columns data) ->
    length col = length (Date data) /\
    forall x, In x col -> F64.isnan x = false.
Proof.
  unfold Oil.load. cbv zeta. cbn [map Oil.tickers snd].
  set (raw := download yf _ start end_ interval).
  intros Hload Hwf.
  destruct (raw_field raw "Close") as [close|e] eqn:E; [|discriminate].
  cbn [and_then] in Hload. injection Hload as <-.
  unfold raw_field in E.
  destruct (existsb _ (level0 raw)); [|discriminate].
  injection E as <-.
  split; [|split; [reflexivity|split; [reflexivity|]]].
  - unfold rename, dropna, filter_rows, close_tickers. cbn [columns].
    rewrite !map_map. reflexivity.
  - intros name col Hcol. unfold rename in Hcol. cbn [columns Date] in *.
    apply in_map_iff in Hcol. destruct Hcol as ([n c] & [= <- <-] & Hc).
    cbn [snd]. change (Date (rename Oil.friendly ?d)) with (Date d).
    apply (@dropna_no_missing _ n c); [|exact Hc].
    intros [n' c'] Hc'. cbn [columns Date snd] in *.
    apply in_map_iff in Hc'. destruct Hc' as (rc & [= _ <-] & Hrc).
    apply filter_In in Hrc. apply Hwf, Hrc.
Qed.

Lemma oil_partial_loaded :
  Oil.load OilExamples.yf_partial 0 90 "1d" = Ok OilExamples.loaded.
Proof. reflexivity. Qed.

Lemma oil_loaded_frame_complete_witness :
  map fst (columns OilExamples.loaded) = ["Brent"; "WTI"]%string /\
  forall name col, In (name, col) (columns OilExamples.loaded) ->
    length col = length (Date OilExamples.loaded) /\
    forall x, In x col -> F64.isnan x = false.
Proof.
  destruct (@oil_loaded_frame_complete OilExamples.yf_partial 0 90 "1d"
              OilExamples.loaded oil_partial_loaded) as (Hn & _ & _ & Hc).
  - intros c Hin. cbn in Hin.
    repeat destruct Hin as [<-|Hin]; try reflexivity. destruct Hin.
  - split; [exact Hn|exact Hc].
Defined.
